(** * libksba: the CMS signed-data engine of [src/cms.c]

    A shallow embedding of the container object, the content dispatcher,
    the accessors and the two signed-data state machines of [cms.c],
    followed by the properties of the specification that concern them.

    The functions of [cms.c] are written in a small state monad over the
    container and the memory it points into.  Everything [cms.c] calls
    but does not define (the BER/DER codec, the ASN.1 tree functions,
    the staged parser of [cms-parser.c], the writer) is collected in the
    record [Externals] and left uninterpreted. *)

From Stdlib Require Import ZArith List Bool Lia.
From Stdlib.Strings Require Import Byte.
From stdpp Require Import base option gmap strings list.
Import ListNotations.
Open Scope Z_scope.

(** ** Enumerations of [ksba.h] and [asn1-func.h] *)

(** Modelled from the spec: the enumeration [KsbaError] is declared in
    [ksba.h], which is not among the sources; these are the error kinds
    of section 7 under the names [cms.c] uses.  [KSBA_No_Error] is the
    value 0 that [if (err)] tests; [KSBA_EOF] is the literal [-1]
    returned by [ksba_cms_hash_signed_attrs]; [KSBA_Other_Error] stands
    for the codes only the external helpers produce. *)
Inductive KsbaError : Type :=
  | KSBA_EOF
  | KSBA_No_Error
  | KSBA_General_Error
  | KSBA_Out_Of_Core
  | KSBA_Invalid_Value
  | KSBA_Not_Implemented
  | KSBA_Conflict
  | KSBA_No_Data
  | KSBA_No_Value
  | KSBA_Bug
  | KSBA_Element_Not_Found
  | KSBA_Invalid_State
  | KSBA_Value_Not_Found
  | KSBA_Duplicate_Value
  | KSBA_Missing_Value
  | KSBA_Missing_Action
  | KSBA_Invalid_Index
  | KSBA_Invalid_CMS_Object
  | KSBA_Unknown_CMS_Object
  | KSBA_Unsupported_CMS_Object
  | KSBA_Other_Error (code : positive).

(** The C test [if (err)]. *)
Definition is_error (err : KsbaError) : bool :=
  match err with KSBA_No_Error => false | _ => true end.

(** Modelled from the spec: the enumeration [KsbaStopReason] is declared
    in [ksba.h], which is not among the sources; these are the stop
    reasons of section 4.2.  [KSBA_SR_NONE] is the value 0 of a freshly
    allocated container, the one [!cms->stop_reason] tests for and the
    handlers tell apart from every named reason; [KSBA_SR_other] stands
    for every further non-zero value of the C type. *)
Inductive KsbaStopReason : Type :=
  | KSBA_SR_NONE
  | KSBA_SR_RUNNING
  | KSBA_SR_GOT_CONTENT
  | KSBA_SR_NEED_HASH
  | KSBA_SR_BEGIN_DATA
  | KSBA_SR_END_DATA
  | KSBA_SR_READY
  | KSBA_SR_NEED_SIG
  | KSBA_SR_other (code : positive).

(** Modelled from the spec: the enumeration [KsbaContentType] is
    declared in [ksba.h], which is not among the sources; these are the
    tags of section 4.1.  [KSBA_CT_NONE] is the value 0. *)
Inductive KsbaContentType : Type :=
  | KSBA_CT_NONE
  | KSBA_CT_DATA
  | KSBA_CT_SIGNED_DATA
  | KSBA_CT_ENVELOPED_DATA
  | KSBA_CT_DIGESTED_DATA
  | KSBA_CT_ENCRYPTED_DATA
  | KSBA_CT_AUTH_DATA.

#[global] Instance KsbaContentType_eq_dec : EqDecision KsbaContentType.
Proof. solve_decision. Defined.

#[global] Instance KsbaError_eq_dec : EqDecision KsbaError.
Proof. solve_decision. Defined.

#[global] Instance KsbaStopReason_eq_dec : EqDecision KsbaStopReason.
Proof. solve_decision. Defined.

(** Modelled from the spec: node types and tag classes are declared in
    [asn1-func.h], which is not among the sources; these are the ones
    [cms.c] names.  [TYPE_NONE] and [CLASS_UNIVERSAL] are the value 0
    that [cms.c] passes literally when it writes end-of-contents
    octets. *)
Inductive node_type : Type :=
  | TYPE_NONE
  | TYPE_INTEGER
  | TYPE_OCTET_STRING
  | TYPE_OBJECT_ID
  | TYPE_SEQUENCE
  | TYPE_SET
  | TYPE_SET_OF
  | TYPE_other (code : positive).

Inductive asn_class : Type :=
  | CLASS_UNIVERSAL
  | CLASS_CONTEXT.

#[global] Instance node_type_eq_dec : EqDecision node_type.
Proof. solve_decision. Defined.

(** ** Memory: ASN.1 nodes, strings, byte images *)

(** Addresses of heap objects; a C pointer is an [option ptr], [None]
    being [NULL]. *)
Definition ptr : Type := positive.

(** A byte image ([unsigned char *] with its extent). *)
Definition image : Type := list byte.

#[global] Instance byte_eq_decision : EqDecision byte := Byte.byte_eq_dec.

(** Modelled from the spec: [struct asn_node_struct] is declared in
    [asn1-func.h], which is not among the sources; these are the fields
    section 2 lists ([type], [off], [nhdr], [len], [down], [right]) and
    [cms.c] reads.  The links are pointers into the node heap. *)
Record asn_node_struct : Type := {
  type  : node_type;
  off   : Z;
  nhdr  : Z;
  len   : Z;
  down  : option ptr;
  right : option ptr
}.

(** One invocation of the registered hash callback:
    [hash_fnc (hash_fnc_arg, data, length data)]. *)
Record hash_call : Type := {
  hc_fnc  : ptr;
  hc_arg  : option ptr;
  hc_data : list byte
}.

(** What lives outside the container: the node heap, the heap of
    C strings, and the record of what was fed to the hash callback. *)
Record World : Type := {
  nodes   : gmap ptr asn_node_struct;
  strings : gmap ptr string;
  hashed  : list hash_call
}.

Definition set_hashed (l : list hash_call) (w : World) : World :=
  {| nodes := nodes w; strings := strings w; hashed := l |}.

(** [image + off] read for [n] bytes; [None] when the access leaves the
    image (a negative [int] length converts to a huge [size_t]). *)
Definition mem_read (img : image) (o n : Z) : option (list byte) :=
  if (0 <=? o) && (0 <=? n) && (o + n <=? Z.of_nat (length img))
  then Some (take (Z.to_nat n) (drop (Z.to_nat o) img))
  else None.

(** Conversion to [unsigned char]. *)
Definition byte_of_Z (z : Z) : byte :=
  match Byte.of_N (Z.to_N (z mod 256)) with
  | Some b => b
  | None => x00
  end.

(** ** The container *)

(** Modelled from the spec: [KsbaReader] and [KsbaWriter] are declared
    in [reader.h] and [writer.h], which are not among the sources; they
    are byte-oriented pull and push streams, which the container sees
    through the external functions only. *)
Definition KsbaReader : Type := list byte.
Definition KsbaWriter : Type := list byte.

(** Modelled from the spec: [struct ksba_cert_s] is declared in
    [cert.h], which is not among the sources; [cms.c] reads its ASN.1
    root and its raw image. *)
Record KsbaCert : Type := {
  cert_root  : option ptr;
  cert_image : option image
}.

(** Modelled from the spec: [struct oidlist_s] is declared in [cms.h],
    which is not among the sources: an owned OID string and a forward
    link.  The [next] link is the tail of the list. *)
Record oidlist_s : Type := {
  oid : option string
}.

(** Modelled from the spec: [struct certlist_s] is declared in [cms.h],
    which is not among the sources: the certificate, the message digest
    buffer with its length, and the cached attribute tree with its
    image.  The [next] link is the tail of the list. *)
Record certlist_s : Type := {
  cert           : option KsbaCert;
  msg_digest     : list byte;
  msg_digest_len : Z;
  attr_root      : option ptr;
  attr_image     : option image
}.

(** The functions a content handler pointer can denote. *)
Inductive handler_fn : Type :=
  | fn_ct_parse_data
  | fn_ct_parse_signed_data
  | fn_ct_parse_enveloped_data
  | fn_ct_parse_digested_data
  | fn_ct_parse_encrypted_data
  | fn_ct_build_data
  | fn_ct_build_signed_data
  | fn_ct_build_enveloped_data
  | fn_ct_build_digested_data
  | fn_ct_build_encrypted_data.

#[global] Instance handler_fn_eq_dec : EqDecision handler_fn.
Proof. solve_decision. Defined.

(** Modelled from the spec: [struct ksba_cms_s] is declared in [cms.h],
    which is not among the sources; these are the fields of the
    container of section 3, under the names [cms.c] accesses them by
    ([content.oid] is [content_oid], [signer_info.cache.digest_algo] is
    [signer_info_cache_digest_algo], and so on). *)
Record KsbaCMS : Type := {
  reader                        : option KsbaReader;
  writer                        : option KsbaWriter;
  stop_reason                   : KsbaStopReason;
  content_oid                   : option string;
  content_ct                    : KsbaContentType;
  content_handler               : option handler_fn;
  encap_cont_type               : option string;
  digest_algos                  : list oidlist_s;
  cert_list                     : list certlist_s;
  signer_info_root              : option ptr;
  signer_info_image             : option image;
  signer_info_cache_digest_algo : option ptr;
  data_digest                   : option (list byte);
  detached_signature            : bool;
  hash_fnc                      : option ptr;
  hash_fnc_arg                  : option ptr
}.

(** Field assignments. *)
Definition set_reader_writer (r : option KsbaReader) (w : option KsbaWriter)
    (c : KsbaCMS) : KsbaCMS :=
  {| reader := r; writer := w; stop_reason := stop_reason c;
     content_oid := content_oid c; content_ct := content_ct c;
     content_handler := content_handler c;
     encap_cont_type := encap_cont_type c; digest_algos := digest_algos c;
     cert_list := cert_list c; signer_info_root := signer_info_root c;
     signer_info_image := signer_info_image c;
     signer_info_cache_digest_algo := signer_info_cache_digest_algo c;
     data_digest := data_digest c;
     detached_signature := detached_signature c;
     hash_fnc := hash_fnc c; hash_fnc_arg := hash_fnc_arg c |}.

Definition set_writer (w : option KsbaWriter) (c : KsbaCMS) : KsbaCMS :=
  set_reader_writer (reader c) w c.

Definition set_stop_reason (sr : KsbaStopReason) (c : KsbaCMS) : KsbaCMS :=
  {| reader := reader c; writer := writer c; stop_reason := sr;
     content_oid := content_oid c; content_ct := content_ct c;
     content_handler := content_handler c;
     encap_cont_type := encap_cont_type c; digest_algos := digest_algos c;
     cert_list := cert_list c; signer_info_root := signer_info_root c;
     signer_info_image := signer_info_image c;
     signer_info_cache_digest_algo := signer_info_cache_digest_algo c;
     data_digest := data_digest c;
     detached_signature := detached_signature c;
     hash_fnc := hash_fnc c; hash_fnc_arg := hash_fnc_arg c |}.

Definition set_content (o : option string) (ct : KsbaContentType)
    (h : option handler_fn) (c : KsbaCMS) : KsbaCMS :=
  {| reader := reader c; writer := writer c; stop_reason := stop_reason c;
     content_oid := o; content_ct := ct; content_handler := h;
     encap_cont_type := encap_cont_type c; digest_algos := digest_algos c;
     cert_list := cert_list c; signer_info_root := signer_info_root c;
     signer_info_image := signer_info_image c;
     signer_info_cache_digest_algo := signer_info_cache_digest_algo c;
     data_digest := data_digest c;
     detached_signature := detached_signature c;
     hash_fnc := hash_fnc c; hash_fnc_arg := hash_fnc_arg c |}.

Definition set_encap_cont_type (o : option string) (c : KsbaCMS) : KsbaCMS :=
  {| reader := reader c; writer := writer c; stop_reason := stop_reason c;
     content_oid := content_oid c; content_ct := content_ct c;
     content_handler := content_handler c;
     encap_cont_type := o; digest_algos := digest_algos c;
     cert_list := cert_list c; signer_info_root := signer_info_root c;
     signer_info_image := signer_info_image c;
     signer_info_cache_digest_algo := signer_info_cache_digest_algo c;
     data_digest := data_digest c;
     detached_signature := detached_signature c;
     hash_fnc := hash_fnc c; hash_fnc_arg := hash_fnc_arg c |}.

Definition set_digest_algos (l : list oidlist_s) (c : KsbaCMS) : KsbaCMS :=
  {| reader := reader c; writer := writer c; stop_reason := stop_reason c;
     content_oid := content_oid c; content_ct := content_ct c;
     content_handler := content_handler c;
     encap_cont_type := encap_cont_type c; digest_algos := l;
     cert_list := cert_list c; signer_info_root := signer_info_root c;
     signer_info_image := signer_info_image c;
     signer_info_cache_digest_algo := signer_info_cache_digest_algo c;
     data_digest := data_digest c;
     detached_signature := detached_signature c;
     hash_fnc := hash_fnc c; hash_fnc_arg := hash_fnc_arg c |}.

Definition set_cert_list (l : list certlist_s) (c : KsbaCMS) : KsbaCMS :=
  {| reader := reader c; writer := writer c; stop_reason := stop_reason c;
     content_oid := content_oid c; content_ct := content_ct c;
     content_handler := content_handler c;
     encap_cont_type := encap_cont_type c; digest_algos := digest_algos c;
     cert_list := l; signer_info_root := signer_info_root c;
     signer_info_image := signer_info_image c;
     signer_info_cache_digest_algo := signer_info_cache_digest_algo c;
     data_digest := data_digest c;
     detached_signature := detached_signature c;
     hash_fnc := hash_fnc c; hash_fnc_arg := hash_fnc_arg c |}.

Definition set_signer_info (r : option ptr) (i : option image)
    (c : KsbaCMS) : KsbaCMS :=
  {| reader := reader c; writer := writer c; stop_reason := stop_reason c;
     content_oid := content_oid c; content_ct := content_ct c;
     content_handler := content_handler c;
     encap_cont_type := encap_cont_type c; digest_algos := digest_algos c;
     cert_list := cert_list c; signer_info_root := r;
     signer_info_image := i;
     signer_info_cache_digest_algo := signer_info_cache_digest_algo c;
     data_digest := data_digest c;
     detached_signature := detached_signature c;
     hash_fnc := hash_fnc c; hash_fnc_arg := hash_fnc_arg c |}.

Definition set_cache_digest_algo (p : option ptr) (c : KsbaCMS) : KsbaCMS :=
  {| reader := reader c; writer := writer c; stop_reason := stop_reason c;
     content_oid := content_oid c; content_ct := content_ct c;
     content_handler := content_handler c;
     encap_cont_type := encap_cont_type c; digest_algos := digest_algos c;
     cert_list := cert_list c; signer_info_root := signer_info_root c;
     signer_info_image := signer_info_image c;
     signer_info_cache_digest_algo := p;
     data_digest := data_digest c;
     detached_signature := detached_signature c;
     hash_fnc := hash_fnc c; hash_fnc_arg := hash_fnc_arg c |}.

Definition set_detached_signature (b : bool) (c : KsbaCMS) : KsbaCMS :=
  {| reader := reader c; writer := writer c; stop_reason := stop_reason c;
     content_oid := content_oid c; content_ct := content_ct c;
     content_handler := content_handler c;
     encap_cont_type := encap_cont_type c; digest_algos := digest_algos c;
     cert_list := cert_list c; signer_info_root := signer_info_root c;
     signer_info_image := signer_info_image c;
     signer_info_cache_digest_algo := signer_info_cache_digest_algo c;
     data_digest := data_digest c;
     detached_signature := b;
     hash_fnc := hash_fnc c; hash_fnc_arg := hash_fnc_arg c |}.

Definition set_hash_fnc (f a : option ptr) (c : KsbaCMS) : KsbaCMS :=
  {| reader := reader c; writer := writer c; stop_reason := stop_reason c;
     content_oid := content_oid c; content_ct := content_ct c;
     content_handler := content_handler c;
     encap_cont_type := encap_cont_type c; digest_algos := digest_algos c;
     cert_list := cert_list c; signer_info_root := signer_info_root c;
     signer_info_image := signer_info_image c;
     signer_info_cache_digest_algo := signer_info_cache_digest_algo c;
     data_digest := data_digest c;
     detached_signature := detached_signature c;
     hash_fnc := f; hash_fnc_arg := a |}.

(** ** The monad of the engine *)

(** The container together with the memory it points into. *)
Record State : Type := {
  st_world : World;
  st_cms   : KsbaCMS
}.

(** Ways in which a C function does not return. *)
Inductive Failure : Type :=
  | AssertionFailed   (* [assert] aborted the program *)
  | InvalidAccess     (* a read through NULL or outside an object *)
  | NonTermination.   (* a list walk that never ends *)

Inductive Outcome (S A : Type) : Type :=
  | Returns (a : A) (s : S)
  | Stuck (f : Failure).
Arguments Returns {S A} a s.
Arguments Stuck {S A} f.

Definition M (A : Type) : Type := State -> Outcome State A.

#[global] Instance M_ret : MRet M := fun A a s => Returns a s.
#[global] Instance M_bind : MBind M := fun A B k m s =>
  match m s with
  | Returns a s' => k a s'
  | Stuck f => Stuck f
  end.

Definition stuck {A : Type} (f : Failure) : M A := fun _ => Stuck f.
Definition get_cms : M KsbaCMS := fun s => Returns (st_cms s) s.
Definition get_world : M World := fun s => Returns (st_world s) s.
Definition modify_cms (f : KsbaCMS -> KsbaCMS) : M unit :=
  fun s => Returns tt {| st_world := st_world s; st_cms := f (st_cms s) |}.
Definition put_world (w : World) : M unit :=
  fun s => Returns tt {| st_world := w; st_cms := st_cms s |}.

(** The idiom [err = f (...); if (err) return err;]. *)
Notation "'DO' m ; k" :=
  (mbind (fun err : KsbaError => if is_error err then mret err else k) m)
  (at level 20, m at level 100, k at level 200, only parsing) : stdpp_scope.

(** [n->field] for a non-NULL node pointer [n]. *)
Definition node_at (n : ptr) : M asn_node_struct := fun s =>
  match nodes (st_world s) !! n with
  | Some nd => Returns nd s
  | None => Stuck InvalidAccess
  end.

(** ** What [cms.c] calls but does not define *)

(** The external collaborators.  Functions that receive the container
    itself act on the whole [State]; functions that receive nodes or
    images act on the [World]; writer functions act on the writer.
    A [char *] result is a pointer into [strings]; an image result is
    returned by value. *)
Record Externals : Type := {
  (* cms-parser.c *)
  _ksba_cms_parse_content_info : State -> KsbaError * State;
  _ksba_cms_parse_signed_data_part_1 : State -> KsbaError * State;
  _ksba_cms_parse_signed_data_part_2 : State -> KsbaError * State;
  (* asn1-func.c *)
  ksba_asn_create_tree : string -> World -> KsbaError * option ptr * World;
  _ksba_asn_find_node : World -> option ptr -> string -> option ptr;
  _ksba_asn_find_type_value :
    World -> option image -> option ptr -> Z -> list byte -> option ptr;
  _ksba_asn_expand_tree : option ptr -> string -> World -> option ptr * World;
  _ksba_asn_release_nodes : option ptr -> World -> World;
  (* dn.c, oid.c *)
  _ksba_dn_to_str : option image -> ptr -> World -> KsbaError * option ptr * World;
  _ksba_oid_node_to_str : option image -> option ptr -> World -> option ptr * World;
  ksba_oid_from_str : option string -> KsbaError * list byte;
  (* ber-help.c, writer.c, der-encoder.c *)
  _ksba_ber_write_tl :
    node_type -> asn_class -> bool -> Z ->
    option KsbaWriter -> KsbaError * option KsbaWriter;
  ksba_writer_write :
    list byte -> Z -> option KsbaWriter -> KsbaError * option KsbaWriter;
  _ksba_der_write_algorithm_identifier :
    string -> option KsbaWriter -> KsbaError * option KsbaWriter;
  _ksba_der_store_oid : option ptr -> string -> World -> KsbaError * World;
  _ksba_der_store_integer : option ptr -> list byte -> World -> KsbaError * World;
  _ksba_der_store_null : option ptr -> World -> KsbaError * World;
  _ksba_der_store_octet_string :
    option ptr -> list byte -> Z -> World -> KsbaError * World;
  _ksba_der_encode_tree : option ptr -> World -> KsbaError * option image * World;
  _ksba_der_copy_tree :
    option ptr -> option ptr -> option image -> World -> KsbaError * World;
  (* util.c: whether an allocation of the given size succeeds *)
  xtrymalloc : World -> Z -> bool;
  (* cms.h: DIM (cl->msg_digest) *)
  msg_digest_size : Z
}.

(** Running the external functions inside the monad. *)
Definition lift_state (f : State -> KsbaError * State) : M KsbaError :=
  fun s => let '(err, s') := f s in Returns err s'.

Definition lift_world {A : Type} (f : World -> A * World) : M A :=
  fun s => let '(a, w') := f (st_world s) in
           Returns a {| st_world := w'; st_cms := st_cms s |}.

Definition lift_writer
    (f : option KsbaWriter -> KsbaError * option KsbaWriter) : M KsbaError :=
  fun s => let '(err, wr') := f (writer (st_cms s)) in
           Returns err {| st_world := st_world s;
                          st_cms := set_writer wr' (st_cms s) |}.

(** An entry point of the library: [cms] may be NULL, in which case
    [if_null] is returned and nothing is touched. *)
Definition with_cms {A : Type} (cms : option KsbaCMS) (w : World)
    (if_null : A) (body : M A) : Outcome (World * option KsbaCMS) A :=
  match cms with
  | None => Returns if_null (w, None)
  | Some c =>
      match body {| st_world := w; st_cms := c |} with
      | Returns a s => Returns a (st_world s, Some (st_cms s))
      | Stuck f => Stuck f
      end
  end.

(** ** The content dispatcher *)

Record content_handler_row : Type := {
  row_oid           : string;
  row_ct            : KsbaContentType;
  row_parse_handler : option handler_fn;
  row_build_handler : option handler_fn
}.

(** The table [content_handlers]; the terminating [{ NULL }] row is the
    end of the list. *)
Definition content_handlers : list content_handler_row :=
  [ {| row_oid := "1.2.840.113549.1.7.1"; row_ct := KSBA_CT_DATA;
       row_parse_handler := Some fn_ct_parse_data;
       row_build_handler := Some fn_ct_build_data |};
    {| row_oid := "1.2.840.113549.1.7.2"; row_ct := KSBA_CT_SIGNED_DATA;
       row_parse_handler := Some fn_ct_parse_signed_data;
       row_build_handler := Some fn_ct_build_signed_data |};
    {| row_oid := "1.2.840.113549.1.7.3"; row_ct := KSBA_CT_ENVELOPED_DATA;
       row_parse_handler := Some fn_ct_parse_enveloped_data;
       row_build_handler := Some fn_ct_build_enveloped_data |};
    {| row_oid := "1.2.840.113549.1.7.5"; row_ct := KSBA_CT_DIGESTED_DATA;
       row_parse_handler := Some fn_ct_parse_digested_data;
       row_build_handler := Some fn_ct_build_digested_data |};
    {| row_oid := "1.2.840.113549.1.7.6"; row_ct := KSBA_CT_ENCRYPTED_DATA;
       row_parse_handler := Some fn_ct_parse_encrypted_data;
       row_build_handler := Some fn_ct_build_encrypted_data |};
    {| row_oid := "1.2.840.113549.1.9.16.1.2"; row_ct := KSBA_CT_AUTH_DATA;
       row_parse_handler := None;
       row_build_handler := None |} ].

(** [for (i=0; content_handlers[i].oid; i++) if (!strcmp (..)) break;]
    the row at which the loop stops, [None] when it reaches the
    terminating row. *)
Fixpoint find_row_by_oid (rows : list content_handler_row) (o : string)
    : option content_handler_row :=
  match rows with
  | [] => None
  | r :: rest =>
      if String.eqb (row_oid r) o then Some r else find_row_by_oid rest o
  end.

(** The same loop with the test [content_handlers[i].ct == type]. *)
Fixpoint find_row_by_ct (rows : list content_handler_row)
    (t : KsbaContentType) : option content_handler_row :=
  match rows with
  | [] => None
  | r :: rest =>
      if bool_decide (row_ct r = t) then Some r else find_row_by_ct rest t
  end.

Definition oidstr_messageDigest : string := "1.2.840.113549.1.9.4".
Definition oid_messageDigest : list byte :=
  [x2a; x86; x48; x86; xf7; x0d; x01; x09; x04].

(** ** The functions of [cms.c] *)

Section Cms.

Variable ext : Externals.

(** [ksba_cms_new]: [xtrycalloc] gives a zeroed container, or NULL. *)
Definition zeroed_cms : KsbaCMS :=
  {| reader := None; writer := None; stop_reason := KSBA_SR_NONE;
     content_oid := None; content_ct := KSBA_CT_NONE;
     content_handler := None; encap_cont_type := None;
     digest_algos := []; cert_list := [];
     signer_info_root := None; signer_info_image := None;
     signer_info_cache_digest_algo := None; data_digest := None;
     detached_signature := false; hash_fnc := None; hash_fnc_arg := None |}.

Definition ksba_cms_new (w : World) (size_of_cms : Z) : option KsbaCMS :=
  if xtrymalloc ext w size_of_cms then Some zeroed_cms else None.

Definition ksba_cms_set_reader_writer (cms : option KsbaCMS)
    (r : option KsbaReader) (wr : option KsbaWriter) (w : World)
    : Outcome (World * option KsbaCMS) KsbaError :=
  if negb (bool_decide (is_Some cms))
     || negb (bool_decide (is_Some r) || bool_decide (is_Some wr))
  then Returns KSBA_Invalid_Value (w, cms)
  else with_cms cms w KSBA_Invalid_Value (
    c ← get_cms;
    if (bool_decide (is_Some r) && bool_decide (is_Some (reader c)))
       || (bool_decide (is_Some wr) && bool_decide (is_Some (writer c)))
    then mret KSBA_Conflict (* already set *)
    else
      modify_cms (set_reader_writer r wr);;
      mret KSBA_No_Error).

(** [for (ol=cms->digest_algos; ol && idx; ol = ol->next, idx-- );]
    followed by [if (!ol) return NULL; return ol->oid;]. *)
Fixpoint oidlist_nth (ol : list oidlist_s) (idx : Z) : option oidlist_s :=
  match ol with
  | [] => None
  | o :: next => if idx =? 0 then Some o else oidlist_nth next (idx - 1)
  end.

Definition ksba_cms_get_digest_algo_list (cms : option KsbaCMS) (idx : Z)
    : option string :=
  match cms with
  | None => None
  | Some c =>
      match oidlist_nth (digest_algos c) idx with
      | None => None
      | Some ol => oid ol
      end
  end.

(** The same walk over the signer records. *)
Fixpoint certlist_nth (cl : list certlist_s) (idx : Z) : option certlist_s :=
  match cl with
  | [] => None
  | c :: next => if idx =? 0 then Some c else certlist_nth next (idx - 1)
  end.

(** [ksba_cms_get_issuer_serial].  An output pointer is [None] when the
    caller passed NULL and otherwise holds the current content of the
    cell; the diagnostics written to [stderr] are not modelled. *)
Definition get_issuer (c : KsbaCMS) (r_issuer : option (option ptr))
    : M (KsbaError * option (option ptr)) :=
  match r_issuer with
  | None => mret (KSBA_No_Error, r_issuer)
  | Some _ =>
      w ← get_world;
      match _ksba_asn_find_node ext w (signer_info_root c)
              "SignerInfos..sid.issuerAndSerialNumber.issuer" with
      | None => mret (KSBA_No_Value, r_issuer)
      | Some n =>
          nd ← node_at n;
          match down nd with
          | None => mret (KSBA_No_Value, r_issuer)
          | Some n => (* dereference the choice node *)
              nd ← node_at n;
              if off nd =? -1 then mret (KSBA_General_Error, r_issuer)
              else
                '(err, str) ← lift_world
                   (_ksba_dn_to_str ext (signer_info_image c) n);
                mret (err, Some str)
          end
      end
  end.

Definition get_serial (c : KsbaCMS) (r_serial : option (option (list byte)))
    : M (KsbaError * option (option (list byte))) :=
  match r_serial with
  | None => mret (KSBA_No_Error, r_serial)
  | Some _ =>
      w ← get_world;
      match _ksba_asn_find_node ext w (signer_info_root c)
              "SignerInfos..sid.issuerAndSerialNumber.serialNumber" with
      | None => mret (KSBA_No_Value, r_serial)
      | Some n =>
          nd ← node_at n;
          if off nd =? -1 then mret (KSBA_General_Error, r_serial)
          else if negb (xtrymalloc ext w (len nd + 4))
          then mret (KSBA_Out_Of_Core, r_serial)
          else
            match signer_info_image c with
            | None => stuck InvalidAccess
            | Some img =>
                match mem_read img (off nd + nhdr nd) (len nd) with
                | None => stuck InvalidAccess
                | Some bytes =>
                    let p := [ byte_of_Z (Z.shiftr (len nd) 24);
                               byte_of_Z (Z.shiftr (len nd) 16);
                               byte_of_Z (Z.shiftr (len nd) 8);
                               byte_of_Z (len nd) ] ++ bytes in
                    mret (KSBA_No_Error, Some (Some p))
                end
            end
      end
  end.

Definition ksba_cms_get_issuer_serial (cms : option KsbaCMS) (idx : Z)
    (r_issuer : option (option ptr)) (r_serial : option (option (list byte)))
    (w : World)
    : Outcome (World * option KsbaCMS)
        (KsbaError * option (option ptr) * option (option (list byte))) :=
  with_cms cms w (KSBA_Invalid_Value, r_issuer, r_serial) (
    c ← get_cms;
    match signer_info_root c with
    | None => mret (KSBA_No_Data, r_issuer, r_serial)
    | Some _ =>
        '(err, r_issuer) ← get_issuer c r_issuer;
        if is_error err then mret (err, r_issuer, r_serial)
        else
          (* fixme: we do not release the r_issuer stuff on error *)
          '(err, r_serial) ← get_serial c r_serial;
          if is_error err then mret (err, r_issuer, r_serial)
          else mret (KSBA_No_Error, r_issuer, r_serial)
    end).

(** [ksba_cms_get_digest_algo]: the result is a [const char *]. *)
Definition ksba_cms_get_digest_algo (cms : option KsbaCMS) (idx : Z)
    (w : World) : Outcome (World * option KsbaCMS) (option ptr) :=
  with_cms cms w None (
    c ← get_cms;
    match signer_info_root c with
    | None => mret None
    | Some _ =>
        if negb (idx =? 0)
        then mret None (* fixme: we can only handle one signer for now *)
        else
          match signer_info_cache_digest_algo c with
          | Some p => mret (Some p)
          | None =>
              w ← get_world;
              let n := _ksba_asn_find_node ext w (signer_info_root c)
                         "SignerInfos..digestAlgorithm.algorithm" in
              algo ← lift_world
                 (_ksba_oid_node_to_str ext (signer_info_image c) n);
              match algo with
              | Some p =>
                  modify_cms (set_cache_digest_algo (Some p));;
                  mret algo
              | None => mret algo
              end
          end
    end).

(** [ksba_cms_get_message_digest]: the messageDigest signed attribute. *)
Definition ksba_cms_get_message_digest (cms : option KsbaCMS) (idx : Z)
    (r_digest : option (option (list byte))) (r_digest_len : option Z)
    (w : World)
    : Outcome (World * option KsbaCMS)
        (KsbaError * option (option (list byte)) * option Z) :=
  match cms, r_digest, r_digest_len with
  | Some _, Some _, Some _ =>
    with_cms cms w (KSBA_Invalid_Value, r_digest, r_digest_len) (
      c ← get_cms;
      match signer_info_root c with
      | None => mret (KSBA_No_Data, r_digest, r_digest_len)
      | Some _ =>
        if negb (idx =? 0)
        then mret (KSBA_Not_Implemented, r_digest, r_digest_len)
        else
          let r_digest := Some None in
          let r_digest_len := Some 0 in
          w ← get_world;
          let nsiginfo := _ksba_asn_find_node ext w (signer_info_root c)
                            "SignerInfos..signedAttrs" in
          match nsiginfo with
          | None => (* this is okay, because the element is optional *)
              mret (KSBA_No_Error, r_digest, r_digest_len)
          | Some _ =>
            match _ksba_asn_find_type_value ext w (signer_info_image c)
                    nsiginfo 0 oid_messageDigest with
            | None => (* message digest is required *)
                mret (KSBA_Value_Not_Found, r_digest, r_digest_len)
            | Some n =>
              (* check that there is only one *)
              if bool_decide (is_Some
                   (_ksba_asn_find_type_value ext w (signer_info_image c)
                      nsiginfo 1 oid_messageDigest))
              then mret (KSBA_Duplicate_Value, r_digest, r_digest_len)
              else
                (* the value is a SET OF OCTET STRING but the set must
                   have exactly one OCTET STRING (rfc2630 11.2) *)
                nd ← node_at n;
                if negb (bool_decide (type nd = TYPE_SET_OF))
                then mret (KSBA_Invalid_CMS_Object, r_digest, r_digest_len)
                else
                  match down nd with
                  | None =>
                      mret (KSBA_Invalid_CMS_Object, r_digest, r_digest_len)
                  | Some n =>
                    nd ← node_at n;
                    if negb (bool_decide (type nd = TYPE_OCTET_STRING)
                             && negb (bool_decide (is_Some (right nd))))
                    then
                      mret (KSBA_Invalid_CMS_Object, r_digest, r_digest_len)
                    else if off nd =? -1
                    then mret (KSBA_Bug, r_digest, r_digest_len)
                    else
                      let r_digest_len := Some (len nd) in
                      if negb (xtrymalloc ext w (len nd))
                      then mret (KSBA_Out_Of_Core, r_digest, r_digest_len)
                      else
                        match signer_info_image c with
                        | None => stuck InvalidAccess
                        | Some img =>
                          match mem_read img (off nd + nhdr nd) (len nd) with
                          | None => stuck InvalidAccess
                          | Some bytes =>
                              mret (KSBA_No_Error, Some (Some bytes),
                                    r_digest_len)
                          end
                        end
                  end
            end
          end
      end)
  | _, _, _ => Returns (KSBA_Invalid_Value, r_digest, r_digest_len) (w, cms)
  end.

(** [ksba_cms_set_hash_function]. *)
Definition ksba_cms_set_hash_function (cms : option KsbaCMS)
    (fnc arg : option ptr) : option KsbaCMS :=
  match cms with
  | Some c => Some (set_hash_fnc fnc arg c)
  | None => None
  end.

(** A call [cms->hash_fnc (cms->hash_fnc_arg, data, n)]. *)
Definition call_hash_fnc (f : ptr) (arg : option ptr) (data : list byte)
    : M unit :=
  w ← get_world;
  put_world (set_hashed
    (hashed w ++ [ {| hc_fnc := f; hc_arg := arg; hc_data := data |} ]) w).

(** [ksba_cms_hash_signed_attrs]: hash the signed attributes of the
    given signer. *)
Definition ksba_cms_hash_signed_attrs (cms : option KsbaCMS) (idx : Z)
    (w : World) : Outcome (World * option KsbaCMS) KsbaError :=
  with_cms cms w KSBA_Invalid_Value (
    c ← get_cms;
    match hash_fnc c with
    | None => mret KSBA_Missing_Action
    | Some f =>
        if negb (idx =? 0) then mret KSBA_EOF
        else
          w ← get_world;
          match _ksba_asn_find_node ext w (signer_info_root c)
                  "SignerInfos..signedAttrs" with
          | None => mret KSBA_No_Value
          | Some n =>
              nd ← node_at n;
              if off nd =? -1 then mret KSBA_No_Value
              else
                (* We don't hash the implicit tag [0] but a SET tag *)
                call_hash_fnc f (hash_fnc_arg c) [x31];;
                match signer_info_image c with
                | None => stuck InvalidAccess
                | Some img =>
                    match mem_read img (off nd + 1)
                            (nhdr nd + len nd - 1) with
                    | None => stuck InvalidAccess
                    | Some bytes =>
                        call_hash_fnc f (hash_fnc_arg c) bytes;;
                        mret KSBA_No_Error
                    end
                end
          end
    end).

(** *** Code to create CMS structures *)

(** [ksba_cms_set_content_type]: [what] is 0 for the content type and 1
    for the inner content type. *)
Definition ksba_cms_set_content_type (cms : option KsbaCMS) (what : Z)
    (t : KsbaContentType) (w : World)
    : Outcome (World * option KsbaCMS) KsbaError :=
  if negb (bool_decide (is_Some cms)) || (what <? 0) || (1 <? what)
  then Returns KSBA_Invalid_Value (w, cms)
  else with_cms cms w KSBA_Invalid_Value (
    match find_row_by_ct content_handlers t with
    | None => mret KSBA_Unknown_CMS_Object
    | Some row =>
        match row_build_handler row with
        | None => mret KSBA_Unsupported_CMS_Object
        | Some h =>
            (* oid = xtrystrdup (content_handlers[i].oid) *)
            if negb (xtrymalloc ext w
                       (Z.of_nat (String.length (row_oid row)) + 1))
            then mret KSBA_Out_Of_Core
            else
              (if what =? 0
               then modify_cms
                      (set_content (Some (row_oid row)) (row_ct row) (Some h))
               else modify_cms (set_encap_cont_type (Some (row_oid row))));;
              mret KSBA_No_Error
        end
    end).

(** [ksba_cms_add_digest_algo]: the new record becomes the head. *)
Definition ksba_cms_add_digest_algo (cms : option KsbaCMS)
    (o : option string) (w : World)
    : Outcome (World * option KsbaCMS) KsbaError :=
  match cms, o with
  | Some _, Some str =>
      with_cms cms w KSBA_Invalid_Value (
        if negb (xtrymalloc ext w 1) (* sizeof *ol *)
        then mret KSBA_Out_Of_Core
        else if negb (xtrymalloc ext w (Z.of_nat (String.length str) + 1))
        then mret KSBA_Out_Of_Core
        else
          c ← get_cms;
          modify_cms (set_digest_algos ({| oid := Some str |} :: digest_algos c));;
          mret KSBA_No_Error)
  | _, _ => Returns KSBA_Invalid_Value (w, cms)
  end.

(** A [certlist_s] as [xtrycalloc] returns it. *)
Definition zeroed_certlist : certlist_s :=
  {| cert := None;
     msg_digest := replicate (Z.to_nat (msg_digest_size ext)) x00;
     msg_digest_len := 0; attr_root := None; attr_image := None |}.

Definition set_cert (k : option KsbaCert) (cl : certlist_s) : certlist_s :=
  {| cert := k; msg_digest := msg_digest cl;
     msg_digest_len := msg_digest_len cl;
     attr_root := attr_root cl; attr_image := attr_image cl |}.

Definition set_msg_digest (d : list byte) (n : Z) (cl : certlist_s)
    : certlist_s :=
  {| cert := cert cl; msg_digest := d ++ drop (length d) (msg_digest cl);
     msg_digest_len := n;
     attr_root := attr_root cl; attr_image := attr_image cl |}.

Definition set_attr (r : option ptr) (i : option image) (cl : certlist_s)
    : certlist_s :=
  {| cert := cert cl; msg_digest := msg_digest cl;
     msg_digest_len := msg_digest_len cl;
     attr_root := r; attr_image := i |}.

(** [ksba_cms_add_signer]: the new signer record becomes the head. *)
Definition ksba_cms_add_signer (cms : option KsbaCMS) (k : option KsbaCert)
    (w : World) : Outcome (World * option KsbaCMS) KsbaError :=
  with_cms cms w KSBA_Invalid_Value (
    if negb (xtrymalloc ext w 1) (* sizeof *cl *)
    then mret KSBA_Out_Of_Core
    else
      c ← get_cms;
      modify_cms (set_cert_list (set_cert k zeroed_certlist :: cert_list c));;
      mret KSBA_No_Error).

(** The store through the pointer the walk
    [for (cl=cms->cert_list; cl && idx; cl = cl->next, idx--)] ends at;
    [None] when it ends at NULL. *)
Fixpoint certlist_update (f : certlist_s -> certlist_s)
    (cl : list certlist_s) (idx : Z) : option (list certlist_s) :=
  match cl with
  | [] => None
  | c :: next =>
      if idx =? 0 then Some (f c :: next)
      else
        match certlist_update f next (idx - 1) with
        | Some next' => Some (c :: next')
        | None => None
        end
  end.

(** [ksba_cms_set_message_digest]. *)
Definition ksba_cms_set_message_digest (cms : option KsbaCMS) (idx : Z)
    (digest : option (list byte)) (digest_len : Z) (w : World)
    : Outcome (World * option KsbaCMS) KsbaError :=
  match cms, digest with
  | Some _, Some d =>
      with_cms cms w KSBA_Invalid_Value (
        if (digest_len =? 0) || (msg_digest_size ext <? digest_len)
        then mret KSBA_Invalid_Value
        else if idx <? 0 then mret KSBA_Invalid_Index
        else
          c ← get_cms;
          match mem_read d 0 digest_len with
          | None =>
              match certlist_nth (cert_list c) idx with
              | None => mret KSBA_Invalid_Index
              | Some _ => stuck InvalidAccess
              end
          | Some bytes =>
              match certlist_update (set_msg_digest bytes digest_len)
                      (cert_list c) idx with
              | None => mret KSBA_Invalid_Index (* no certificate to store it *)
              | Some l =>
                  modify_cms (set_cert_list l);;
                  mret KSBA_No_Error
              end
          end)
  | _, _ => Returns KSBA_Invalid_Value (w, cms)
  end.

(** *** Content handlers for parsing messages *)

Definition ct_parse_data : M KsbaError := mret KSBA_Not_Implemented.

(** The local [enum] of [ct_parse_signed_data]. *)
Inductive parse_state : Type :=
  | sSTART
  | sGOT_HASH
  | sIN_DATA
  | sERROR.

Definition ct_parse_signed_data : M KsbaError :=
  c ← get_cms;
  let state := sERROR in
  let stop_reason0 := stop_reason c in
  let err := KSBA_No_Error in
  modify_cms (set_stop_reason KSBA_SR_RUNNING);;
  (* Calculate state from last reason and do some checks *)
  let '(state, err) :=
    match stop_reason0 with
    | KSBA_SR_GOT_CONTENT => (sSTART, err)
    | KSBA_SR_NEED_HASH => (sGOT_HASH, err)
    | KSBA_SR_BEGIN_DATA =>
        match hash_fnc c with
        | None => (state, KSBA_Missing_Action)
        | Some _ => (sIN_DATA, err)
        end
    | KSBA_SR_END_DATA => (sGOT_HASH, err)
    | KSBA_SR_RUNNING => (state, KSBA_Invalid_State)
    | KSBA_SR_NONE => (state, err)
    | _ => (state, KSBA_Bug)
    end in
  if is_error err then mret err
  else
    (* Do the action *)
    DO (match state with
        | sSTART => lift_state (_ksba_cms_parse_signed_data_part_1 ext)
        | sGOT_HASH => lift_state (_ksba_cms_parse_signed_data_part_2 ext)
        | sIN_DATA => mret err (* start a parser part which does the hash job *)
        | sERROR => mret KSBA_Invalid_State
        end);
    (* Calculate new stop reason *)
    c ← get_cms;
    let stop_reason1 :=
      match state with
      | sSTART =>
          if detached_signature c
             && negb (bool_decide (is_Some (data_digest c)))
          then KSBA_SR_NEED_HASH
          else KSBA_SR_BEGIN_DATA
      | sIN_DATA => KSBA_SR_END_DATA
      | sGOT_HASH => KSBA_SR_READY
      | sERROR => stop_reason0
      end in
    modify_cms (set_stop_reason stop_reason1);;
    mret KSBA_No_Error.

Definition ct_parse_enveloped_data : M KsbaError := mret KSBA_Not_Implemented.
Definition ct_parse_digested_data : M KsbaError := mret KSBA_Not_Implemented.
Definition ct_parse_encrypted_data : M KsbaError := mret KSBA_Not_Implemented.

(** *** Content handlers for building messages *)

Definition ct_build_data : M KsbaError := mret KSBA_Not_Implemented.

(** [for (i=0; (s = ksba_cms_get_digest_algo_list (cms, i)); i++)] with
    the body of [build_signed_data_header]. *)
Fixpoint write_digest_algos (fuel : nat) (i : Z) : M KsbaError :=
  match fuel with
  | O => stuck NonTermination
  | S fuel =>
      c ← get_cms;
      match ksba_cms_get_digest_algo_list (Some c) i with
      | None => mret KSBA_No_Error
      | Some s =>
          DO lift_writer (_ksba_der_write_algorithm_identifier ext s);
          write_digest_algos fuel (i + 1)
      end
  end.

(** [build_signed_data_header]: write everything up to the encapsulated
    data content type. *)
Definition build_signed_data_header : M KsbaError :=
  (* Write the outer contentInfo *)
  DO lift_writer (_ksba_ber_write_tl ext TYPE_SEQUENCE CLASS_UNIVERSAL true 0);
  c ← get_cms;
  let '(err, buf) := ksba_oid_from_str ext (content_oid c) in
  if is_error err then mret err
  else
  let len := Z.of_nat (length buf) in
  err ← lift_writer (_ksba_ber_write_tl ext TYPE_OBJECT_ID CLASS_UNIVERSAL false len);
  err ← (if negb (is_error err)
         then lift_writer (ksba_writer_write ext buf len)
         else mret err);
  if is_error err then mret err
  else
  DO lift_writer (_ksba_ber_write_tl ext TYPE_NONE CLASS_CONTEXT true 0);
  (* The SEQUENCE *)
  DO lift_writer (_ksba_ber_write_tl ext TYPE_SEQUENCE CLASS_UNIVERSAL true 0);
  (* figure out the CMSVersion to be used *)
  let s := if true (* fixme: have_attribute_certificates
                      || encapsulated_content != data
                      || any_signer_info_is_version_3 *)
           then [x03] else [x01] in
  DO lift_writer (_ksba_ber_write_tl ext TYPE_INTEGER CLASS_UNIVERSAL false 1);
  DO lift_writer (ksba_writer_write ext s 1);
  (* SET OF DigestAlgorithmIdentifier *)
  (* FIXME: We write a set with one element and assume a length of 11 !! *)
  DO lift_writer (_ksba_ber_write_tl ext TYPE_SET CLASS_UNIVERSAL true 11);
  c ← get_cms;
  DO write_digest_algos (S (length (digest_algos c))) 0;
  (* Write the (inner) encapsulatedContentInfo *)
  DO lift_writer (_ksba_ber_write_tl ext TYPE_SEQUENCE CLASS_UNIVERSAL true 0);
  c ← get_cms;
  let '(err, buf) := ksba_oid_from_str ext (encap_cont_type c) in
  if is_error err then mret err
  else
  let len := Z.of_nat (length buf) in
  err ← lift_writer (_ksba_ber_write_tl ext TYPE_OBJECT_ID CLASS_UNIVERSAL false len);
  err ← (if negb (is_error err)
         then lift_writer (ksba_writer_write ext buf len)
         else mret err);
  if is_error err then mret err
  else
  c ← get_cms;
  if negb (detached_signature c)
  then (* write the tag *)
    DO lift_writer (_ksba_ber_write_tl ext TYPE_NONE CLASS_CONTEXT true 0);
    mret KSBA_No_Error
  else mret err.

(** [set_issuer_serial]: set the issuer/serial from the cert to the node. *)
Definition set_issuer_serial (signer_info : option ptr)
    (k : option KsbaCert) : M KsbaError :=
  match signer_info, k with
  | Some _, Some crt =>
      w ← get_world;
      let src := _ksba_asn_find_node ext w (cert_root crt)
                   "Certificate.tbsCertificate.serialNumber" in
      let dst := _ksba_asn_find_node ext w signer_info
                   "sid.issuerAndSerialNumber.serialNumber" in
      DO lift_world (_ksba_der_copy_tree ext dst src (cert_image crt));
      w ← get_world;
      let src := _ksba_asn_find_node ext w (cert_root crt)
                   "Certificate.tbsCertificate.issuer" in
      let dst := _ksba_asn_find_node ext w signer_info
                   "sid.issuerAndSerialNumber.issuer" in
      DO lift_world (_ksba_der_copy_tree ext dst src (cert_image crt));
      mret KSBA_No_Error
  | _, _ => mret KSBA_Invalid_Value
  end.

(** [for (n = n->down->down; n && n->type != TYPE_SEQUENCE; n = n->right);]
    started at [n->down->down].  A walk longer than the number of nodes
    of the heap has entered a cycle. *)
Fixpoint find_sequence (fuel : nat) (n : option ptr) : M (option ptr) :=
  match n with
  | None => mret None
  | Some p =>
      match fuel with
      | O => stuck NonTermination
      | S fuel =>
          nd ← node_at p;
          if bool_decide (type nd = TYPE_SEQUENCE) then mret (Some p)
          else find_sequence fuel (right nd)
      end
  end.

(** The element of [SignerInfos..signedAttrs] the attributes are copied
    to: the two "ugly hack" steps shared by both builders. *)
Definition signed_attrs_slot (root : option ptr) : M (option ptr) :=
  w ← get_world;
  match _ksba_asn_find_node ext w root "SignerInfos..signedAttrs" with
  | None => mret None
  | Some n =>
      nd ← node_at n;
      match down nd with
      | None => mret None
      | Some d =>
          (* This is another ugly hack to move to the element we want *)
          dn ← node_at d;
          w ← get_world;
          find_sequence (S (size (nodes w))) (down dn)
      end
  end.

(** The loop of [build_signed_data_attributes] over the signers. *)
Fixpoint attributes_loop (parse_tree : option ptr) (signer : nat)
    (certlist : list certlist_s) (digestlist : list oidlist_s)
    : M KsbaError :=
  match certlist with
  | [] => mret KSBA_No_Error
  | cl :: certlist_next =>
    match digestlist with
    | [] => mret KSBA_Missing_Value (* oops *)
    | dl :: digestlist_next =>
      if negb (bool_decide (is_Some (cert cl)))
         || negb (bool_decide (is_Some (oid dl)))
      then mret KSBA_Bug
      else
      (* the message digest is pretty important *)
      attr ← lift_world (_ksba_asn_expand_tree ext parse_tree
                           "CryptographicMessageSyntax.Attribute");
      match attr with
      | None => mret KSBA_Element_Not_Found
      | Some _ =>
      w ← get_world;
      match _ksba_asn_find_node ext w attr "Attribute.attrType" with
      | None => mret KSBA_Element_Not_Found
      | Some n =>
      DO lift_world (_ksba_der_store_oid ext (Some n) oidstr_messageDigest);
      w ← get_world;
      match _ksba_asn_find_node ext w attr "Attribute.attrValues" with
      | None => mret KSBA_Element_Not_Found
      | Some n =>
      nd ← node_at n;
      match down nd with
      | None => mret KSBA_Element_Not_Found
      | Some n => (* fixme: ugly hack *)
      (* assert (certlist && certlist->msg_digest_len); *)
      if msg_digest_len cl =? 0 then stuck AssertionFailed
      else
      DO lift_world (_ksba_der_store_octet_string ext (Some n)
                       (msg_digest cl) (msg_digest_len cl));
      '(err, img) ← lift_world (_ksba_der_encode_tree ext attr);
      if is_error err then mret err
      else
      (* we will use the attributes again - so save them *)
      c ← get_cms;
      modify_cms (set_cert_list (alter (set_attr attr img) signer (cert_list c)));;
      (* now copy them to an SignerInfos tree.  This tree is not
         complete but suitable for ksba_cms_hash_signed_attributes() *)
      root ← lift_world (_ksba_asn_expand_tree ext parse_tree
                           "CryptographicMessageSyntax.SignerInfos");
      n ← signed_attrs_slot root;
      match n with
      | None => mret KSBA_Element_Not_Found
      | Some _ =>
      DO lift_world (_ksba_der_copy_tree ext n attr img);
      '(err, img) ← lift_world (_ksba_der_encode_tree ext root);
      if is_error err then mret err
      else
      (* fixme: the signer_info structure can only save one signerinfo *)
      c ← get_cms;
      w ← get_world;
      put_world (_ksba_asn_release_nodes ext (signer_info_root c) w);;
      modify_cms (set_signer_info root img);;
      attributes_loop parse_tree (S signer) certlist_next digestlist_next
      end end end end end
    end
  end.

(** [build_signed_data_attributes]: write the END of data NULL tag and
    everything we can write before the user can calculate the
    signature. *)
Definition build_signed_data_attributes : M KsbaError :=
  (* Write the End tag *)
  DO lift_writer (_ksba_ber_write_tl ext TYPE_NONE CLASS_UNIVERSAL false 0);
  (* Now we have to prepare the signer info *)
  '(err, parse_tree) ← lift_world (ksba_asn_create_tree ext "cms");
  if is_error err then mret err
  else
  c ← get_cms;
  let certlist := cert_list c in
  match certlist with
  | [] => mret KSBA_Missing_Value (* oops *)
  | _ :: _ =>
      let digestlist := digest_algos c in
      match digestlist with
      | [] => mret KSBA_Missing_Value (* oops *)
      | _ :: _ => attributes_loop parse_tree 0 certlist digestlist
      end
  end.

(** The loop of [build_signed_data_rest] over the signers. *)
Fixpoint rest_loop (parse_tree : option ptr) (signer : nat)
    (certlist : list certlist_s) (digestlist : list oidlist_s)
    : M KsbaError :=
  match certlist with
  | [] => mret KSBA_No_Error
  | cl :: certlist_next =>
    match digestlist with
    | [] => mret KSBA_Missing_Value (* oops *)
    | dl :: digestlist_next =>
      match cert cl, oid dl with
      | Some _, Some dl_oid =>
      root ← lift_world (_ksba_asn_expand_tree ext parse_tree
                           "CryptographicMessageSyntax.SignerInfos");
      (* We store a version of 1 because we use the issuerAndSerialNumber *)
      w ← get_world;
      match _ksba_asn_find_node ext w root "SignerInfos..version" with
      | None => mret KSBA_Element_Not_Found
      | Some n =>
      DO lift_world (_ksba_der_store_integer ext (Some n)
                       [x00; x00; x00; x01; x01]);
      (* Store the sid *)
      w ← get_world;
      match _ksba_asn_find_node ext w root "SignerInfos..sid" with
      | None => mret KSBA_Element_Not_Found
      | Some n =>
      DO set_issuer_serial (Some n) (cert cl);
      (* store the digestAlgorithm *)
      w ← get_world;
      match _ksba_asn_find_node ext w root
              "SignerInfos..digestAlgorithm.algorithm" with
      | None => mret KSBA_Element_Not_Found
      | Some n =>
      DO lift_world (_ksba_der_store_oid ext (Some n) dl_oid);
      w ← get_world;
      match _ksba_asn_find_node ext w root
              "SignerInfos..digestAlgorithm.parameters" with
      | None => mret KSBA_Element_Not_Found
      | Some n =>
      DO lift_world (_ksba_der_store_null ext (Some n));
      (* and the signed attributes *)
      n ← signed_attrs_slot root;
      match n with
      | None => mret KSBA_Element_Not_Found
      | Some _ =>
      (* assert (certlist->attr.root); assert (certlist->attr.image); *)
      if negb (bool_decide (is_Some (attr_root cl)))
         || negb (bool_decide (is_Some (attr_image cl)))
      then stuck AssertionFailed
      else
      DO lift_world (_ksba_der_copy_tree ext n (attr_root cl) (attr_image cl));
      (* store the signatureAlgorithm *)
      w ← get_world;
      match _ksba_asn_find_node ext w root
              "SignerInfos..signatureAlgorithm.algorithm" with
      | None => mret KSBA_Element_Not_Found
      | Some n =>
      DO lift_world (_ksba_der_store_oid ext (Some n) dl_oid); (* fixme *)
      w ← get_world;
      match _ksba_asn_find_node ext w root
              "SignerInfos..signatureAlgorithm.parameters" with
      | None => mret KSBA_Element_Not_Found
      | Some n =>
      DO lift_world (_ksba_der_store_null ext (Some n));
      (* store the signature *)
      w ← get_world;
      match _ksba_asn_find_node ext w root "SignerInfos..signature" with
      | None => mret KSBA_Element_Not_Found
      | Some n =>
      DO lift_world (_ksba_der_store_octet_string ext (Some n)
                       [x78; x78; x78; x78; x78] 5); (* fixme *)
      (* Make the DER encoding and write it out *)
      '(err, img) ← lift_world (_ksba_der_encode_tree ext root);
      if is_error err then mret err
      else
      let img := default [] img in
      let imagelen := Z.of_nat (length img) in
      let img :=
        if bool_decide (signer = O) && negb (imagelen =? 0)
        then xa0 :: drop 1 img (* this has an implicit tag - change it *)
        else img in
      DO lift_writer (ksba_writer_write ext img imagelen);
      (* fixme: release what we don't need *)
      rest_loop parse_tree (S signer) certlist_next digestlist_next
      end end end end end end end end
      | _, _ => mret KSBA_Bug
      end
    end
  end.

(** [build_signed_data_rest]: the user has calculated the signatures and
    we can therefore write everything left over to do. *)
Definition build_signed_data_rest : M KsbaError :=
  (* Now we can really write the signer info *)
  '(err, parse_tree) ← lift_world (ksba_asn_create_tree ext "cms");
  if is_error err then mret err
  else
  c ← get_cms;
  let certlist := cert_list c in
  match certlist with
  | [] => mret KSBA_Missing_Value (* oops *)
  | _ :: _ =>
      let digestlist := digest_algos c in
      match digestlist with
      | [] => mret KSBA_Missing_Value (* oops *)
      | _ :: _ =>
          DO rest_loop parse_tree 0 certlist digestlist;
          (* HACK for testing *)
          DO lift_writer (_ksba_ber_write_tl ext TYPE_NONE CLASS_UNIVERSAL false 0);
          DO lift_writer (_ksba_ber_write_tl ext TYPE_NONE CLASS_UNIVERSAL false 0);
          mret KSBA_No_Error
      end
  end.

(** The local [enum] of [ct_build_signed_data]: [sSTART], [sDATAREADY],
    [sGOTSIG], [sERROR] in the source; the prefix tells them from the
    states of the parser. *)
Inductive build_state : Type :=
  | bSTART
  | bDATAREADY
  | bGOTSIG
  | bERROR.

Definition ct_build_signed_data : M KsbaError :=
  c ← get_cms;
  let state := bERROR in
  let err := KSBA_No_Error in
  let stop_reason0 := stop_reason c in
  modify_cms (set_stop_reason KSBA_SR_RUNNING);;
  (* Calculate state from last reason and do some checks *)
  let '(state, err) :=
    match stop_reason0 with
    | KSBA_SR_GOT_CONTENT => (bSTART, err)
    | KSBA_SR_BEGIN_DATA =>
        (* fixme: check that the message digest has been set *)
        (bDATAREADY, err)
    | KSBA_SR_END_DATA => (bDATAREADY, err)
    | KSBA_SR_NEED_SIG => (bGOTSIG, err)
    | KSBA_SR_RUNNING => (state, KSBA_Invalid_State)
    | KSBA_SR_NONE => (state, err)
    | _ => (state, KSBA_Bug)
    end in
  if is_error err then mret err
  else
    (* Do the action *)
    DO (match state with
        | bSTART =>
            (* figure out whether a detached signature is requested *)
            c ← get_cms;
            match cert_list c with
            | cl :: _ =>
                if negb (msg_digest_len cl =? 0)
                then modify_cms (set_detached_signature true)
                else modify_cms (set_detached_signature false)
            | [] => modify_cms (set_detached_signature false)
            end;;
            (* and start encoding *)
            build_signed_data_header
        | bDATAREADY => build_signed_data_attributes
        | bGOTSIG => build_signed_data_rest
        | bERROR => mret KSBA_Invalid_State
        end);
    (* Calculate new stop reason *)
    c ← get_cms;
    let stop_reason1 :=
      match state with
      | bSTART =>
          (* user should write the data and calculate the hash or do
             nothing in case of END_DATA *)
          if detached_signature c then KSBA_SR_END_DATA
          else KSBA_SR_BEGIN_DATA
      | bDATAREADY => KSBA_SR_NEED_SIG
      | bGOTSIG => KSBA_SR_READY
      | bERROR => stop_reason0
      end in
    modify_cms (set_stop_reason stop_reason1);;
    mret KSBA_No_Error.

Definition ct_build_enveloped_data : M KsbaError := mret KSBA_Not_Implemented.
Definition ct_build_digested_data : M KsbaError := mret KSBA_Not_Implemented.
Definition ct_build_encrypted_data : M KsbaError := mret KSBA_Not_Implemented.

(** The call [cms->content.handler (cms)] through the stored pointer. *)
Definition call_handler (h : handler_fn) : M KsbaError :=
  match h with
  | fn_ct_parse_data => ct_parse_data
  | fn_ct_parse_signed_data => ct_parse_signed_data
  | fn_ct_parse_enveloped_data => ct_parse_enveloped_data
  | fn_ct_parse_digested_data => ct_parse_digested_data
  | fn_ct_parse_encrypted_data => ct_parse_encrypted_data
  | fn_ct_build_data => ct_build_data
  | fn_ct_build_signed_data => ct_build_signed_data
  | fn_ct_build_enveloped_data => ct_build_enveloped_data
  | fn_ct_build_digested_data => ct_build_digested_data
  | fn_ct_build_encrypted_data => ct_build_encrypted_data
  end.

(** *** The two engine entry points *)

(** [*r_stopreason = cms->stop_reason; return 0;] *)
Definition report_stop_reason : M (KsbaError * option KsbaStopReason) :=
  c ← get_cms;
  mret (KSBA_No_Error, Some (stop_reason c)).

(** [ksba_cms_parse].  [r_stopreason] is [None] for a NULL pointer and
    otherwise the content of the caller's cell. *)
Definition ksba_cms_parse (cms : option KsbaCMS)
    (r_stopreason : option KsbaStopReason) (w : World)
    : Outcome (World * option KsbaCMS) (KsbaError * option KsbaStopReason) :=
  match cms, r_stopreason with
  | Some _, Some _ =>
    with_cms cms w (KSBA_Invalid_Value, r_stopreason) (
      let r_stopreason := Some KSBA_SR_RUNNING in
      c ← get_cms;
      match stop_reason c with
      | KSBA_SR_NONE =>
          (* Initial state: start parsing *)
          err ← lift_state (_ksba_cms_parse_content_info ext);
          if is_error err then mret (err, r_stopreason)
          else
            c ← get_cms;
            match content_oid c with
            | None => stuck InvalidAccess (* strcmp (.., NULL) *)
            | Some o =>
                match find_row_by_oid content_handlers o with
                | None => mret (KSBA_Unknown_CMS_Object, r_stopreason)
                | Some row =>
                    match row_parse_handler row with
                    | None => mret (KSBA_Unsupported_CMS_Object, r_stopreason)
                    | Some h =>
                        modify_cms (set_content (content_oid c) (row_ct row) (Some h));;
                        modify_cms (set_stop_reason KSBA_SR_GOT_CONTENT);;
                        report_stop_reason
                    end
                end
            end
      | _ =>
          match content_handler c with
          | Some h =>
              err ← call_handler h;
              if is_error err then mret (err, r_stopreason)
              else report_stop_reason
          | None => mret (KSBA_Unsupported_CMS_Object, r_stopreason)
          end
      end)
  | _, _ => Returns (KSBA_Invalid_Value, r_stopreason) (w, cms)
  end.

(** [ksba_cms_build]. *)
Definition ksba_cms_build (cms : option KsbaCMS)
    (r_stopreason : option KsbaStopReason) (w : World)
    : Outcome (World * option KsbaCMS) (KsbaError * option KsbaStopReason) :=
  match cms, r_stopreason with
  | Some _, Some _ =>
    with_cms cms w (KSBA_Invalid_Value, r_stopreason) (
      let r_stopreason := Some KSBA_SR_RUNNING in
      c ← get_cms;
      match stop_reason c with
      | KSBA_SR_NONE =>
          (* Initial state: check that the content handler is known *)
          if negb (bool_decide (is_Some (writer c)))
          then mret (KSBA_Missing_Action, r_stopreason)
          else if negb (bool_decide (is_Some (content_handler c)))
          then mret (KSBA_Missing_Action, r_stopreason)
          else if negb (bool_decide (is_Some (encap_cont_type c)))
          then mret (KSBA_Missing_Action, r_stopreason)
          else
            modify_cms (set_stop_reason KSBA_SR_GOT_CONTENT);;
            report_stop_reason
      | _ =>
          match content_handler c with
          | Some h =>
              err ← call_handler h;
              if is_error err then mret (err, r_stopreason)
              else report_stop_reason
          | None => mret (KSBA_Unsupported_CMS_Object, r_stopreason)
          end
      end)
  | _, _ => Returns (KSBA_Invalid_Value, r_stopreason) (w, cms)
  end.

End Cms.

(** ** The remaining accessors of [cms.c] *)

Section CmsAccessors.

Variable ext : Externals.

(** keyinfo.c: the conversion of a signature value to an S-expression;
    it receives the region [image + off] of the given extent and
    returns the allocated string. *)
Variable _ksba_sigval_to_sexp :
  list byte -> World -> KsbaError * option ptr * World.

(** [for (i=0; content_handlers[i].oid; i++) if (!strcmp (..)) return
    content_handlers[i].ct;] followed by [return 0;]. *)
Fixpoint content_type_of_oid (rows : list content_handler_row) (o : string)
    : KsbaContentType :=
  match rows with
  | [] => KSBA_CT_NONE
  | r :: rest =>
      if String.eqb (row_oid r) o then row_ct r
      else content_type_of_oid rest o
  end.

(** [ksba_cms_get_content_type]: a [what] of 0 returns the real content
    type whereas a 1 returns the inner content type. *)
Definition ksba_cms_get_content_type (cms : option KsbaCMS) (what : Z)
    : KsbaContentType :=
  match cms with
  | None => KSBA_CT_NONE
  | Some c =>
      if what =? 0 then content_ct c
      else
        match (if what =? 1 then encap_cont_type c else None) with
        | Some o => content_type_of_oid content_handlers o
        | None => KSBA_CT_NONE
        end
  end.

(** [ksba_cms_get_content_oid]: the object ID of the current cms. *)
Definition ksba_cms_get_content_oid (cms : option KsbaCMS) (what : Z)
    : option string :=
  match cms with
  | None => None
  | Some c =>
      if what =? 0 then content_oid c
      else if what =? 1 then encap_cont_type c
      else None
  end.

(** [ksba_cms_get_cert]: the certificate is handed out and deleted from
    the container. *)
Definition ksba_cms_get_cert (cms : option KsbaCMS) (idx : Z)
    : option KsbaCert * option KsbaCMS :=
  match cms with
  | None => (None, cms)
  | Some c =>
      if idx <? 0 then (None, cms)
      else
        match certlist_nth (cert_list c) idx with
        | None => (None, cms)
        | Some cl =>
            match certlist_update (set_cert None) (cert_list c) idx with
            | Some l => (cert cl, Some (set_cert_list l c))
            | None => (cert cl, cms)
            end
        end
  end.

(** [ksba_cms_get_sig_val]: the signature of the signer as an
    S-expression, or NULL. *)
Definition ksba_cms_get_sig_val (cms : option KsbaCMS) (idx : Z) (w : World)
    : Outcome (World * option KsbaCMS) (option ptr) :=
  with_cms cms w None (
    c ← get_cms;
    match signer_info_root c with
    | None => mret None
    | Some _ =>
        if negb (idx =? 0) then mret None (* only one signer for now *)
        else
          w ← get_world;
          match _ksba_asn_find_node ext w (signer_info_root c)
                  "SignerInfos..signatureAlgorithm" with
          | None => mret None
          | Some n =>
              nd ← node_at n;
              if off nd =? -1 then mret None
              else
                (* n2 = n->right: point to the actual value *)
                extent ←
                  match right nd with
                  | None => mret (nhdr nd + len nd)
                  | Some n2 =>
                      nd2 ← node_at n2;
                      mret (nhdr nd + len nd
                            + (if off nd2 =? -1 then 0
                               else nhdr nd2 + len nd2))
                  end;
                match signer_info_image c with
                | None => stuck InvalidAccess
                | Some img =>
                    match mem_read img (off nd) extent with
                    | None => stuck InvalidAccess
                    | Some region =>
                        '(err, str) ← lift_world (_ksba_sigval_to_sexp region);
                        if is_error err then mret None else mret str
                    end
                end
          end
    end).

End CmsAccessors.

(** * Properties of the engine *)

(** ** Vocabulary of the statements *)

(** The stop reasons from which [ct_parse_signed_data] derives a state. *)
Definition parse_resumable (sr : KsbaStopReason) : bool :=
  match sr with
  | KSBA_SR_GOT_CONTENT | KSBA_SR_NEED_HASH
  | KSBA_SR_BEGIN_DATA | KSBA_SR_END_DATA => true
  | _ => false
  end.

(** The stop reasons from which [ct_build_signed_data] derives a state. *)
Definition build_resumable (sr : KsbaStopReason) : bool :=
  match sr with
  | KSBA_SR_GOT_CONTENT | KSBA_SR_BEGIN_DATA
  | KSBA_SR_END_DATA | KSBA_SR_NEED_SIG => true
  | _ => false
  end.

(** The error with which both handlers turn down a stop reason they do
    not resume from. *)
Definition rejection (sr : KsbaStopReason) : KsbaError :=
  match sr with
  | KSBA_SR_RUNNING | KSBA_SR_NONE => KSBA_Invalid_State
  | _ => KSBA_Bug
  end.

(** The two engine entry points, as a caller alternates them. *)
Inductive engine_call : Type :=
  | call_parse
  | call_build.

Definition run_engine_call (ext : Externals) (k : engine_call)
    (c : KsbaCMS) (w : World)
    : Outcome (World * option KsbaCMS) (KsbaError * option KsbaStopReason) :=
  match k with
  | call_parse => ksba_cms_parse ext (Some c) (Some KSBA_SR_NONE) w
  | call_build => ksba_cms_build ext (Some c) (Some KSBA_SR_NONE) w
  end.

(** A sequence of engine calls on one container: the error codes in the
    order of the calls and the final container, [None] if a call got
    stuck. *)
Fixpoint run_engine_calls (ext : Externals) (ks : list engine_call)
    (c : KsbaCMS) (w : World) : option (list KsbaError * World * KsbaCMS) :=
  match ks with
  | [] => Some ([], w, c)
  | k :: ks' =>
      match run_engine_call ext k c w with
      | Returns (err, _) (w', Some c') =>
          match run_engine_calls ext ks' c' w' with
          | Some (errs, w'', c'') => Some (err :: errs, w'', c'')
          | None => None
          end
      | _ => None
      end
  end.

(** [n + 1] successive calls of [ksba_cms_get_digest_algo (cms, 0)]:
    the outcome of the last one. *)
Fixpoint get_digest_algo_again (ext : Externals) (n : nat)
    (c : KsbaCMS) (w : World)
    : Outcome (World * option KsbaCMS) (option ptr) :=
  match n with
  | O => ksba_cms_get_digest_algo ext (Some c) 0 w
  | S n' =>
      match ksba_cms_get_digest_algo ext (Some c) 0 w with
      | Returns _ (w', Some c') => get_digest_algo_again ext n' c' w'
      | other => other
      end
  end.

(** The bytes of a sequence of hash callback invocations. *)
Definition hashed_bytes (l : list hash_call) : list byte :=
  concat (map hc_data l).

(** The value a call returned, if it returned. *)
Definition retval {S A : Type} (o : Outcome S A) : option A :=
  match o with
  | Returns a _ => Some a
  | Stuck _ => None
  end.

(** The OID of the row without handlers. *)
Definition oid_auth_data : string := "1.2.840.113549.1.9.16.1.2".

(** The shape [ksba_cms_get_message_digest] demands of the attribute
    value: a SET OF with exactly one element, an OCTET STRING. *)
Definition set_of_one_octet_string (w : World) (nd : asn_node_struct)
    : Prop :=
  type nd = TYPE_SET_OF
  /\ exists d dn, down nd = Some d /\ nodes w !! d = Some dn
       /\ type dn = TYPE_OCTET_STRING /\ right dn = None.

(** No messageDigest attribute is found under [signedAttrs]. *)
Definition messageDigest_absent (ext : Externals) (w : World) (c : KsbaCMS)
    : Prop :=
  _ksba_asn_find_type_value ext w (signer_info_image c)
    (_ksba_asn_find_node ext w (signer_info_root c) "SignerInfos..signedAttrs")
    0 oid_messageDigest = None.

(** The third case of the getter as the specification words it: with a
    parsed tree, an absent messageDigest attribute gives
    [KSBA_Value_Not_Found]. *)
Definition absent_digest_is_value_not_found (ext : Externals) (w : World)
    (c : KsbaCMS) : Prop :=
  is_Some (signer_info_root c) ->
  messageDigest_absent ext w c ->
  forall rd rl,
    fst <$> (fst <$> retval (ksba_cms_get_message_digest ext (Some c) 0
                               (Some rd) (Some rl) w))
    = Some KSBA_Value_Not_Found.

(** A computation leaves the field (or view) [f] of the container as it
    found it, whenever it returns. *)
Definition preserves {X A : Type} (f : KsbaCMS -> X) (m : M A) : Prop :=
  forall s a s', m s = Returns a s' -> f (st_cms s') = f (st_cms s).

(** Views of the container the builders do not write: they store the
    writer, the signer records and the signer-info pair only. *)
Class BuilderFrame {X : Type} (f : KsbaCMS -> X) : Prop := {
  frame_writer : forall wr c, f (set_writer wr c) = f c;
  frame_cert_list : forall l c, f (set_cert_list l c) = f c;
  frame_signer_info : forall r i c, f (set_signer_info r i c) = f c
}.

#[global] Instance stop_reason_frame : BuilderFrame stop_reason.
Proof. split; reflexivity. Qed.

#[global] Instance content_handler_frame : BuilderFrame content_handler.
Proof. split; reflexivity. Qed.

#[global] Instance detached_signature_frame : BuilderFrame detached_signature.
Proof. split; reflexivity. Qed.



(** The head of the signer list carries a message digest: the test
    [cms->cert_list && cms->cert_list->msg_digest_len]. *)
Definition first_signer_has_digest (c : KsbaCMS) : Prop :=
  exists cl next, cert_list c = cl :: next /\ msg_digest_len cl <> 0.

(** The START step of the builder as the specification words it: the
    flag is set exactly when some signer record has a message digest. *)
Definition detached_iff_some_signer_has_digest (ext : Externals) (s : State)
    : Prop :=
  stop_reason (st_cms s) = KSBA_SR_GOT_CONTENT ->
  forall e s', ct_build_signed_data ext s = Returns e s' ->
  (detached_signature (st_cms s') = true
   <-> Exists (fun cl => msg_digest_len cl <> 0) (cert_list (st_cms s))).

(** The DATAREADY step as the specification words it: a signer record
    without message digest makes the step return [KSBA_Missing_Value]. *)
Definition missing_digest_is_missing_value (ext : Externals) (s : State)
    : Prop :=
  Exists (fun cl => msg_digest_len cl = 0) (cert_list (st_cms s)) ->
  retval (build_signed_data_attributes ext s) = Some KSBA_Missing_Value.

(** ** A small instance of the externals

    A table-driven stand-in for the codec, used to run the engine on
    concrete containers.  Paths resolve to fixed distances from the root
    they are looked up under; templates are expanded in place. *)

Definition demo_path_table : list (string * positive) :=
  [ ("SignerInfos..signedAttrs", 1);
    ("SignerInfos..digestAlgorithm.algorithm", 2);
    ("SignerInfos..sid.issuerAndSerialNumber.issuer", 3);
    ("SignerInfos..sid.issuerAndSerialNumber.serialNumber", 5);
    ("Attribute.attrType", 1);
    ("Attribute.attrValues", 2) ]%positive.

Fixpoint demo_path_lookup (t : list (string * positive)) (path : string)
    : option positive :=
  match t with
  | [] => None
  | (p, k) :: t' => if String.eqb p path then Some k else demo_path_lookup t' path
  end.

Definition demo_find_node (w : World) (root : option ptr) (path : string)
    : option ptr :=
  match root, demo_path_lookup demo_path_table path with
  | Some r, Some k =>
      match nodes w !! (r + k)%positive with
      | Some _ => Some (r + k)%positive
      | None => None
      end
  | _, _ => None
  end.

(** The value node of the [idx]-th type/value pair with the given OID
    among the elements that follow [n]. *)
Fixpoint demo_find_type_value_from (fuel : nat) (w : World) (img : image)
    (n : option ptr) (idx : Z) (o : list byte) : option ptr :=
  match fuel, n with
  | S fuel', Some p =>
      match nodes w !! p with
      | None => None
      | Some nd =>
          let hit :=
            match type nd, down nd with
            | TYPE_SEQUENCE, Some q =>
                match nodes w !! q with
                | Some noid =>
                    if bool_decide (type noid = TYPE_OBJECT_ID)
                       && negb (off noid =? -1)
                       && bool_decide
                            (mem_read img (off noid + nhdr noid) (len noid)
                             = Some o)
                    then right noid else None
                | None => None
                end
            | _, _ => None
            end in
          match hit with
          | Some v =>
              if idx =? 0 then Some v
              else demo_find_type_value_from fuel' w img (right nd) (idx - 1) o
          | None => demo_find_type_value_from fuel' w img (right nd) idx o
          end
      end
  | _, _ => None
  end.

Definition demo_find_type_value (w : World) (img : option image)
    (root : option ptr) (idx : Z) (o : list byte) : option ptr :=
  match img, root with
  | Some i, Some r =>
      match nodes w !! r with
      | Some nd =>
          demo_find_type_value_from (S (size (nodes w))) w i (down nd) idx o
      | None => None
      end
  | _, _ => None
  end.

Definition demo_alloc_string (str : string) (w : World) : ptr * World :=
  let p := Pos.of_succ_nat (size (strings w)) in
  (p, {| nodes := nodes w; strings := <[p := str]> (strings w);
         hashed := hashed w |}).

Definition demo_write (bytes : list byte) (wr : option KsbaWriter)
    : KsbaError * option KsbaWriter :=
  match wr with
  | Some out => (KSBA_No_Error, Some (out ++ bytes))
  | None => (KSBA_Invalid_Value, None)
  end.

Definition demo_ext : Externals :=
  {| _ksba_cms_parse_content_info := fun s =>
       match reader (st_cms s) with
       | Some r =>
           (KSBA_No_Error,
            {| st_world := st_world s;
               st_cms := set_content (Some (String.string_of_list_byte r))
                           (content_ct (st_cms s))
                           (content_handler (st_cms s)) (st_cms s) |})
       | None => (KSBA_Invalid_Value, s)
       end;
     _ksba_cms_parse_signed_data_part_1 := fun s =>
       match reader (st_cms s) with
       | Some r =>
           (KSBA_No_Error,
            {| st_world := st_world s;
               st_cms := set_detached_signature
                           (bool_decide (r = [])) (st_cms s) |})
       | None => (KSBA_Invalid_Value, s)
       end;
     _ksba_cms_parse_signed_data_part_2 := fun s =>
       match reader (st_cms s) with
       | Some r =>
           (KSBA_No_Error,
            {| st_world := st_world s;
               st_cms := set_signer_info (Some 100%positive) (Some r)
                           (st_cms s) |})
       | None => (KSBA_Invalid_Value, s)
       end;
     ksba_asn_create_tree := fun _ w => (KSBA_No_Error, Some 1%positive, w);
     _ksba_asn_find_node := demo_find_node;
     _ksba_asn_find_type_value := demo_find_type_value;
     _ksba_asn_expand_tree := fun tree name w =>
       match tree with
       | Some _ =>
           if String.eqb name "CryptographicMessageSyntax.Attribute"
           then (Some 200%positive, w)
           else if String.eqb name "CryptographicMessageSyntax.SignerInfos"
           then (Some 300%positive, w)
           else (None, w)
       | None => (None, w)
       end;
     _ksba_asn_release_nodes := fun _ w => w;
     _ksba_dn_to_str := fun _ _ w =>
       let '(p, w') := demo_alloc_string "CN=demo" w in
       (KSBA_No_Error, Some p, w');
     _ksba_oid_node_to_str := fun _ n w =>
       match n with
       | Some _ =>
           let '(p, w') := demo_alloc_string "1.3.14.3.2.26" w in (Some p, w')
       | None => (None, w)
       end;
     ksba_oid_from_str := fun o =>
       match o with
       | Some str => (KSBA_No_Error, String.list_byte_of_string str)
       | None => (KSBA_Invalid_Value, [])
       end;
     _ksba_ber_write_tl := fun _ _ _ n => demo_write [byte_of_Z n];
     ksba_writer_write := fun buf n => demo_write (take (Z.to_nat n) buf);
     _ksba_der_write_algorithm_identifier := fun str =>
       demo_write (String.list_byte_of_string str);
     _ksba_der_store_oid := fun _ _ w => (KSBA_No_Error, w);
     _ksba_der_store_integer := fun _ _ w => (KSBA_No_Error, w);
     _ksba_der_store_null := fun _ w => (KSBA_No_Error, w);
     _ksba_der_store_octet_string := fun _ _ _ w => (KSBA_No_Error, w);
     _ksba_der_encode_tree := fun _ w => (KSBA_No_Error, Some [x30; x00], w);
     _ksba_der_copy_tree := fun _ _ _ w => (KSBA_No_Error, w);
     xtrymalloc := fun _ n => 0 <=? n;
     msg_digest_size := 64 |}.

(** A parsed [signedAttrs] with one messageDigest attribute:
    [A0 15 30 13 06 09 <oid> 31 06 04 04 DE AD BE EF]. *)
Definition demo_image : image :=
  [xa0; x15; x30; x13; x06; x09] ++ oid_messageDigest
  ++ [x31; x06; x04; x04; xde; xad; xbe; xef].

Definition demo_node (t : node_type) (o h l : Z) (d r : option ptr)
    : asn_node_struct :=
  {| type := t; off := o; nhdr := h; len := l; down := d; right := r |}.

(** The nodes of the parsed tree rooted at 100, and of the attribute
    template at 200. *)
Definition demo_nodes : gmap ptr asn_node_struct :=
  list_to_map
    [ (100, demo_node TYPE_SET_OF (-1) 0 0 (Some 101) None);
      (101, demo_node (TYPE_other 1) 0 2 21 (Some 110) None);
      (102, demo_node TYPE_OBJECT_ID 4 2 9 None None);
      (103, demo_node (TYPE_other 2) (-1) 0 0 (Some 104) None);
      (104, demo_node TYPE_SEQUENCE 2 2 19 None None);
      (105, demo_node TYPE_INTEGER 17 2 4 None None);
      (110, demo_node TYPE_SEQUENCE 2 2 19 (Some 111) None);
      (111, demo_node TYPE_OBJECT_ID 4 2 9 None (Some 112));
      (112, demo_node TYPE_SET_OF 15 2 6 (Some 113) None);
      (113, demo_node TYPE_OCTET_STRING 17 2 4 None None);
      (200, demo_node TYPE_SEQUENCE (-1) 0 0 (Some 201) None);
      (201, demo_node TYPE_OBJECT_ID (-1) 0 0 None (Some 202));
      (202, demo_node TYPE_SET_OF (-1) 0 0 (Some 203) None);
      (203, demo_node TYPE_OCTET_STRING (-1) 0 0 None None) ]%positive.

Definition demo_world : World :=
  {| nodes := demo_nodes; strings := ∅; hashed := [] |}.

(** A world whose tree has no [signedAttrs] element. *)
Definition demo_world_no_attrs : World :=
  {| nodes := delete 101%positive demo_nodes; strings := ∅; hashed := [] |}.

(** A world whose attribute sequence occurs twice. *)
Definition demo_world_two_digests : World :=
  {| nodes :=
       <[110%positive :=
           demo_node TYPE_SEQUENCE 2 2 19 (Some 111%positive)
             (Some 120%positive)]>
       (<[120%positive :=
           demo_node TYPE_SEQUENCE 2 2 19 (Some 111%positive) None]>
        demo_nodes);
     strings := ∅; hashed := [] |}.

(** A world whose attribute value is a SET OF two OCTET STRINGs. *)
Definition demo_world_two_values : World :=
  {| nodes :=
       <[113%positive :=
           demo_node TYPE_OCTET_STRING 17 2 4 None (Some 114%positive)]>
       (<[114%positive := demo_node TYPE_OCTET_STRING 17 2 4 None None]>
        demo_nodes);
     strings := ∅; hashed := [] |}.

(** The container after a parse of the demo tree. *)
Definition demo_parsed_cms : KsbaCMS :=
  set_hash_fnc (Some 7%positive) (Some 8%positive)
    (set_signer_info (Some 100%positive) (Some demo_image)
       (set_stop_reason KSBA_SR_READY
          (set_content (Some "1.2.840.113549.1.7.2") KSBA_CT_SIGNED_DATA
             (Some fn_ct_parse_signed_data) zeroed_cms))).

Definition demo_cert : KsbaCert :=
  {| cert_root := Some 400%positive; cert_image := Some [x30; x00] |}.

(** The value of a successful call on a container. *)
Definition cms_after {A : Type} (o : Outcome (World * option KsbaCMS) A)
    : KsbaCMS :=
  match o with
  | Returns _ (_, Some c) => c
  | _ => zeroed_cms
  end.

(** A container set up for building through the interface: content
    types, one digest algorithm, a writer. *)
Definition demo_builder_cms : KsbaCMS :=
  let c := set_reader_writer None (Some []) zeroed_cms in
  let c := cms_after (ksba_cms_set_content_type demo_ext (Some c) 0
                        KSBA_CT_SIGNED_DATA demo_world) in
  let c := cms_after (ksba_cms_set_content_type demo_ext (Some c) 1
                        KSBA_CT_DATA demo_world) in
  let c := cms_after (ksba_cms_add_digest_algo demo_ext (Some c)
                        (Some "1.3.14.3.2.26") demo_world) in
  cms_after (ksba_cms_build demo_ext (Some c) (Some KSBA_SR_NONE) demo_world).

(** Two signers added in turn; the signer added first (index 1 from the
    head of the list) is then given a message digest. *)
Definition demo_two_signers_cms : KsbaCMS :=
  let c := cms_after (ksba_cms_add_signer demo_ext (Some demo_builder_cms)
                        (Some demo_cert) demo_world) in
  let c := cms_after (ksba_cms_add_signer demo_ext (Some c)
                        (Some demo_cert) demo_world) in
  cms_after (ksba_cms_set_message_digest demo_ext (Some c) 1
               (Some [xde; xad; xbe; xef]) 4 demo_world).

(** One signer, no message digest set. *)
Definition demo_one_signer_cms : KsbaCMS :=
  cms_after (ksba_cms_add_signer demo_ext (Some demo_builder_cms)
               (Some demo_cert) demo_world).

(** ** Vocabulary of the further properties *)

(** The error code of a call that returned. *)
Definition errcode {S : Type} (o : Outcome S KsbaError) : option KsbaError :=
  retval o.

(** The container a call left behind, if it returned. *)
Definition cms_of {A : Type} (o : Outcome (World * option KsbaCMS) A)
    : option KsbaCMS :=
  match o with
  | Returns _ (_, c) => c
  | Stuck _ => None
  end.

(** The handlers that are stubs. *)
Definition stub_handler (h : handler_fn) : Prop :=
  h <> fn_ct_parse_signed_data /\ h <> fn_ct_build_signed_data.

(** What a signer record is given by its owner: certificate and digest. *)
Definition signer_core (cl : certlist_s)
    : option KsbaCert * list byte * Z :=
  (cert cl, msg_digest cl, msg_digest_len cl).

Definition signer_cores (c : KsbaCMS)
    : list (option KsbaCert * list byte * Z) :=
  map signer_core (cert_list c).

(** What the builders are given and do not own. *)
Definition build_inputs (c : KsbaCMS) :=
  (reader c, content_oid c, content_ct c, content_handler c,
   encap_cont_type c, digest_algos c, signer_info_cache_digest_algo c,
   data_digest c, hash_fnc c, hash_fnc_arg c).

(** Views the builders keep although they write the signer list: the
    only store into it is that of the attribute pair of one record. *)
Class AttrFrame {X : Type} (f : KsbaCMS -> X) : Prop := {
  attr_frame_writer : forall wr c, f (set_writer wr c) = f c;
  attr_frame_signer_info : forall r i c, f (set_signer_info r i c) = f c;
  attr_frame_attr : forall r i n c,
    f (set_cert_list (alter (set_attr r i) n (cert_list c)) c) = f c;
  attr_frame_stop_reason : forall sr c, f (set_stop_reason sr c) = f c;
  attr_frame_detached : forall b c, f (set_detached_signature b c) = f c
}.

(** The value of the four length octets that precede a serial number. *)
Definition be32 (p : list byte) : Z :=
  match p with
  | b0 :: b1 :: b2 :: b3 :: _ =>
      Z.of_N (Byte.to_N b0) * 2 ^ 24 + Z.of_N (Byte.to_N b1) * 2 ^ 16
      + Z.of_N (Byte.to_N b2) * 2 ^ 8 + Z.of_N (Byte.to_N b3)
  | _ => 0
  end.

(** The stop reasons a caller is handed by a successful call. *)
Definition reportable (sr : KsbaStopReason) : bool :=
  match sr with
  | KSBA_SR_GOT_CONTENT | KSBA_SR_NEED_HASH | KSBA_SR_BEGIN_DATA
  | KSBA_SR_END_DATA | KSBA_SR_NEED_SIG | KSBA_SR_READY => true
  | _ => false
  end.

(** A world whose tree has no serial number node. *)
Definition demo_world_no_serial : World :=
  {| nodes := delete 105%positive demo_nodes; strings := ∅; hashed := [] |}.

#[global] Instance build_inputs_attr_frame : AttrFrame build_inputs.
Proof. split; reflexivity. Qed.

#[global] Instance signer_cores_attr_frame : AttrFrame signer_cores.
Proof.
  split; try reflexivity.
  intros r i n c. unfold signer_cores. cbn [cert_list set_cert_list].
  revert n. induction (cert_list c) as [|cl l IH]; intros [|n];
    try reflexivity.
  cbn [alter list_alter map]. f_equal. apply IH.
Qed.

(** The flag the START step of the builder computes. *)
Definition detached_requested (c : KsbaCMS) : bool :=
  match cert_list c with
  | cl :: _ => negb (msg_digest_len cl =? 0)
  | [] => false
  end.

(** A computation returns from every state: it neither aborts nor
    reads through an invalid pointer nor runs forever. *)
Definition returns {A : Type} (m : M A) : Prop :=
  forall s, exists a s', m s = Returns a s'.

(** The loops of [build_signed_data_attributes] and
    [build_signed_data_rest] walk the signers and the digest algorithms
    side by side: the signer at a position of [cert_list] is paired with
    the algorithm at the same position of [digest_algos]. *)
Fixpoint each_signer (P : certlist_s -> oidlist_s -> Prop)
    (certlist : list certlist_s) (digestlist : list oidlist_s) : Prop :=
  match certlist, digestlist with
  | [], _ => True
  | _ :: _, [] => False
  | cl :: certlist, dl :: digestlist =>
      P cl dl /\ each_signer P certlist digestlist
  end.

(** There is a signer, and every signer has its algorithm and [P]. *)
Definition signers_paired (P : certlist_s -> oidlist_s -> Prop)
    (c : KsbaCMS) : Prop :=
  cert_list c <> [] /\ each_signer P (cert_list c) (digest_algos c).

(** What [build_signed_data_attributes] tests of a signer. *)
Definition ready_for_attributes (cl : certlist_s) (dl : oidlist_s) : Prop :=
  is_Some (cert cl) /\ is_Some (oid dl) /\ msg_digest_len cl <> 0.

(** What [build_signed_data_rest] tests of a signer. *)
Definition ready_for_rest (cl : certlist_s) (dl : oidlist_s) : Prop :=
  is_Some (cert cl) /\ is_Some (oid dl)
  /\ is_Some (attr_root cl) /\ is_Some (attr_image cl).

(** [P] holds whenever [m] returns success. *)
Definition succeeds_only_if (P : Prop) (m : M KsbaError) : Prop :=
  forall s s', m s = Returns KSBA_No_Error s' -> P.

(** A world with the [SignerInfos] template at 300: its [signedAttrs]
    element at 301, whose grandchild 311 is the SEQUENCE the attributes
    are copied to. *)
Definition demo_world_templates : World :=
  {| nodes :=
       <[301%positive := demo_node (TYPE_other 1) (-1) 0 0
                           (Some 310%positive) None]>
       (<[310%positive := demo_node TYPE_SET_OF (-1) 0 0
                            (Some 311%positive) None]>
        (<[311%positive := demo_node TYPE_SEQUENCE (-1) 0 0 None None]>
         demo_nodes));
     strings := ∅; hashed := [] |}.

(** One signer whose message digest has been set. *)
Definition demo_ready_signer_cms : KsbaCMS :=
  cms_after (ksba_cms_set_message_digest demo_ext (Some demo_one_signer_cms) 0
               (Some [xde; xad; xbe; xef]) 4 demo_world).

(** The container after the START step of a build for that signer. *)
Definition demo_started_cms : KsbaCMS :=
  cms_after (ksba_cms_build demo_ext (Some demo_ready_signer_cms)
               (Some KSBA_SR_NONE) demo_world_templates).

(** The container after the step that builds the signed attributes. *)
Definition demo_attributes_cms : KsbaCMS :=
  cms_after (ksba_cms_build demo_ext (Some demo_started_cms)
               (Some KSBA_SR_NONE) demo_world_templates).

(** The elements of the [SignerInfos] template, all resolved to the
    node next to the root they are looked up under. *)
Definition demo_rest_path_table : list (string * positive) :=
  [ ("SignerInfos..version", 1);
    ("SignerInfos..sid", 1);
    ("SignerInfos..digestAlgorithm.algorithm", 1);
    ("SignerInfos..digestAlgorithm.parameters", 1);
    ("SignerInfos..signedAttrs", 1);
    ("SignerInfos..signatureAlgorithm.algorithm", 1);
    ("SignerInfos..signatureAlgorithm.parameters", 1);
    ("SignerInfos..signature", 1) ]%positive.

Definition demo_rest_find_node (w : World) (root : option ptr) (path : string)
    : option ptr :=
  match root, demo_path_lookup demo_rest_path_table path with
  | Some r, Some k =>
      match nodes w !! (r + k)%positive with
      | Some _ => Some (r + k)%positive
      | None => None
      end
  | _, _ => None
  end.

(** [demo_ext] with that path table. *)
Definition demo_rest_ext : Externals :=
  {| _ksba_cms_parse_content_info := _ksba_cms_parse_content_info demo_ext;
     _ksba_cms_parse_signed_data_part_1 :=
       _ksba_cms_parse_signed_data_part_1 demo_ext;
     _ksba_cms_parse_signed_data_part_2 :=
       _ksba_cms_parse_signed_data_part_2 demo_ext;
     ksba_asn_create_tree := ksba_asn_create_tree demo_ext;
     _ksba_asn_find_node := demo_rest_find_node;
     _ksba_asn_find_type_value := _ksba_asn_find_type_value demo_ext;
     _ksba_asn_expand_tree := _ksba_asn_expand_tree demo_ext;
     _ksba_asn_release_nodes := _ksba_asn_release_nodes demo_ext;
     _ksba_dn_to_str := _ksba_dn_to_str demo_ext;
     _ksba_oid_node_to_str := _ksba_oid_node_to_str demo_ext;
     ksba_oid_from_str := ksba_oid_from_str demo_ext;
     _ksba_ber_write_tl := _ksba_ber_write_tl demo_ext;
     ksba_writer_write := ksba_writer_write demo_ext;
     _ksba_der_write_algorithm_identifier :=
       _ksba_der_write_algorithm_identifier demo_ext;
     _ksba_der_store_oid := _ksba_der_store_oid demo_ext;
     _ksba_der_store_integer := _ksba_der_store_integer demo_ext;
     _ksba_der_store_null := _ksba_der_store_null demo_ext;
     _ksba_der_store_octet_string := _ksba_der_store_octet_string demo_ext;
     _ksba_der_encode_tree := _ksba_der_encode_tree demo_ext;
     _ksba_der_copy_tree := _ksba_der_copy_tree demo_ext;
     xtrymalloc := xtrymalloc demo_ext;
     msg_digest_size := msg_digest_size demo_ext |}.

(** ** A client between two engine calls *)










(** ** Basic facts *)

Lemma set_stop_reason_same (c : KsbaCMS) :
  set_stop_reason (stop_reason c) c = c.
Proof. destruct c; reflexivity. Qed.

Lemma rejection_is_error sr : is_error (rejection sr) = true.
Proof. destruct sr; reflexivity. Qed.

Lemma is_error_true_iff err : is_error err = true <-> err <> KSBA_No_Error.
Proof. destruct err; simpl; split; congruence. Qed.

(** ** The handlers turn down what they cannot resume from *)

Lemma ct_parse_signed_data_rejects ext s :
  parse_resumable (stop_reason (st_cms s)) = false ->
  ct_parse_signed_data ext s =
    Returns (rejection (stop_reason (st_cms s)))
      {| st_world := st_world s;
         st_cms := set_stop_reason KSBA_SR_RUNNING (st_cms s) |}.
Proof.
  destruct s as [w c]; simpl. intros H.
  unfold ct_parse_signed_data, mbind, M_bind; simpl.
  destruct (stop_reason c); try discriminate H; reflexivity.
Qed.

Lemma ct_build_signed_data_rejects ext s :
  build_resumable (stop_reason (st_cms s)) = false ->
  ct_build_signed_data ext s =
    Returns (rejection (stop_reason (st_cms s)))
      {| st_world := st_world s;
         st_cms := set_stop_reason KSBA_SR_RUNNING (st_cms s) |}.
Proof.
  destruct s as [w c]; simpl. intros H.
  unfold ct_build_signed_data, mbind, M_bind; simpl.
  destruct (stop_reason c); try discriminate H; reflexivity.
Qed.

(** What an entry point does once the stored stop reason is not the
    initial one and a handler is installed. *)
Lemma ksba_cms_parse_resumes ext c r w h :
  stop_reason c <> KSBA_SR_NONE ->
  content_handler c = Some h ->
  ksba_cms_parse ext (Some c) (Some r) w =
    match call_handler ext h {| st_world := w; st_cms := c |} with
    | Returns err s =>
        if is_error err
        then Returns (err, Some KSBA_SR_RUNNING) (st_world s, Some (st_cms s))
        else Returns (KSBA_No_Error, Some (stop_reason (st_cms s)))
               (st_world s, Some (st_cms s))
    | Stuck f => Stuck f
    end.
Proof.
  intros Hsr Hh. unfold ksba_cms_parse, with_cms, mbind, M_bind; simpl.
  rewrite Hh.
  destruct (stop_reason c); try congruence;
    (destruct (call_handler ext h _) as [err s|f]; [|reflexivity];
     destruct (is_error err); reflexivity).
Qed.

Lemma ksba_cms_build_resumes ext c r w h :
  stop_reason c <> KSBA_SR_NONE ->
  content_handler c = Some h ->
  ksba_cms_build ext (Some c) (Some r) w =
    match call_handler ext h {| st_world := w; st_cms := c |} with
    | Returns err s =>
        if is_error err
        then Returns (err, Some KSBA_SR_RUNNING) (st_world s, Some (st_cms s))
        else Returns (KSBA_No_Error, Some (stop_reason (st_cms s)))
               (st_world s, Some (st_cms s))
    | Stuck f => Stuck f
    end.
Proof.
  intros Hsr Hh. unfold ksba_cms_build, with_cms, mbind, M_bind; simpl.
  rewrite Hh.
  destruct (stop_reason c); try congruence;
    (destruct (call_handler ext h _) as [err s|f]; [|reflexivity];
     destruct (is_error err); reflexivity).
Qed.

Lemma ksba_cms_parse_rejects ext c r w :
  stop_reason c <> KSBA_SR_NONE ->
  content_handler c = Some fn_ct_parse_signed_data ->
  parse_resumable (stop_reason c) = false ->
  ksba_cms_parse ext (Some c) (Some r) w =
    Returns (rejection (stop_reason c), Some KSBA_SR_RUNNING)
      (w, Some (set_stop_reason KSBA_SR_RUNNING c)).
Proof.
  intros Hsr Hh Hres.
  rewrite (ksba_cms_parse_resumes ext c r w _ Hsr Hh). simpl.
  rewrite ct_parse_signed_data_rejects by exact Hres. simpl.
  rewrite rejection_is_error. reflexivity.
Qed.

Lemma ksba_cms_build_rejects ext c r w :
  stop_reason c <> KSBA_SR_NONE ->
  content_handler c = Some fn_ct_build_signed_data ->
  build_resumable (stop_reason c) = false ->
  ksba_cms_build ext (Some c) (Some r) w =
    Returns (rejection (stop_reason c), Some KSBA_SR_RUNNING)
      (w, Some (set_stop_reason KSBA_SR_RUNNING c)).
Proof.
  intros Hsr Hh Hres.
  rewrite (ksba_cms_build_resumes ext c r w _ Hsr Hh). simpl.
  rewrite ct_build_signed_data_rejects by exact Hres. simpl.
  rewrite rejection_is_error. reflexivity.
Qed.

(** C7.  A call of [ksba_cms_parse] (signed-data parse handler
    installed) or [ksba_cms_build] (signed-data build handler installed)
    on a container whose stored stop reason is [KSBA_SR_RUNNING] returns
    [KSBA_Invalid_State] and leaves the container as it was; and every
    stored stop reason that is neither the initial one nor one the
    handler resumes from makes the call return an error, with the
    container left at [KSBA_SR_RUNNING]. *)
Theorem stop_reason_outside_protocol_fails ext c r w :
  (stop_reason c = KSBA_SR_RUNNING ->
     (content_handler c = Some fn_ct_parse_signed_data ->
        ksba_cms_parse ext (Some c) (Some r) w =
          Returns (KSBA_Invalid_State, Some KSBA_SR_RUNNING) (w, Some c))
     /\ (content_handler c = Some fn_ct_build_signed_data ->
        ksba_cms_build ext (Some c) (Some r) w =
          Returns (KSBA_Invalid_State, Some KSBA_SR_RUNNING) (w, Some c)))
  /\ (stop_reason c <> KSBA_SR_NONE ->
      content_handler c = Some fn_ct_parse_signed_data ->
      parse_resumable (stop_reason c) = false ->
      exists err,
        err <> KSBA_No_Error
        /\ ksba_cms_parse ext (Some c) (Some r) w =
             Returns (err, Some KSBA_SR_RUNNING)
               (w, Some (set_stop_reason KSBA_SR_RUNNING c)))
  /\ (stop_reason c <> KSBA_SR_NONE ->
      content_handler c = Some fn_ct_build_signed_data ->
      build_resumable (stop_reason c) = false ->
      exists err,
        err <> KSBA_No_Error
        /\ ksba_cms_build ext (Some c) (Some r) w =
             Returns (err, Some KSBA_SR_RUNNING)
               (w, Some (set_stop_reason KSBA_SR_RUNNING c))).
Proof.
  split; [|split].
  - intros Hrun. split; intros Hh.
    + rewrite ksba_cms_parse_rejects; rewrite ?Hrun; try easy.
      replace (set_stop_reason KSBA_SR_RUNNING c) with c; [reflexivity|].
      rewrite <- Hrun. symmetry. apply set_stop_reason_same.
    + rewrite ksba_cms_build_rejects; rewrite ?Hrun; try easy.
      replace (set_stop_reason KSBA_SR_RUNNING c) with c; [reflexivity|].
      rewrite <- Hrun. symmetry. apply set_stop_reason_same.
  - intros Hsr Hh Hres. exists (rejection (stop_reason c)). split.
    + apply is_error_true_iff, rejection_is_error.
    + now apply ksba_cms_parse_rejects.
  - intros Hsr Hh Hres. exists (rejection (stop_reason c)). split.
    + apply is_error_true_iff, rejection_is_error.
    + now apply ksba_cms_build_rejects.
Qed.

Lemma stop_reason_outside_protocol_fails_witness :
  let c := set_stop_reason KSBA_SR_RUNNING demo_parsed_cms in
  stop_reason c = KSBA_SR_RUNNING
  /\ content_handler c = Some fn_ct_parse_signed_data
  /\ ksba_cms_parse demo_ext (Some c) (Some KSBA_SR_READY) demo_world =
       Returns (KSBA_Invalid_State, Some KSBA_SR_RUNNING) (demo_world, Some c).
Proof.
  intros c. split; [reflexivity|]. split; [reflexivity|].
  exact (proj1 (proj1 (stop_reason_outside_protocol_fails
                         demo_ext c KSBA_SR_READY demo_world) eq_refl)
           eq_refl).
Defined.

(** ** The signed-data parser *)

(** C3.  When a step of [ct_parse_signed_data] succeeds: entered with
    [KSBA_SR_GOT_CONTENT] (state START) it stops with [KSBA_SR_NEED_HASH]
    if the signature is detached and no digest is loaded, and with
    [KSBA_SR_BEGIN_DATA] otherwise; entered with [KSBA_SR_BEGIN_DATA]
    (state IN_DATA) it changes nothing but the stop reason, which
    becomes [KSBA_SR_END_DATA]; entered with [KSBA_SR_NEED_HASH] or
    [KSBA_SR_END_DATA] (state GOT_HASH) it stops with [KSBA_SR_READY].
    No other stop reason lets the step succeed. *)
Theorem ct_parse_signed_data_next_stop ext s s' :
  ct_parse_signed_data ext s = Returns KSBA_No_Error s' ->
  match stop_reason (st_cms s) with
  | KSBA_SR_GOT_CONTENT =>
      stop_reason (st_cms s') =
        if detached_signature (st_cms s')
           && negb (bool_decide (is_Some (data_digest (st_cms s'))))
        then KSBA_SR_NEED_HASH else KSBA_SR_BEGIN_DATA
  | KSBA_SR_BEGIN_DATA =>
      s' = {| st_world := st_world s;
              st_cms := set_stop_reason KSBA_SR_END_DATA (st_cms s) |}
  | KSBA_SR_NEED_HASH | KSBA_SR_END_DATA =>
      stop_reason (st_cms s') = KSBA_SR_READY
  | _ => False
  end.
Proof.
  destruct s as [w c]. unfold ct_parse_signed_data, mbind, M_bind, lift_state.
  simpl. destruct (stop_reason c) eqn:Hsr; simpl; try discriminate.
  - destruct (_ksba_cms_parse_signed_data_part_1 ext _) as [err s1].
    destruct err; simpl; try discriminate.
    intros [= <-]. reflexivity.
  - destruct (_ksba_cms_parse_signed_data_part_2 ext _) as [err s1].
    destruct err; simpl; try discriminate.
    intros [= <-]. reflexivity.
  - destruct (hash_fnc c); simpl; try discriminate.
    intros [= <-]. reflexivity.
  - destruct (_ksba_cms_parse_signed_data_part_2 ext _) as [err s1].
    destruct err; simpl; try discriminate.
    intros [= <-]. reflexivity.
Qed.

Lemma ct_parse_signed_data_next_stop_witness :
  let s := {| st_world := demo_world;
              st_cms := set_reader_writer (Some []) None
                          (set_stop_reason KSBA_SR_GOT_CONTENT
                             demo_parsed_cms) |} in
  exists s',
    ct_parse_signed_data demo_ext s = Returns KSBA_No_Error s'
    /\ stop_reason (st_cms s') = KSBA_SR_NEED_HASH.
Proof.
  intros s. eexists. split; [lazy; reflexivity|].
  exact (ct_parse_signed_data_next_stop demo_ext s _ eq_refl).
Defined.

(** ** The content dispatcher *)

Lemma find_row_by_oid_None rows o :
  (forall row, In row rows -> row_oid row <> o) ->
  find_row_by_oid rows o = None.
Proof.
  induction rows as [|r rows IH]; simpl; intros H; [reflexivity|].
  destruct (String.eqb_spec (row_oid r) o) as [Heq|Hne].
  - exfalso. apply (H r); [now left | exact Heq].
  - apply IH. intros row Hin. apply H. now right.
Qed.

Lemma find_row_by_oid_content_handlers row :
  In row content_handlers ->
  find_row_by_oid content_handlers (row_oid row) = Some row.
Proof.
  unfold content_handlers. simpl.
  intros [<-|[<-|[<-|[<-|[<-|[<-|[]]]]]]]; reflexivity.
Qed.

Lemma null_parse_handler_is_auth_data row :
  In row content_handlers ->
  row_parse_handler row = None ->
  row_oid row = oid_auth_data.
Proof.
  unfold content_handlers. simpl.
  intros [<-|[<-|[<-|[<-|[<-|[<-|[]]]]]]]; simpl; try discriminate.
  reflexivity.
Qed.

#[local] Arguments find_row_by_oid : simpl never.

Lemma ksba_cms_parse_initial ext c r w s1 o :
  stop_reason c = KSBA_SR_NONE ->
  _ksba_cms_parse_content_info ext {| st_world := w; st_cms := c |}
    = (KSBA_No_Error, s1) ->
  content_oid (st_cms s1) = Some o ->
  ksba_cms_parse ext (Some c) (Some r) w =
    match find_row_by_oid content_handlers o with
    | None =>
        Returns (KSBA_Unknown_CMS_Object, Some KSBA_SR_RUNNING)
          (st_world s1, Some (st_cms s1))
    | Some row =>
        match row_parse_handler row with
        | None =>
            Returns (KSBA_Unsupported_CMS_Object, Some KSBA_SR_RUNNING)
              (st_world s1, Some (st_cms s1))
        | Some h =>
            Returns (KSBA_No_Error, Some KSBA_SR_GOT_CONTENT)
              (st_world s1,
               Some (set_stop_reason KSBA_SR_GOT_CONTENT
                       (set_content (Some o) (row_ct row) (Some h)
                          (st_cms s1))))
        end
    end.
Proof.
  intros Hsr Hci Ho.
  unfold ksba_cms_parse, with_cms, mbind, M_bind, lift_state. simpl.
  rewrite Hsr, Hci. simpl. rewrite Ho.
  destruct (find_row_by_oid content_handlers o) as [row|]; [|reflexivity].
  destruct (row_parse_handler row); reflexivity.
Qed.

(** C6.  On the first call of [ksba_cms_parse] (stored stop reason still
    the initial one), once the outer ContentInfo has been read and has
    left the content OID [o]: if no row of [content_handlers] has the
    OID [o] the call returns [KSBA_Unknown_CMS_Object]; if [o] is the
    auth-data OID, the one row without parse handler, it returns
    [KSBA_Unsupported_CMS_Object]; otherwise the content type and the
    parse handler of the row with OID [o] are installed, the stop
    reason becomes [KSBA_SR_GOT_CONTENT] and is reported. *)
Theorem ksba_cms_parse_dispatch ext c r w s1 o :
  stop_reason c = KSBA_SR_NONE ->
  _ksba_cms_parse_content_info ext {| st_world := w; st_cms := c |}
    = (KSBA_No_Error, s1) ->
  content_oid (st_cms s1) = Some o ->
  ((forall row, In row content_handlers -> row_oid row <> o) ->
     ksba_cms_parse ext (Some c) (Some r) w =
       Returns (KSBA_Unknown_CMS_Object, Some KSBA_SR_RUNNING)
         (st_world s1, Some (st_cms s1)))
  /\ (o = oid_auth_data ->
     ksba_cms_parse ext (Some c) (Some r) w =
       Returns (KSBA_Unsupported_CMS_Object, Some KSBA_SR_RUNNING)
         (st_world s1, Some (st_cms s1)))
  /\ (forall row, In row content_handlers -> row_oid row = o ->
      match row_parse_handler row with
      | None => o = oid_auth_data
      | Some h =>
          ksba_cms_parse ext (Some c) (Some r) w =
            Returns (KSBA_No_Error, Some KSBA_SR_GOT_CONTENT)
              (st_world s1,
               Some (set_stop_reason KSBA_SR_GOT_CONTENT
                       (set_content (Some o) (row_ct row) (Some h)
                          (st_cms s1))))
      end).
Proof.
  intros Hsr Hci Ho.
  pose proof (ksba_cms_parse_initial ext c r w s1 o Hsr Hci Ho) as Hp.
  split; [|split].
  - intros Hno. rewrite Hp, find_row_by_oid_None by exact Hno. reflexivity.
  - intros ->. rewrite Hp. reflexivity.
  - intros row Hin Hoid.
    destruct (row_parse_handler row) as [h|] eqn:Hh.
    + rewrite Hp. rewrite <- Hoid at 1.
      rewrite find_row_by_oid_content_handlers by exact Hin.
      rewrite Hh. reflexivity.
    + rewrite <- Hoid. now apply null_parse_handler_is_auth_data.
Qed.

Lemma ksba_cms_parse_dispatch_witness :
  let c := set_reader_writer (Some (String.list_byte_of_string "1.2.3.4"))
             None zeroed_cms in
  retval (ksba_cms_parse demo_ext (Some c) (Some KSBA_SR_NONE) demo_world)
  = Some (KSBA_Unknown_CMS_Object, Some KSBA_SR_RUNNING).
Proof.
  intros c.
  assert (Hno : forall row, In row content_handlers ->
                            row_oid row <> "1.2.3.4").
  { unfold content_handlers. simpl.
    intros row [<-|[<-|[<-|[<-|[<-|[<-|[]]]]]]]; simpl; discriminate. }
  rewrite (proj1 (ksba_cms_parse_dispatch demo_ext c KSBA_SR_NONE demo_world
                    _ "1.2.3.4" eq_refl eq_refl eq_refl) Hno).
  reflexivity.
Defined.

(** ** Accessors *)

(** C8.  [ksba_cms_get_issuer_serial] never looks at [idx]: on the
    parsed demo container with [idx = 1] it succeeds and returns the
    issuer and the length-prefixed serial number of the only signer,
    where [ksba_cms_get_message_digest] answers the same index with
    [KSBA_Not_Implemented]. *)
Theorem ksba_cms_get_issuer_serial_ignores_idx :
  (forall ext cms idx r_issuer r_serial w,
     ksba_cms_get_issuer_serial ext cms idx r_issuer r_serial w =
     ksba_cms_get_issuer_serial ext cms 0 r_issuer r_serial w)
  /\ retval (ksba_cms_get_issuer_serial demo_ext (Some demo_parsed_cms) 1
               (Some None) (Some None) demo_world)
     = Some (KSBA_No_Error, Some (Some 1%positive),
             Some (Some [x00; x00; x00; x04; xde; xad; xbe; xef]))
  /\ retval (ksba_cms_get_message_digest demo_ext (Some demo_parsed_cms) 1
               (Some None) (Some 0) demo_world)
     = Some (KSBA_Not_Implemented, Some None, Some 0).
Proof.
  split; [reflexivity|]. split; vm_compute; reflexivity.
Qed.

Lemma ksba_cms_get_digest_algo_cached ext c w root p :
  signer_info_root c = Some root ->
  signer_info_cache_digest_algo c = Some p ->
  ksba_cms_get_digest_algo ext (Some c) 0 w = Returns (Some p) (w, Some c).
Proof.
  intros Hroot Hcache.
  unfold ksba_cms_get_digest_algo, with_cms, mbind, M_bind. simpl.
  rewrite Hroot, Hcache. reflexivity.
Qed.

Lemma get_digest_algo_again_cached ext n c w root p :
  signer_info_root c = Some root ->
  signer_info_cache_digest_algo c = Some p ->
  get_digest_algo_again ext n c w = Returns (Some p) (w, Some c).
Proof.
  intros Hroot Hcache. induction n as [|n IH]; cbn [get_digest_algo_again].
  - now apply ksba_cms_get_digest_algo_cached with root.
  - rewrite (ksba_cms_get_digest_algo_cached ext c w root p Hroot Hcache).
    exact IH.
Qed.

(** C9.  On a container with a parsed SignerInfos tree,
    [ksba_cms_get_digest_algo (cms, 0)] returns, and what it returns is
    what the container then holds in its cache; when it returned a
    string, every repetition of the call returns the very same pointer
    and changes neither the container nor the memory (so the string the
    pointer designates is the same, too). *)
Theorem ksba_cms_get_digest_algo_idempotent ext c w root :
  signer_info_root c = Some root ->
  exists r1 w1 c1,
    ksba_cms_get_digest_algo ext (Some c) 0 w = Returns r1 (w1, Some c1)
    /\ signer_info_cache_digest_algo c1 = r1
    /\ forall p, r1 = Some p ->
       forall n, get_digest_algo_again ext n c1 w1
                 = Returns (Some p) (w1, Some c1).
Proof.
  intros Hroot.
  destruct (signer_info_cache_digest_algo c) as [p0|] eqn:Hcache.
  - exists (Some p0), w, c. split; [|split].
    + now apply ksba_cms_get_digest_algo_cached with root.
    + exact Hcache.
    + intros p [= <-] n. now apply get_digest_algo_again_cached with root.
  - unfold ksba_cms_get_digest_algo, with_cms, mbind, M_bind, lift_world.
    simpl. rewrite Hroot, Hcache. simpl.
    destruct (_ksba_oid_node_to_str ext _ _ w) as [[p1|] w1]; simpl.
    + exists (Some p1), w1, (set_cache_digest_algo (Some p1) c).
      split; [reflexivity|]. split; [reflexivity|].
      intros p [= <-] n.
      now apply get_digest_algo_again_cached with root.
    + exists None, w1, c. split; [reflexivity|]. split; [exact Hcache|].
      intros p [=].
Qed.

Lemma ksba_cms_get_digest_algo_idempotent_witness :
  signer_info_root demo_parsed_cms = Some 100%positive
  /\ exists w1 c1,
       ksba_cms_get_digest_algo demo_ext (Some demo_parsed_cms) 0 demo_world
         = Returns (Some 1%positive) (w1, Some c1)
       /\ strings w1 !! 1%positive = Some "1.3.14.3.2.26"
       /\ get_digest_algo_again demo_ext 2 c1 w1
          = Returns (Some 1%positive) (w1, Some c1).
Proof.
  split; [reflexivity|].
  destruct (ksba_cms_get_digest_algo_idempotent demo_ext demo_parsed_cms
              demo_world 100%positive eq_refl)
    as (r1 & w1 & c1 & Hcall & _ & Hagain).
  vm_compute in Hcall. injection Hcall as <- <- <-.
  eexists _, _. split; [vm_compute; reflexivity|].
  split; [vm_compute; reflexivity|].
  exact (Hagain 1%positive eq_refl 2%nat).
Defined.

Lemma mem_read_in_bounds img o n :
  0 <= o -> 0 <= n -> o + n <= Z.of_nat (length img) ->
  mem_read img o n = Some (take (Z.to_nat n) (drop (Z.to_nat o) img))
  /\ Z.of_nat (length (take (Z.to_nat n) (drop (Z.to_nat o) img))) = n.
Proof.
  intros Ho Hn Hlen. unfold mem_read.
  destruct (Z.leb_spec 0 o); [|lia].
  destruct (Z.leb_spec 0 n); [|lia].
  destruct (Z.leb_spec (o + n) (Z.of_nat (length img))); [|lia].
  split; [reflexivity|].
  rewrite length_take, length_drop. lia.
Qed.

(** C1.  With a registered hash function and a stored [signedAttrs]
    element (found in [signer_info.root] at offset [off] with header
    length [nhdr] and content length [len], inside the stored image),
    [ksba_cms_hash_signed_attrs (cms, 0)] succeeds and calls the hash
    function exactly twice: with the single byte [0x31] and then with
    the [nhdr + len - 1] bytes of the image from [off + 1] on.  The
    bytes fed begin with [0x31] and are [1 + (nhdr + len - 1)] in
    number. *)
Theorem ksba_cms_hash_signed_attrs_feeds ext c w f n nd img :
  hash_fnc c = Some f ->
  signer_info_image c = Some img ->
  _ksba_asn_find_node ext w (signer_info_root c) "SignerInfos..signedAttrs"
    = Some n ->
  nodes w !! n = Some nd ->
  0 <= off nd ->
  1 <= nhdr nd + len nd ->
  off nd + nhdr nd + len nd <= Z.of_nat (length img) ->
  let bytes := take (Z.to_nat (nhdr nd + len nd - 1))
                 (drop (Z.to_nat (off nd + 1)) img) in
  let calls := [ {| hc_fnc := f; hc_arg := hash_fnc_arg c; hc_data := [x31] |};
                 {| hc_fnc := f; hc_arg := hash_fnc_arg c; hc_data := bytes |} ] in
  ksba_cms_hash_signed_attrs ext (Some c) 0 w =
    Returns KSBA_No_Error (set_hashed (hashed w ++ calls) w, Some c)
  /\ hashed_bytes calls = x31 :: bytes
  /\ Z.of_nat (length (hashed_bytes calls)) = 1 + (nhdr nd + len nd - 1).
Proof.
  intros Hf Himg Hfind Hnd Hoff Hpos Hlen bytes calls.
  destruct (mem_read_in_bounds img (off nd + 1) (nhdr nd + len nd - 1))
    as [Hread Hlength]; try lia.
  split; [|split].
  - unfold ksba_cms_hash_signed_attrs, with_cms, mbind, M_bind, node_at,
      call_hash_fnc, mbind, M_bind.
    simpl. rewrite Hf. simpl. rewrite Hfind. simpl. rewrite Hnd.
    destruct (Z.eqb_spec (off nd) (-1)) as [Heq|_]; [lia|].
    simpl. rewrite Himg, Hread. simpl.
    unfold set_hashed. simpl. rewrite <- app_assoc. reflexivity.
  - unfold hashed_bytes, calls. simpl. now rewrite app_nil_r.
  - unfold hashed_bytes, calls. simpl. rewrite app_nil_r.
    fold bytes in Hlength. lia.
Qed.

Lemma ksba_cms_hash_signed_attrs_feeds_witness :
  exists w1,
    ksba_cms_hash_signed_attrs demo_ext (Some demo_parsed_cms) 0 demo_world
      = Returns KSBA_No_Error (w1, Some demo_parsed_cms)
    /\ hashed_bytes (hashed w1) = x31 :: drop 1 demo_image
    /\ length (hashed_bytes (hashed w1)) = 23%nat.
Proof.
  eexists. split; [|split].
  - refine (proj1 (ksba_cms_hash_signed_attrs_feeds demo_ext demo_parsed_cms
             demo_world 7%positive 101%positive
             (demo_node (TYPE_other 1) 0 2 21 (Some 110%positive) None)
             demo_image eq_refl eq_refl eq_refl eq_refl _ _ _));
      vm_compute; congruence.
  - vm_compute; reflexivity.
  - vm_compute; reflexivity.
Defined.

(** The getter up to the search for the attribute. *)
Lemma ksba_cms_get_message_digest_no_attrs ext c w root rd rl :
  signer_info_root c = Some root ->
  _ksba_asn_find_node ext w (Some root) "SignerInfos..signedAttrs" = None ->
  ksba_cms_get_message_digest ext (Some c) 0 (Some rd) (Some rl) w =
    Returns (KSBA_No_Error, Some None, Some 0) (w, Some c).
Proof.
  intros Hroot Hfind.
  unfold ksba_cms_get_message_digest, with_cms, mbind, M_bind. simpl.
  rewrite Hroot. simpl. rewrite Hfind. reflexivity.
Qed.

(** C4, as the code has it.  On a container with a parsed SignerInfos
    tree that has a [signedAttrs] element,
    [ksba_cms_get_message_digest (cms, 0, ..)] returns
    [KSBA_Duplicate_Value] when a second messageDigest attribute is
    found, [KSBA_Invalid_CMS_Object] when the value of the only one is
    not a SET OF exactly one OCTET STRING, and [KSBA_Value_Not_Found]
    when none is found.  When the tree has no [signedAttrs] element at
    all, the call succeeds and reports no digest. *)
Theorem ksba_cms_get_message_digest_errors ext c w root rd rl :
  signer_info_root c = Some root ->
  let attrs :=
    _ksba_asn_find_node ext w (Some root) "SignerInfos..signedAttrs" in
  let find idx :=
    _ksba_asn_find_type_value ext w (signer_info_image c) attrs idx
      oid_messageDigest in
  let result :=
    ksba_cms_get_message_digest ext (Some c) 0 (Some rd) (Some rl) w in
  (is_Some attrs -> is_Some (find 0) -> is_Some (find 1) ->
     result = Returns (KSBA_Duplicate_Value, Some None, Some 0) (w, Some c))
  /\ (forall n nd,
        is_Some attrs -> find 0 = Some n -> find 1 = None ->
        nodes w !! n = Some nd ->
        (forall d, down nd = Some d -> is_Some (nodes w !! d)) ->
        ~ set_of_one_octet_string w nd ->
        result =
          Returns (KSBA_Invalid_CMS_Object, Some None, Some 0) (w, Some c))
  /\ (is_Some attrs -> find 0 = None ->
        result = Returns (KSBA_Value_Not_Found, Some None, Some 0) (w, Some c))
  /\ (attrs = None ->
        result = Returns (KSBA_No_Error, Some None, Some 0) (w, Some c)).
Proof.
  intros Hroot attrs find result.
  assert (Hres : is_Some attrs -> result =
    match find 0 with
    | None => Returns (KSBA_Value_Not_Found, Some None, Some 0) (w, Some c)
    | Some n =>
        if bool_decide (is_Some (find 1))
        then Returns (KSBA_Duplicate_Value, Some None, Some 0) (w, Some c)
        else
          match nodes w !! n with
          | None => Stuck InvalidAccess
          | Some nd =>
              if negb (bool_decide (type nd = TYPE_SET_OF))
              then Returns (KSBA_Invalid_CMS_Object, Some None, Some 0)
                     (w, Some c)
              else
                match down nd with
                | None => Returns (KSBA_Invalid_CMS_Object, Some None, Some 0)
                            (w, Some c)
                | Some d =>
                    match nodes w !! d with
                    | None => Stuck InvalidAccess
                    | Some dn =>
                        if negb (bool_decide (type dn = TYPE_OCTET_STRING)
                                 && negb (bool_decide (is_Some (right dn))))
                        then Returns (KSBA_Invalid_CMS_Object, Some None,
                                      Some 0) (w, Some c)
                        else
                          with_cms (Some c) w
                            (KSBA_Invalid_Value, Some rd, Some rl)
                            (if off dn =? -1
                             then mret (KSBA_Bug, Some None, Some 0)
                             else
                               if negb (xtrymalloc ext w (len dn))
                               then mret (KSBA_Out_Of_Core, Some None,
                                          Some (len dn))
                               else
                                 match signer_info_image c with
                                 | None => stuck InvalidAccess
                                 | Some img =>
                                     match mem_read img (off dn + nhdr dn)
                                             (len dn) with
                                     | None => stuck InvalidAccess
                                     | Some bytes =>
                                         mret (KSBA_No_Error,
                                               Some (Some bytes),
                                               Some (len dn))
                                     end
                                 end)
                    end
                end
          end
    end).
  { intros [a Ha]. subst result find.
    unfold ksba_cms_get_message_digest, with_cms, mbind, M_bind, node_at.
    simpl. rewrite Hroot. simpl. fold attrs. rewrite Ha.
    destruct (_ksba_asn_find_type_value ext w _ (Some a) 0 _) as [n|];
      [|reflexivity].
    destruct (bool_decide _); [reflexivity|]. simpl.
    destruct (nodes w !! n) as [nd|]; [|reflexivity].
    destruct (negb (bool_decide (type nd = TYPE_SET_OF))); [reflexivity|].
    destruct (down nd) as [d|]; [|reflexivity]. simpl.
    destruct (nodes w !! d) as [dn|]; [|reflexivity].
    destruct (negb _); reflexivity. }
  split; [|split; [|split]].
  - intros Ha [n Hn] H1. rewrite (Hres Ha), Hn.
    now rewrite bool_decide_eq_true_2.
  - intros n nd Ha H0 H1 Hnd Hclosed Hshape. rewrite (Hres Ha), H0, H1, Hnd.
    rewrite bool_decide_eq_false_2 by (intros [? ?]; discriminate).
    destruct (decide (type nd = TYPE_SET_OF)) as [Hty|Hty].
    2: { now rewrite (bool_decide_eq_false_2 _ Hty). }
    rewrite (bool_decide_eq_true_2 _ Hty). simpl.
    destruct (down nd) as [d|] eqn:Hdown; [|reflexivity].
    destruct (Hclosed d eq_refl) as [dn Hdn]. rewrite Hdn.
    destruct (decide (type dn = TYPE_OCTET_STRING)) as [Hoct|Hoct].
    2: { now rewrite (bool_decide_eq_false_2 _ Hoct). }
    destruct (right dn) as [r|] eqn:Hright.
    { rewrite (bool_decide_eq_true_2 (is_Some (Some r))) by eauto.
      now rewrite andb_false_r. }
    exfalso. apply Hshape. split; [exact Hty|]. exists d, dn. auto.
  - intros Ha H0. now rewrite (Hres Ha), H0.
  - intros Ha. now apply ksba_cms_get_message_digest_no_attrs with root.
Qed.

Lemma ksba_cms_get_message_digest_errors_witness :
  signer_info_root demo_parsed_cms = Some 100%positive
  /\ ksba_cms_get_message_digest demo_ext (Some demo_parsed_cms) 0
       (Some None) (Some 0) demo_world_two_digests
     = Returns (KSBA_Duplicate_Value, Some None, Some 0)
         (demo_world_two_digests, Some demo_parsed_cms).
Proof.
  split; [reflexivity|].
  refine (proj1 (ksba_cms_get_message_digest_errors demo_ext demo_parsed_cms
                   demo_world_two_digests 100%positive None 0 eq_refl) _ _ _);
    vm_compute; eauto.
Defined.

(** C4 as the specification words it does not hold: a parsed tree
    without [signedAttrs] has no messageDigest attribute, and the getter
    answers [KSBA_No_Error]. *)
Lemma absent_digest_is_value_not_found_counterexample :
  ~ absent_digest_is_value_not_found demo_ext demo_world_no_attrs
      demo_parsed_cms.
Proof.
  intros H.
  specialize (H (ex_intro _ 100%positive eq_refl) eq_refl None 0).
  vm_compute in H. discriminate H.
Qed.

(** ** What the builders leave alone *)

Section Preserves.

Context {X : Type} (f : KsbaCMS -> X).

Lemma preserves_ret {A} (a : A) : preserves f (mret a).
Proof. intros s a' s' [= _ <-]. reflexivity. Qed.

Lemma preserves_stuck {A} (fl : Failure) : preserves f (stuck (A:=A) fl).
Proof. intros s a s' H. discriminate H. Qed.

Lemma preserves_bind {A B} (m : M A) (k : A -> M B) :
  preserves f m -> (forall a, preserves f (k a)) -> preserves f (m ≫= k).
Proof.
  intros Hm Hk s b s'. unfold mbind, M_bind.
  destruct (m s) as [a s1|fl] eqn:Hms; [|discriminate].
  intros Hks. rewrite (Hk a s1 b s' Hks). exact (Hm s a s1 Hms).
Qed.

Lemma preserves_get_cms : preserves f get_cms.
Proof. intros s a s' [= _ <-]. reflexivity. Qed.

Lemma preserves_get_world : preserves f get_world.
Proof. intros s a s' [= _ <-]. reflexivity. Qed.

Lemma preserves_put_world w : preserves f (put_world w).
Proof. intros s a s' [= _ <-]. reflexivity. Qed.

Lemma preserves_node_at n : preserves f (node_at n).
Proof.
  intros s a s'. unfold node_at.
  destruct (nodes (st_world s) !! n); [|discriminate].
  intros [= _ <-]. reflexivity.
Qed.

Lemma preserves_lift_world {A} (g : World -> A * World) :
  preserves f (lift_world g).
Proof.
  intros s a s'. unfold lift_world. destruct (g (st_world s)).
  intros [= _ <-]. reflexivity.
Qed.

Lemma preserves_modify_cms (g : KsbaCMS -> KsbaCMS) :
  (forall c, f (g c) = f c) -> preserves f (modify_cms g).
Proof. intros Hg s a s' [= _ <-]. apply Hg. Qed.

Lemma preserves_lift_writer `{!BuilderFrame f} g :
  preserves f (lift_writer g).
Proof.
  intros s a s'. unfold lift_writer. destruct (g (writer (st_cms s))).
  intros [= _ <-]. apply frame_writer.
Qed.

End Preserves.

Create HintDb frame.

#[local] Hint Resolve preserves_ret preserves_stuck preserves_get_cms
  preserves_get_world preserves_put_world preserves_node_at
  preserves_lift_world preserves_lift_writer : frame.

(** One step through a computation: a leaf is closed by the hints, a
    bind is split, a test is decided both ways. *)
Ltac frame_step :=
  match goal with
  | |- preserves _ (modify_cms _) =>
      apply preserves_modify_cms; intros;
      first [ apply frame_cert_list | apply frame_signer_info | reflexivity ]
  | |- preserves _ (_ ≫= _) => apply preserves_bind; [|intros ?]
  | |- preserves _ (if ?b then _ else _) => destruct b
  | |- preserves _ (match ?x with _ => _ end) => destruct x
  | |- preserves _ _ => solve [auto with frame typeclass_instances]
  end.

Ltac frame := repeat (cbv zeta; frame_step).

Section BuilderFrames.

Context (ext : Externals) {X : Type} (f : KsbaCMS -> X) `{!BuilderFrame f}.

Lemma preserves_write_digest_algos fuel i :
  preserves f (write_digest_algos ext fuel i).
Proof.
  revert i. induction fuel as [|fuel IH]; intros i; cbn [write_digest_algos].
  - apply preserves_stuck.
  - apply preserves_bind; [apply preserves_get_cms|]. intros c.
    destruct (ksba_cms_get_digest_algo_list (Some c) i); [|apply preserves_ret].
    apply preserves_bind; [apply preserves_lift_writer; exact _|].
    intros err. destruct (is_error err); [apply preserves_ret|apply IH].
Qed.

Lemma preserves_build_signed_data_header :
  preserves f (build_signed_data_header ext).
Proof.
  pose proof preserves_write_digest_algos.
  unfold build_signed_data_header. frame.
Qed.

Lemma preserves_find_sequence fuel n :
  preserves f (find_sequence fuel n).
Proof.
  revert n. induction fuel as [|fuel IH]; intros [p|]; cbn [find_sequence];
    try apply preserves_ret; try apply preserves_stuck.
  apply preserves_bind; [apply preserves_node_at|]. intros nd.
  destruct (bool_decide _); [apply preserves_ret|apply IH].
Qed.

Lemma preserves_signed_attrs_slot root :
  preserves f (signed_attrs_slot ext root).
Proof.
  pose proof preserves_find_sequence.
  unfold signed_attrs_slot. frame.
Qed.

Lemma preserves_set_issuer_serial n k :
  preserves f (set_issuer_serial ext n k).
Proof. unfold set_issuer_serial. frame. Qed.





End BuilderFrames.

(** ** The signed-data builder *)

Lemma oidlist_nth_beyond l i :
  Z.of_nat (length l) <= i -> oidlist_nth l i = None.
Proof.
  revert i. induction l as [|o l IH]; intros i Hi; [reflexivity|].
  cbn [oidlist_nth]. cbn [length] in Hi.
  destruct (Z.eqb_spec i 0); [lia|]. apply IH. lia.
Qed.

(** The fuel [build_signed_data_header] gives the loop over the digest
    algorithms is enough: the loop ends at the end of the list. *)
Lemma write_digest_algos_ends ext fuel i s :
  0 <= i <= Z.of_nat (length (digest_algos (st_cms s))) ->
  Z.of_nat (length (digest_algos (st_cms s))) < i + Z.of_nat fuel ->
  write_digest_algos ext fuel i s <> Stuck NonTermination.
Proof.
  revert i s. induction fuel as [|fuel IH]; intros i s Hi Hfuel.
  - cbn [write_digest_algos]. unfold mbind, M_bind, get_cms.
    exfalso. lia.
  - cbn [write_digest_algos]. unfold mbind, M_bind, get_cms, lift_writer.
    cbn [ksba_cms_get_digest_algo_list].
    destruct (oidlist_nth (digest_algos (st_cms s)) i) as [ol|] eqn:Hnth;
      [|discriminate].
    destruct (oid ol) as [str|]; [|discriminate].
    destruct (_ksba_der_write_algorithm_identifier ext str _) as [err wr'].
    destruct (is_error err); [discriminate|].
    assert (i < Z.of_nat (length (digest_algos (st_cms s)))).
    { destruct (Z.ltb_spec i (Z.of_nat (length (digest_algos (st_cms s)))))
        as [Hlt|Hge]; [exact Hlt|].
      rewrite oidlist_nth_beyond in Hnth by exact Hge. discriminate. }
    apply IH; cbn [st_cms];
      replace (digest_algos (set_writer wr' (st_cms s)))
        with (digest_algos (st_cms s)) by reflexivity; lia.
Qed.

(** C2, as the code has it.  A build step entered with
    [KSBA_SR_GOT_CONTENT] (state START) leaves [detached_signature] set
    exactly when the signer list is not empty and the record at its head
    carries a message digest; and when the step succeeds the stop
    reason is [KSBA_SR_END_DATA] if the flag is set and
    [KSBA_SR_BEGIN_DATA] otherwise. *)
Theorem ct_build_signed_data_start ext s e s' :
  stop_reason (st_cms s) = KSBA_SR_GOT_CONTENT ->
  ct_build_signed_data ext s = Returns e s' ->
  (detached_signature (st_cms s') = true
   <-> first_signer_has_digest (st_cms s))
  /\ (e = KSBA_No_Error ->
      stop_reason (st_cms s') =
        if detached_signature (st_cms s')
        then KSBA_SR_END_DATA else KSBA_SR_BEGIN_DATA).
Proof.
  destruct s as [w c]. simpl. intros Hsr.
  unfold ct_build_signed_data, mbind, M_bind. simpl. rewrite Hsr. simpl.
  set (b := match cert_list c with
            | cl :: _ => negb (msg_digest_len cl =? 0)
            | [] => false
            end).
  assert (Hb : b = true <-> first_signer_has_digest c).
  { unfold b, first_signer_has_digest.
    destruct (cert_list c) as [|cl next].
    - split; [discriminate|]. intros (? & ? & [=] & _).
    - destruct (Z.eqb_spec (msg_digest_len cl) 0) as [H0|H0]; simpl.
      + split; [discriminate|]. intros (? & ? & [= <- _] & H). contradiction.
      + split; [|reflexivity]. intros _. eauto. }
  assert (Hflag :
    match cert_list c with
    | cl :: _ =>
        if negb (msg_digest_len cl =? 0)
        then modify_cms (set_detached_signature true)
        else modify_cms (set_detached_signature false)
    | [] => modify_cms (set_detached_signature false)
    end {| st_world := w; st_cms := set_stop_reason KSBA_SR_RUNNING c |}
    = Returns tt {| st_world := w;
                    st_cms := set_detached_signature b
                                (set_stop_reason KSBA_SR_RUNNING c) |}).
  { unfold b. destruct (cert_list c) as [|cl next]; [reflexivity|].
    destruct (negb _); reflexivity. }
  rewrite Hflag.
  destruct (build_signed_data_header ext _) as [err s1|fl] eqn:Hhdr;
    [|discriminate].
  pose proof (preserves_build_signed_data_header ext detached_signature
                _ _ _ Hhdr) as Hdet.
  simpl in Hdet.
  destruct (is_error err) eqn:Herr; intros [= <- <-].
  - split; [rewrite Hdet; exact Hb|].
    intros ->. discriminate Herr.
  - simpl. split; [rewrite Hdet; exact Hb|]. reflexivity.
Qed.

Lemma ct_build_signed_data_start_witness :
  let s := {| st_world := demo_world; st_cms := demo_two_signers_cms |} in
  exists s',
    ct_build_signed_data demo_ext s = Returns KSBA_No_Error s'
    /\ ~ first_signer_has_digest (st_cms s)
    /\ detached_signature (st_cms s') = false
    /\ stop_reason (st_cms s') = KSBA_SR_BEGIN_DATA.
Proof.
  intros s.
  destruct (ct_build_signed_data demo_ext s) as [e s'|fl] eqn:Hrun;
    [|vm_compute in Hrun; discriminate Hrun].
  assert (He : e = KSBA_No_Error)
    by (vm_compute in Hrun; now injection Hrun as <- _).
  subst e. exists s'. split; [reflexivity|].
  destruct (ct_build_signed_data_start demo_ext s KSBA_No_Error s'
              eq_refl Hrun) as [Hiff Hstop].
  assert (Hno : ~ first_signer_has_digest (st_cms s)).
  { intros (cl & next & Hcl & Hlen). vm_compute in Hcl.
    injection Hcl as <- _. apply Hlen. reflexivity. }
  assert (Hdet : detached_signature (st_cms s') = false).
  { destruct (detached_signature (st_cms s')); [|reflexivity].
    exfalso. apply Hno, Hiff. reflexivity. }
  split; [exact Hno|]. split; [exact Hdet|].
  rewrite (Hstop eq_refl), Hdet. reflexivity.
Defined.

(** C2 as the specification words it does not hold: of two signers the
    one added first has a message digest, the head of the list has
    none, and the START step clears the flag. *)
Lemma detached_iff_some_signer_has_digest_counterexample :
  ~ detached_iff_some_signer_has_digest demo_ext
      {| st_world := demo_world; st_cms := demo_two_signers_cms |}.
Proof.
  intros H.
  destruct (ct_build_signed_data demo_ext
              {| st_world := demo_world; st_cms := demo_two_signers_cms |})
    as [e s'|fl] eqn:Hrun; [|vm_compute in Hrun; discriminate Hrun].
  destruct (H eq_refl e s' Hrun) as [_ Hset].
  assert (Hdet : detached_signature (st_cms s') = false)
    by (vm_compute in Hrun; now injection Hrun as _ <-).
  rewrite Hdet in Hset. discriminate Hset.
  vm_compute. apply Exists_cons_tl, Exists_cons_hd. discriminate.
Qed.

(** C5.  Where [build_signed_data_attributes] does what the claim says
    and where it does not.  Once the end tag is written and the
    template tree created: an empty signer list returns
    [KSBA_Missing_Value]; an empty digest-algorithm list with signers
    present returns [KSBA_Missing_Value]; otherwise the step is its loop
    over the signers.  Whenever that loop comes to a signer record for
    which no digest-algorithm record is left it returns
    [KSBA_Missing_Value]; but when it comes to a signer record without
    message digest, with the attribute template expanded and the
    attribute type stored, it stops at the assertion
    [certlist->msg_digest_len] and returns nothing, where the claim
    says [KSBA_Missing_Value]. *)
Theorem build_signed_data_attributes_missing ext s wr tree w1 :
  _ksba_ber_write_tl ext TYPE_NONE CLASS_UNIVERSAL false 0
    (writer (st_cms s)) = (KSBA_No_Error, wr) ->
  ksba_asn_create_tree ext "cms" (st_world s) = (KSBA_No_Error, tree, w1) ->
  let s1 := {| st_world := w1; st_cms := set_writer wr (st_cms s) |} in
  (cert_list (st_cms s) = [] ->
     build_signed_data_attributes ext s = Returns KSBA_Missing_Value s1)
  /\ (cert_list (st_cms s) <> [] -> digest_algos (st_cms s) = [] ->
     build_signed_data_attributes ext s = Returns KSBA_Missing_Value s1)
  /\ (cert_list (st_cms s) <> [] -> digest_algos (st_cms s) <> [] ->
     build_signed_data_attributes ext s
     = attributes_loop ext tree 0 (cert_list (st_cms s))
         (digest_algos (st_cms s)) s1)
  /\ (forall signer cl next s0,
        attributes_loop ext tree signer (cl :: next) [] s0
        = Returns KSBA_Missing_Value s0)
  /\ (forall signer cl next dl dnext s0 attr w2 n_type w3 n_values nd d,
        is_Some (cert cl) -> is_Some (oid dl) ->
        _ksba_asn_expand_tree ext tree "CryptographicMessageSyntax.Attribute"
          (st_world s0) = (Some attr, w2) ->
        _ksba_asn_find_node ext w2 (Some attr) "Attribute.attrType"
          = Some n_type ->
        _ksba_der_store_oid ext (Some n_type) oidstr_messageDigest w2
          = (KSBA_No_Error, w3) ->
        _ksba_asn_find_node ext w3 (Some attr) "Attribute.attrValues"
          = Some n_values ->
        nodes w3 !! n_values = Some nd ->
        down nd = Some d ->
        msg_digest_len cl = 0 ->
        attributes_loop ext tree signer (cl :: next) (dl :: dnext) s0
        = Stuck AssertionFailed).
Proof.
  destruct s as [w c]. simpl. intros Hwr Htree.
  assert (Hstart : build_signed_data_attributes ext
                     {| st_world := w; st_cms := c |} =
    match cert_list c with
    | [] => Returns KSBA_Missing_Value
              {| st_world := w1; st_cms := set_writer wr c |}
    | _ :: _ =>
        match digest_algos c with
        | [] => Returns KSBA_Missing_Value
                  {| st_world := w1; st_cms := set_writer wr c |}
        | _ :: _ =>
            attributes_loop ext tree 0 (cert_list c) (digest_algos c)
              {| st_world := w1; st_cms := set_writer wr c |}
        end
    end).
  { unfold build_signed_data_attributes, mbind, M_bind, lift_writer,
      lift_world. simpl. rewrite Hwr. simpl. rewrite Htree. simpl.
    destruct (cert_list c); [reflexivity|].
    destruct (digest_algos c); reflexivity. }
  rewrite Hstart. split; [|split; [|split; [|split]]]; [| | |reflexivity|].
  - intros ->. reflexivity.
  - intros Hne ->. destruct (cert_list c); [contradiction|reflexivity].
  - intros Hc Hd. destruct (cert_list c); [contradiction|].
    destruct (digest_algos c); [contradiction|reflexivity].
  - intros signer cl next dl dnext [w0 c0] attr w2 n_type w3 n_values nd d
      [k Hk] [o Ho] Hexp Htype Hstore Hvalues Hnd Hdown Hlen.
    cbn [attributes_loop]. rewrite Hk, Ho.
    unfold mbind, M_bind, lift_world, node_at. simpl in *.
    rewrite Hexp. simpl. rewrite Htype. simpl. rewrite Hstore. simpl.
    rewrite Hvalues. simpl. rewrite Hnd. simpl. rewrite Hdown, Hlen.
    reflexivity.
Qed.

Lemma build_signed_data_attributes_missing_witness :
  let s := {| st_world := demo_world;
              st_cms := set_stop_reason KSBA_SR_BEGIN_DATA
                          demo_one_signer_cms |} in
  Exists (fun cl => msg_digest_len cl = 0) (cert_list (st_cms s))
  /\ build_signed_data_attributes demo_ext s = Stuck AssertionFailed.
Proof.
  intros s. split; [vm_compute; apply Exists_cons_hd; reflexivity|].
  destruct (build_signed_data_attributes_missing demo_ext s _ _ _
              eq_refl eq_refl) as (_ & _ & Hloop & _ & Hassert).
  rewrite Hloop by (vm_compute; discriminate).
  destruct (cert_list (st_cms s)) as [|cl next] eqn:Hcl;
    [vm_compute in Hcl; discriminate Hcl|].
  destruct (digest_algos (st_cms s)) as [|dl dnext] eqn:Hdl;
    [vm_compute in Hdl; discriminate Hdl|].
  assert (Hcl' : is_Some (cert cl) /\ msg_digest_len cl = 0).
  { vm_compute in Hcl. injection Hcl as <- _. split; [eexists|]; reflexivity. }
  assert (Hdl' : is_Some (oid dl)).
  { vm_compute in Hdl. injection Hdl as <- _. eexists; reflexivity. }
  destruct Hcl' as [Hcert Hlen].
  apply (Hassert 0%nat cl next dl dnext _ 200%positive demo_world
           201%positive demo_world 202%positive
           (demo_node TYPE_SET_OF (-1) 0 0 (Some 203%positive) None)
           203%positive Hcert Hdl');
    solve [ reflexivity | exact Hlen ].
Defined.

(** The DATAREADY step as the specification words it, at that input:
    with one signer whose message digest was never set the step runs
    into the assertion, so that no [KSBA_Missing_Value] is returned. *)
Lemma missing_digest_is_missing_value_counterexample :
  ~ missing_digest_is_missing_value demo_ext
      {| st_world := demo_world;
         st_cms := set_stop_reason KSBA_SR_BEGIN_DATA demo_one_signer_cms |}.
Proof.
  intros H.
  assert (Hstuck : build_signed_data_attributes demo_ext
            {| st_world := demo_world;
               st_cms := set_stop_reason KSBA_SR_BEGIN_DATA
                           demo_one_signer_cms |}
          = Stuck AssertionFailed) by (vm_compute; reflexivity).
  unfold missing_digest_is_missing_value in H.
  rewrite Hstuck in H. discriminate H.
  vm_compute. apply Exists_cons_hd. reflexivity.
Qed.

(** ** An engine error is terminal *)






Lemma run_engine_call_resumes ext k c w h :
  stop_reason c <> KSBA_SR_NONE ->
  content_handler c = Some h ->
  run_engine_call ext k c w =
    match call_handler ext h {| st_world := w; st_cms := c |} with
    | Returns err s =>
        if is_error err
        then Returns (err, Some KSBA_SR_RUNNING) (st_world s, Some (st_cms s))
        else Returns (KSBA_No_Error, Some (stop_reason (st_cms s)))
               (st_world s, Some (st_cms s))
    | Stuck f => Stuck f
    end.
Proof.
  intros Hsr Hh. destruct k; cbn [run_engine_call].
  - now apply ksba_cms_parse_resumes.
  - now apply ksba_cms_build_resumes.
Qed.




(** * Further properties of [cms.c] *)

(** ** Reader and writer binding *)

(** X1.  [ksba_cms_set_reader_writer] refuses two NULL streams with
    [KSBA_Invalid_Value] and a stream for a direction that is already
    bound with [KSBA_Conflict], in both cases without touching the
    container; otherwise it stores both arguments, so that binding the
    writer alone unbinds a reader bound before (and the reader can then
    be bound again). *)
Theorem ksba_cms_set_reader_writer_binding c r wr w :
  (r = None -> wr = None ->
     ksba_cms_set_reader_writer (Some c) r wr w
     = Returns KSBA_Invalid_Value (w, Some c))
  /\ ((is_Some r /\ is_Some (reader c)) \/ (is_Some wr /\ is_Some (writer c)) ->
      ksba_cms_set_reader_writer (Some c) r wr w
      = Returns KSBA_Conflict (w, Some c))
  /\ (forall rd wr', reader c = Some rd -> writer c = None ->
      exists c1,
        ksba_cms_set_reader_writer (Some c) None (Some wr') w
          = Returns KSBA_No_Error (w, Some c1)
        /\ reader c1 = None /\ writer c1 = Some wr'
        /\ forall rd',
             errcode (ksba_cms_set_reader_writer (Some c1) (Some rd') None w)
             = Some KSBA_No_Error).
Proof.
  split; [|split].
  - intros -> ->. reflexivity.
  - unfold ksba_cms_set_reader_writer, with_cms, mbind, M_bind. simpl.
    intros [[[r' ->] [rd Hrd]]|[[w' ->] [wd Hwd]]].
    + rewrite Hrd. simpl. reflexivity.
    + rewrite Hwd. simpl. destruct r, (reader c); reflexivity.
  - intros rd wr' Hrd Hwr.
    exists (set_reader_writer None (Some wr') c).
    unfold ksba_cms_set_reader_writer, with_cms, mbind, M_bind. simpl.
    rewrite Hwr. simpl. repeat split; reflexivity.
Qed.

Lemma ksba_cms_set_reader_writer_binding_witness :
  let c := set_reader_writer (Some [x30]) None zeroed_cms in
  ksba_cms_set_reader_writer (Some c) (Some [x31]) (Some []) demo_world
  = Returns KSBA_Conflict (demo_world, Some c).
Proof.
  intros c.
  apply (proj1 (proj2 (ksba_cms_set_reader_writer_binding c (Some [x31])
                         (Some []) demo_world))).
  left. split; eexists; reflexivity.
Defined.

(** ** The dispatcher table and the content-type setters and getters *)

Lemma find_row_by_ct_content_handlers row :
  In row content_handlers ->
  find_row_by_ct content_handlers (row_ct row) = Some row.
Proof.
  unfold content_handlers. simpl.
  intros [<-|[<-|[<-|[<-|[<-|[<-|[]]]]]]]; reflexivity.
Qed.

Lemma find_row_by_ct_In rows t row :
  find_row_by_ct rows t = Some row -> In row rows /\ row_ct row = t.
Proof.
  induction rows as [|r rows IH]; simpl; [discriminate|].
  case_bool_decide as Hct.
  - intros [= <-]. split; [now left|exact Hct].
  - intros H. destruct (IH H). split; [now right|assumption].
Qed.

Lemma find_row_by_oid_In rows o row :
  find_row_by_oid rows o = Some row -> In row rows /\ row_oid row = o.
Proof.
  unfold find_row_by_oid.
  induction rows as [|r rows IH]; [discriminate|].
  destruct (String.eqb_spec (row_oid r) o) as [Ho|Ho].
  - intros [= <-]. split; [now left|exact Ho].
  - intros H. destruct (IH H). split; [now right|assumption].
Qed.

Lemma content_type_of_oid_find rows o :
  content_type_of_oid rows o =
    match find_row_by_oid rows o with
    | Some row => row_ct row
    | None => KSBA_CT_NONE
    end.
Proof.
  unfold find_row_by_oid.
  induction rows as [|r rows IH]; [reflexivity|]. cbn [content_type_of_oid].
  destruct (String.eqb (row_oid r) o); [reflexivity|exact IH].
Qed.

(** X2.  In [content_handlers] the lookup by OID and the lookup by
    content type are inverse to each other: the row found for a type
    is the row found for its OID, and the row found for an OID is the
    row found for its type. *)
Theorem content_handlers_lookups_inverse :
  (forall t row,
     find_row_by_ct content_handlers t = Some row ->
     row_ct row = t
     /\ find_row_by_oid content_handlers (row_oid row) = Some row)
  /\ (forall o row,
     find_row_by_oid content_handlers o = Some row ->
     row_oid row = o
     /\ find_row_by_ct content_handlers (row_ct row) = Some row).
Proof.
  split.
  - intros t row H. destruct (find_row_by_ct_In _ _ _ H) as [Hin Hct].
    split; [exact Hct|]. now apply find_row_by_oid_content_handlers.
  - intros o row H. destruct (find_row_by_oid_In _ _ _ H) as [Hin Ho].
    split; [exact Ho|]. now apply find_row_by_ct_content_handlers.
Qed.

Lemma content_handlers_lookups_inverse_witness :
  exists row,
    find_row_by_ct content_handlers KSBA_CT_SIGNED_DATA = Some row
    /\ row_ct row = KSBA_CT_SIGNED_DATA
    /\ find_row_by_oid content_handlers (row_oid row) = Some row.
Proof.
  eexists. split; [reflexivity|].
  apply (proj1 content_handlers_lookups_inverse KSBA_CT_SIGNED_DATA).
  reflexivity.
Defined.

Lemma ksba_cms_set_content_type_cases ext c what t w :
  0 <= what <= 1 ->
  ksba_cms_set_content_type ext (Some c) what t w =
    match find_row_by_ct content_handlers t with
    | None => Returns KSBA_Unknown_CMS_Object (w, Some c)
    | Some row =>
        match row_build_handler row with
        | None => Returns KSBA_Unsupported_CMS_Object (w, Some c)
        | Some h =>
            if negb (xtrymalloc ext w
                       (Z.of_nat (String.length (row_oid row)) + 1))
            then Returns KSBA_Out_Of_Core (w, Some c)
            else if what =? 0
            then Returns KSBA_No_Error
                   (w, Some (set_content (Some (row_oid row)) (row_ct row)
                               (Some h) c))
            else Returns KSBA_No_Error
                   (w, Some (set_encap_cont_type (Some (row_oid row)) c))
        end
    end.
Proof.
  intros Hwhat. unfold ksba_cms_set_content_type.
  destruct (Z.ltb_spec what 0); [lia|].
  destruct (Z.ltb_spec 1 what); [lia|].
  cbn [bool_decide negb orb]. rewrite bool_decide_eq_true_2 by eauto.
  cbn [negb orb]. unfold with_cms, mbind, M_bind.
  destruct (find_row_by_ct content_handlers t) as [row|]; [|reflexivity].
  destruct (row_build_handler row); [|reflexivity].
  destruct (negb _); [reflexivity|].
  destruct (what =? 0); reflexivity.
Qed.

Lemma ksba_cms_get_content_type_1 c :
  ksba_cms_get_content_type (Some c) 1 =
    match encap_cont_type c with
    | Some o =>
        match find_row_by_oid content_handlers o with
        | Some row => row_ct row
        | None => KSBA_CT_NONE
        end
    | None => KSBA_CT_NONE
    end.
Proof.
  unfold ksba_cms_get_content_type. cbn [Z.eqb].
  destruct (encap_cont_type c); [|reflexivity].
  apply content_type_of_oid_find.
Qed.

(** X3.  What [ksba_cms_set_content_type] stored is what the getters
    return: after a successful call for [what] (0 or 1) with type [t],
    [ksba_cms_get_content_type] for the same [what] is [t] and
    [ksba_cms_get_content_oid] is the OID of the table row of [t]; for
    [what = 0] the build handler of that row is installed, for
    [what = 1] the outer content is left as it was.  The memory is
    not touched. *)
Theorem ksba_cms_set_content_type_round_trip ext c what t w w' c' :
  0 <= what <= 1 ->
  ksba_cms_set_content_type ext (Some c) what t w
    = Returns KSBA_No_Error (w', Some c') ->
  w' = w
  /\ ksba_cms_get_content_type (Some c') what = t
  /\ exists row,
       find_row_by_ct content_handlers t = Some row
       /\ ksba_cms_get_content_oid (Some c') what = Some (row_oid row)
       /\ (what = 0 ->
           content_handler c' = row_build_handler row
           /\ is_Some (content_handler c')
           /\ encap_cont_type c' = encap_cont_type c)
       /\ (what = 1 ->
           content_oid c' = content_oid c /\ content_ct c' = content_ct c
           /\ content_handler c' = content_handler c).
Proof.
  intros Hwhat. rewrite ksba_cms_set_content_type_cases by exact Hwhat.
  destruct (find_row_by_ct content_handlers t) as [row|] eqn:Hrow;
    [|discriminate].
  destruct (find_row_by_ct_In _ _ _ Hrow) as [Hin Hct].
  destruct (row_build_handler row) as [h|] eqn:Hh; [|discriminate].
  destruct (negb _); [discriminate|].
  destruct (Z.eqb_spec what 0) as [->|Hne].
  - intros [= <- <-]. split; [reflexivity|]. split; [exact Hct|].
    exists row. split; [reflexivity|]. split; [reflexivity|].
    split; [|intros [=]]. intros _. simpl. rewrite Hh. eauto.
  - assert (what = 1) as -> by lia.
    intros [= <- <-]. split; [reflexivity|].
    rewrite ksba_cms_get_content_type_1. cbn [encap_cont_type set_encap_cont_type].
    rewrite (find_row_by_oid_content_handlers row Hin).
    split; [exact Hct|].
    exists row. split; [reflexivity|]. split; [reflexivity|].
    split; [intros [=]|]. intros _. repeat split.
Qed.

Lemma ksba_cms_set_content_type_round_trip_witness :
  exists c',
    ksba_cms_set_content_type demo_ext (Some zeroed_cms) 1
      KSBA_CT_ENVELOPED_DATA demo_world
      = Returns KSBA_No_Error (demo_world, Some c')
    /\ ksba_cms_get_content_type (Some c') 1 = KSBA_CT_ENVELOPED_DATA.
Proof.
  eexists. split; [vm_compute; reflexivity|].
  refine (proj1 (proj2 (ksba_cms_set_content_type_round_trip demo_ext
            zeroed_cms 1 KSBA_CT_ENVELOPED_DATA demo_world demo_world _
            _ eq_refl))). lia.
Defined.

(** X4.  [ksba_cms_set_content_type] fails without touching container
    or memory: a [what] other than 0 and 1 gives [KSBA_Invalid_Value],
    the type 0 gives [KSBA_Unknown_CMS_Object], the auth-data type,
    which has no build handler, gives [KSBA_Unsupported_CMS_Object];
    and whatever error it returns, the container is the one it was
    given. *)
Theorem ksba_cms_set_content_type_errors ext c w :
  (forall what t, what < 0 \/ 1 < what ->
     ksba_cms_set_content_type ext (Some c) what t w
     = Returns KSBA_Invalid_Value (w, Some c))
  /\ (forall what, 0 <= what <= 1 ->
     ksba_cms_set_content_type ext (Some c) what KSBA_CT_NONE w
     = Returns KSBA_Unknown_CMS_Object (w, Some c))
  /\ (forall what, 0 <= what <= 1 ->
     ksba_cms_set_content_type ext (Some c) what KSBA_CT_AUTH_DATA w
     = Returns KSBA_Unsupported_CMS_Object (w, Some c))
  /\ (forall what t e st,
     ksba_cms_set_content_type ext (Some c) what t w = Returns e st ->
     e <> KSBA_No_Error -> st = (w, Some c)).
Proof.
  split; [|split; [|split]].
  - intros what t Hwhat. unfold ksba_cms_set_content_type.
    destruct (Z.ltb_spec what 0), (Z.ltb_spec 1 what);
      try lia; cbn [orb]; rewrite ?orb_true_r; reflexivity.
  - intros what Hwhat. now rewrite ksba_cms_set_content_type_cases.
  - intros what Hwhat. now rewrite ksba_cms_set_content_type_cases.
  - intros what t e st.
    destruct (Z.ltb_spec what 0) as [Hlt|Hge].
    { unfold ksba_cms_set_content_type.
      destruct (Z.ltb_spec what 0); [|lia]. rewrite orb_true_r. cbn [orb].
      now intros [= <- <-]. }
    destruct (Z.ltb_spec 1 what) as [Hgt|Hle].
    { unfold ksba_cms_set_content_type.
      destruct (Z.ltb_spec 1 what); [|lia]. rewrite orb_true_r.
      now intros [= <- <-]. }
    rewrite ksba_cms_set_content_type_cases by lia.
    destruct (find_row_by_ct content_handlers t) as [row|];
      [|now intros [= <- <-]].
    destruct (row_build_handler row); [|now intros [= <- <-]].
    destruct (negb _); [now intros [= <- <-]|].
    destruct (what =? 0); intros [= <- _] He; contradiction.
Qed.

Lemma ksba_cms_set_content_type_errors_witness :
  ksba_cms_set_content_type demo_ext (Some zeroed_cms) 2 KSBA_CT_DATA
    demo_world
  = Returns KSBA_Invalid_Value (demo_world, Some zeroed_cms).
Proof.
  apply (proj1 (ksba_cms_set_content_type_errors demo_ext zeroed_cms
                  demo_world)).
  right. lia.
Defined.

(** X5.  [ksba_cms_get_content_type] answers 0 ([KSBA_CT_NONE]) for a
    [what] other than 0 and 1, for an inner type that was never set,
    and for an inner OID that is in no row of the table; for an inner
    OID of the table it answers the type of its row. *)
Theorem ksba_cms_get_content_type_inner c what :
  (what <> 0 -> what <> 1 ->
     ksba_cms_get_content_type (Some c) what = KSBA_CT_NONE)
  /\ (encap_cont_type c = None ->
     ksba_cms_get_content_type (Some c) 1 = KSBA_CT_NONE)
  /\ (forall o, encap_cont_type c = Some o ->
     (forall row, In row content_handlers -> row_oid row <> o) ->
     ksba_cms_get_content_type (Some c) 1 = KSBA_CT_NONE)
  /\ (forall row, In row content_handlers ->
     encap_cont_type c = Some (row_oid row) ->
     ksba_cms_get_content_type (Some c) 1 = row_ct row).
Proof.
  split; [|split; [|split]].
  - intros H0 H1. unfold ksba_cms_get_content_type.
    destruct (Z.eqb_spec what 0); [contradiction|].
    destruct (Z.eqb_spec what 1); [contradiction|reflexivity].
  - intros H. now rewrite ksba_cms_get_content_type_1, H.
  - intros o H Hno. rewrite ksba_cms_get_content_type_1, H.
    now rewrite find_row_by_oid_None.
  - intros row Hin H. rewrite ksba_cms_get_content_type_1, H.
    now rewrite find_row_by_oid_content_handlers.
Qed.

Lemma ksba_cms_get_content_type_inner_witness :
  ksba_cms_get_content_type
    (Some (set_encap_cont_type (Some "1.2.3.4") zeroed_cms)) 1
  = KSBA_CT_NONE.
Proof.
  apply (proj1 (proj2 (proj2 (ksba_cms_get_content_type_inner
           (set_encap_cont_type (Some "1.2.3.4") zeroed_cms) 1)))
           "1.2.3.4" eq_refl).
  unfold content_handlers. simpl.
  intros row [<-|[<-|[<-|[<-|[<-|[<-|[]]]]]]]; simpl; discriminate.
Defined.

(** ** The first build call *)

(** X6.  The first call of [ksba_cms_build] (stored stop reason still
    the initial one) returns [KSBA_Missing_Action] when the writer, the
    content handler or the inner content type is missing, and then
    leaves the container as it was, so that the call can be repeated
    once the missing part is supplied; with all three present it
    returns and stores [KSBA_SR_GOT_CONTENT] and does nothing else. *)
Theorem ksba_cms_build_first_call ext c r w :
  stop_reason c = KSBA_SR_NONE ->
  (writer c = None \/ content_handler c = None \/ encap_cont_type c = None ->
     ksba_cms_build ext (Some c) (Some r) w
     = Returns (KSBA_Missing_Action, Some KSBA_SR_RUNNING) (w, Some c))
  /\ (is_Some (writer c) -> is_Some (content_handler c) ->
      is_Some (encap_cont_type c) ->
     ksba_cms_build ext (Some c) (Some r) w
     = Returns (KSBA_No_Error, Some KSBA_SR_GOT_CONTENT)
         (w, Some (set_stop_reason KSBA_SR_GOT_CONTENT c))).
Proof.
  intros Hsr. unfold ksba_cms_build, with_cms, mbind, M_bind. simpl.
  rewrite Hsr. split.
  - intros [H|[H|H]]; rewrite H; simpl;
      destruct (writer c), (content_handler c); reflexivity.
  - intros [? ->] [? ->] [? ->]. reflexivity.
Qed.

Lemma ksba_cms_build_first_call_witness :
  ksba_cms_build demo_ext (Some zeroed_cms) (Some KSBA_SR_NONE) demo_world
  = Returns (KSBA_Missing_Action, Some KSBA_SR_RUNNING)
      (demo_world, Some zeroed_cms).
Proof.
  apply (proj1 (ksba_cms_build_first_call demo_ext zeroed_cms KSBA_SR_NONE
                  demo_world eq_refl)).
  left. reflexivity.
Defined.

(** ** The two lists of the container *)

Lemma oidlist_nth_lookup (l : list oidlist_s) idx :
  oidlist_nth l idx = if idx <? 0 then None else l !! Z.to_nat idx.
Proof.
  revert idx. induction l as [|o l IH]; intros idx; cbn [oidlist_nth].
  - destruct (idx <? 0); reflexivity.
  - destruct (Z.eqb_spec idx 0) as [->|Hne]; [reflexivity|].
    rewrite IH.
    destruct (Z.ltb_spec idx 0), (Z.ltb_spec (idx - 1) 0); try lia;
      try reflexivity.
    replace (Z.to_nat idx) with (S (Z.to_nat (idx - 1))) by lia.
    reflexivity.
Qed.

Lemma certlist_nth_lookup (l : list certlist_s) idx :
  certlist_nth l idx = if idx <? 0 then None else l !! Z.to_nat idx.
Proof.
  revert idx. induction l as [|o l IH]; intros idx; cbn [certlist_nth].
  - destruct (idx <? 0); reflexivity.
  - destruct (Z.eqb_spec idx 0) as [->|Hne]; [reflexivity|].
    rewrite IH.
    destruct (Z.ltb_spec idx 0), (Z.ltb_spec (idx - 1) 0); try lia;
      try reflexivity.
    replace (Z.to_nat idx) with (S (Z.to_nat (idx - 1))) by lia.
    reflexivity.
Qed.

Lemma certlist_update_alter f (l : list certlist_s) idx :
  certlist_update f l idx =
    if (0 <=? idx) && (idx <? Z.of_nat (length l))
    then Some (alter f (Z.to_nat idx) l) else None.
Proof.
  revert idx. induction l as [|o l IH]; intros idx; cbn [certlist_update].
  - cbn [length]. destruct (Z.leb_spec 0 idx), (Z.ltb_spec idx (Z.of_nat 0));
      try lia; reflexivity.
  - destruct (Z.eqb_spec idx 0) as [->|Hne].
    + cbn [length]. destruct (Z.ltb_spec 0 (Z.of_nat (S (length l))));
        [reflexivity|lia].
    + rewrite IH. cbn [length].
      destruct (Z.leb_spec 0 idx), (Z.leb_spec 0 (idx - 1)); try lia;
        cbn [andb]; [|reflexivity].
      destruct (Z.ltb_spec (idx - 1) (Z.of_nat (length l))),
               (Z.ltb_spec idx (Z.of_nat (S (length l)))); try lia;
        [|reflexivity].
      replace (Z.to_nat idx) with (S (Z.to_nat (idx - 1))) by lia.
      reflexivity.
Qed.

(** X7.  [ksba_cms_get_digest_algo_list] returns NULL for a negative
    index and for an index at or beyond the number of registered
    algorithms, and otherwise the OID of the record that far from the
    head of the list. *)
Theorem ksba_cms_get_digest_algo_list_range c idx :
  (idx < 0 \/ Z.of_nat (length (digest_algos c)) <= idx ->
     ksba_cms_get_digest_algo_list (Some c) idx = None)
  /\ (0 <= idx < Z.of_nat (length (digest_algos c)) ->
     exists ol, digest_algos c !! Z.to_nat idx = Some ol
       /\ ksba_cms_get_digest_algo_list (Some c) idx = oid ol).
Proof.
  unfold ksba_cms_get_digest_algo_list. rewrite oidlist_nth_lookup. split.
  - intros [H|H]; destruct (Z.ltb_spec idx 0); try lia; try reflexivity.
    rewrite (proj2 (lookup_ge_None _ _)) by lia. reflexivity.
  - intros H. destruct (Z.ltb_spec idx 0); [lia|].
    destruct (lookup_lt_is_Some_2 (digest_algos c) (Z.to_nat idx))
      as [ol Hol]; [lia|].
    exists ol. rewrite Hol. split; reflexivity.
Qed.

Lemma ksba_cms_get_digest_algo_list_range_witness :
  ksba_cms_get_digest_algo_list (Some demo_builder_cms) (-1) = None.
Proof.
  apply (proj1 (ksba_cms_get_digest_algo_list_range demo_builder_cms (-1))).
  left. lia.
Defined.

(** X8.  [ksba_cms_add_digest_algo] puts the new algorithm in front:
    after a successful call index 0 yields the OID just added and index
    [i + 1] yields what index [i] yielded before; a failing call leaves
    the container as it was.  The memory is never touched. *)
Theorem ksba_cms_add_digest_algo_in_front ext c o w e st :
  ksba_cms_add_digest_algo ext (Some c) (Some o) w = Returns e st ->
  (e <> KSBA_No_Error -> st = (w, Some c))
  /\ (e = KSBA_No_Error ->
      exists c', st = (w, Some c')
        /\ ksba_cms_get_digest_algo_list (Some c') 0 = Some o
        /\ (forall i, 0 <= i ->
              ksba_cms_get_digest_algo_list (Some c') (i + 1)
              = ksba_cms_get_digest_algo_list (Some c) i)
        /\ cert_list c' = cert_list c
        /\ stop_reason c' = stop_reason c).
Proof.
  unfold ksba_cms_add_digest_algo, with_cms, mbind, M_bind. simpl.
  destruct (xtrymalloc ext w 1); simpl.
  2: { intros [= <- <-]. split; [reflexivity|discriminate]. }
  destruct (xtrymalloc ext w _); simpl.
  2: { intros [= <- <-]. split; [reflexivity|discriminate]. }
  intros [= <- <-]. split; [intros H; contradiction|]. intros _.
  eexists. split; [reflexivity|]. split; [reflexivity|].
  split; [|split; reflexivity].
  intros i Hi. cbn [ksba_cms_get_digest_algo_list digest_algos
                    set_digest_algos oidlist_nth].
  destruct (Z.eqb_spec (i + 1) 0); [lia|].
  replace (i + 1 - 1) with i by lia. reflexivity.
Qed.

Lemma ksba_cms_add_digest_algo_in_front_witness :
  exists c',
    ksba_cms_add_digest_algo demo_ext (Some demo_builder_cms)
      (Some "2.16.840.1.101.3.4.2.1") demo_world
      = Returns KSBA_No_Error (demo_world, Some c')
    /\ ksba_cms_get_digest_algo_list (Some c') 0
       = Some "2.16.840.1.101.3.4.2.1"
    /\ ksba_cms_get_digest_algo_list (Some c') 1 = Some "1.3.14.3.2.26".
Proof.
  destruct (ksba_cms_add_digest_algo demo_ext (Some demo_builder_cms)
              (Some "2.16.840.1.101.3.4.2.1") demo_world)
    as [e st|fl] eqn:Hrun; [|vm_compute in Hrun; discriminate Hrun].
  assert (He : e = KSBA_No_Error)
    by (vm_compute in Hrun; now injection Hrun as <- _).
  destruct (proj2 (ksba_cms_add_digest_algo_in_front demo_ext
                     demo_builder_cms _ demo_world e st Hrun) He)
    as (c' & -> & H0 & Hshift & _).
  subst e. exists c'. split; [reflexivity|]. split; [exact H0|].
  exact (eq_trans (Hshift 0 (Z.le_refl 0)) eq_refl).
Defined.

(** X9.  [ksba_cms_add_signer] puts the new signer in front: after a
    successful call the record at the head carries the certificate
    given, no message digest (length 0, a zeroed buffer of the full
    size) and no attributes, and the records that were there follow
    unchanged; a failing call leaves the container as it was. *)
Theorem ksba_cms_add_signer_in_front ext c k w e st :
  ksba_cms_add_signer ext (Some c) k w = Returns e st ->
  (e <> KSBA_No_Error -> st = (w, Some c))
  /\ (e = KSBA_No_Error ->
      exists c' cl,
        st = (w, Some c')
        /\ cert_list c' = cl :: cert_list c
        /\ cert cl = k /\ msg_digest_len cl = 0
        /\ msg_digest cl = replicate (Z.to_nat (msg_digest_size ext)) x00
        /\ attr_root cl = None /\ attr_image cl = None
        /\ digest_algos c' = digest_algos c
        /\ stop_reason c' = stop_reason c).
Proof.
  unfold ksba_cms_add_signer, with_cms, mbind, M_bind. simpl.
  destruct (xtrymalloc ext w 1); simpl.
  2: { intros [= <- <-]. split; [reflexivity|discriminate]. }
  intros [= <- <-]. split; [intros H; contradiction|]. intros _.
  eexists _, _. split; [reflexivity|]. repeat split.
Qed.

Lemma ksba_cms_add_signer_in_front_witness :
  exists c',
    ksba_cms_add_signer demo_ext (Some demo_one_signer_cms) None demo_world
      = Returns KSBA_No_Error (demo_world, Some c')
    /\ map cert (cert_list c') = [None; Some demo_cert].
Proof.
  destruct (ksba_cms_add_signer demo_ext (Some demo_one_signer_cms) None
              demo_world) as [e st|fl] eqn:Hrun;
    [|vm_compute in Hrun; discriminate Hrun].
  assert (He : e = KSBA_No_Error)
    by (vm_compute in Hrun; now injection Hrun as <- _).
  destruct (proj2 (ksba_cms_add_signer_in_front demo_ext
                     demo_one_signer_cms None demo_world e st Hrun) He)
    as (c' & cl & -> & Hl & Hk & _).
  subst e. exists c'. split; [reflexivity|].
  rewrite Hl. cbn [map]. rewrite Hk. reflexivity.
Defined.

(** X10.  [ksba_cms_get_cert] hands a certificate out once: the call
    returns the certificate of the record at [idx] (NULL for a negative
    index or one beyond the list, and then nothing changes), a second
    call with the same index returns NULL, calls with other indices
    return what they would have returned before, and the signer records
    keep their number, their digests and their attributes. *)
Theorem ksba_cms_get_cert_once c idx :
  exists c1,
    snd (ksba_cms_get_cert (Some c) idx) = Some c1
    /\ fst (ksba_cms_get_cert (Some c1) idx) = None
    /\ (forall j, j <> idx ->
          fst (ksba_cms_get_cert (Some c1) j)
          = fst (ksba_cms_get_cert (Some c) j))
    /\ map (fun cl => (msg_digest cl, msg_digest_len cl,
                       attr_root cl, attr_image cl)) (cert_list c1)
       = map (fun cl => (msg_digest cl, msg_digest_len cl,
                         attr_root cl, attr_image cl)) (cert_list c)
    /\ (idx < 0 \/ Z.of_nat (length (cert_list c)) <= idx ->
          ksba_cms_get_cert (Some c) idx = (None, Some c))
    /\ (forall cl, 0 <= idx -> cert_list c !! Z.to_nat idx = Some cl ->
          fst (ksba_cms_get_cert (Some c) idx) = cert cl).
Proof.
  assert (Hget : forall c0 j,
    fst (ksba_cms_get_cert (Some c0) j) =
      if j <? 0 then None
      else match cert_list c0 !! Z.to_nat j with
           | Some cl => cert cl
           | None => None
           end).
  { intros c0 j. unfold ksba_cms_get_cert.
    destruct (Z.ltb_spec j 0); [reflexivity|].
    rewrite certlist_nth_lookup. destruct (Z.ltb_spec j 0); [lia|].
    destruct (cert_list c0 !! Z.to_nat j); [|reflexivity].
    destruct (certlist_update _ _ _); reflexivity. }
  destruct (Z.ltb_spec idx 0) as [Hneg|Hpos].
  { assert (Hsame : ksba_cms_get_cert (Some c) idx = (None, Some c)).
    { unfold ksba_cms_get_cert. destruct (Z.ltb_spec idx 0); [|lia].
      reflexivity. }
    exists c. rewrite Hsame.
    repeat split; try reflexivity; intros; try reflexivity; lia. }
  destruct (cert_list c !! Z.to_nat idx) as [cl|] eqn:Hcl.
  - assert (Hlt : (Z.to_nat idx < length (cert_list c))%nat)
      by (apply lookup_lt_is_Some_1; eauto).
    assert (Hrun : ksba_cms_get_cert (Some c) idx =
              (cert cl,
               Some (set_cert_list
                       (alter (set_cert None) (Z.to_nat idx) (cert_list c))
                       c))).
    { unfold ksba_cms_get_cert. destruct (Z.ltb_spec idx 0); [lia|].
      rewrite certlist_nth_lookup, certlist_update_alter.
      destruct (Z.ltb_spec idx 0); [lia|]. rewrite Hcl.
      destruct (Z.leb_spec 0 idx); [|lia].
      destruct (Z.ltb_spec idx (Z.of_nat (length (cert_list c)))); [|lia].
      reflexivity. }
    eexists. rewrite Hrun. split; [reflexivity|]. split; [|split; [|split]].
    + rewrite Hget. destruct (Z.ltb_spec idx 0); [lia|].
      cbn [cert_list set_cert_list].
      rewrite list_lookup_alter_eq, Hcl. reflexivity.
    + intros j Hj. rewrite !Hget. destruct (Z.ltb_spec j 0); [reflexivity|].
      cbn [cert_list set_cert_list].
      rewrite list_lookup_alter_ne by lia. reflexivity.
    + cbn [cert_list set_cert_list].
      apply list_eq. intros i. rewrite !list_lookup_fmap.
      destruct (decide (i = Z.to_nat idx)) as [->|Hi].
      * rewrite list_lookup_alter_eq, Hcl. reflexivity.
      * rewrite list_lookup_alter_ne by congruence. reflexivity.
    + split; [intros [H|H]; lia|].
      intros cl' _ [= <-]. reflexivity.
  - assert (Hge : (length (cert_list c) <= Z.to_nat idx)%nat)
      by (now apply lookup_ge_None).
    assert (Hsame : ksba_cms_get_cert (Some c) idx = (None, Some c)).
    { unfold ksba_cms_get_cert. destruct (Z.ltb_spec idx 0); [lia|].
      rewrite certlist_nth_lookup. destruct (Z.ltb_spec idx 0); [lia|].
      rewrite Hcl. reflexivity. }
    exists c. rewrite Hsame.
    repeat split; try reflexivity; intros; try reflexivity; congruence.
Qed.

Lemma ksba_cms_get_cert_once_witness :
  fst (ksba_cms_get_cert (Some demo_one_signer_cms) 0) = Some demo_cert.
Proof.
  destruct (ksba_cms_get_cert_once demo_one_signer_cms 0)
    as (c1 & _ & _ & _ & _ & _ & Hcert).
  exact (Hcert _ (Z.le_refl 0) eq_refl).
Defined.

(** ** Message digests of the signers *)

Lemma ksba_cms_set_message_digest_cases ext c idx d n w :
  ksba_cms_set_message_digest ext (Some c) idx (Some d) n w =
    if (n =? 0) || (msg_digest_size ext <? n)
    then Returns KSBA_Invalid_Value (w, Some c)
    else if (idx <? 0) || (Z.of_nat (length (cert_list c)) <=? idx)
    then Returns KSBA_Invalid_Index (w, Some c)
    else
      match mem_read d 0 n with
      | None => Stuck InvalidAccess
      | Some bytes =>
          Returns KSBA_No_Error
            (w, Some (set_cert_list
                        (alter (set_msg_digest bytes n) (Z.to_nat idx)
                           (cert_list c)) c))
      end.
Proof.
  unfold ksba_cms_set_message_digest, with_cms, mbind, M_bind. simpl.
  destruct ((n =? 0) || (msg_digest_size ext <? n)); [reflexivity|].
  destruct (Z.ltb_spec idx 0) as [Hneg|Hpos]; [reflexivity|]. cbn [orb].
  destruct (mem_read d 0 n) as [bytes|].
  - rewrite certlist_update_alter. cbn [st_cms].
    destruct (Z.leb_spec 0 idx); [|lia]. cbn [andb].
    destruct (Z.leb_spec (Z.of_nat (length (cert_list c))) idx),
             (Z.ltb_spec idx (Z.of_nat (length (cert_list c))));
      try lia; reflexivity.
  - rewrite certlist_nth_lookup. cbn [st_cms].
    destruct (Z.ltb_spec idx 0); [lia|].
    destruct (Z.leb_spec (Z.of_nat (length (cert_list c))) idx) as [Hge|Hlt].
    + rewrite (proj2 (lookup_ge_None _ _)) by lia. reflexivity.
    + destruct (lookup_lt_is_Some_2 (cert_list c) (Z.to_nat idx))
        as [cl Hcl]; [lia|].
      rewrite Hcl. reflexivity.
Qed.

(** X11.  [ksba_cms_set_message_digest] stores nothing when it fails: a
    NULL digest, a length of 0 or one above the size of the digest
    buffer give [KSBA_Invalid_Value]; with an admissible length, a
    negative index or one at or beyond the number of signers gives
    [KSBA_Invalid_Index]; and whatever the error, the container is the
    one the call was given. *)
Theorem ksba_cms_set_message_digest_errors ext c w :
  (forall idx n,
     ksba_cms_set_message_digest ext (Some c) idx None n w
     = Returns KSBA_Invalid_Value (w, Some c))
  /\ (forall idx d n, n = 0 \/ msg_digest_size ext < n ->
     ksba_cms_set_message_digest ext (Some c) idx (Some d) n w
     = Returns KSBA_Invalid_Value (w, Some c))
  /\ (forall idx d n, 0 < n <= msg_digest_size ext ->
     idx < 0 \/ Z.of_nat (length (cert_list c)) <= idx ->
     ksba_cms_set_message_digest ext (Some c) idx (Some d) n w
     = Returns KSBA_Invalid_Index (w, Some c))
  /\ (forall idx d n e st,
     ksba_cms_set_message_digest ext (Some c) idx d n w = Returns e st ->
     e <> KSBA_No_Error -> st = (w, Some c)).
Proof.
  split; [|split; [|split]].
  - reflexivity.
  - intros idx d n Hn. rewrite ksba_cms_set_message_digest_cases.
    destruct (Z.eqb_spec n 0), (Z.ltb_spec (msg_digest_size ext) n);
      try reflexivity; lia.
  - intros idx d n Hn Hidx. rewrite ksba_cms_set_message_digest_cases.
    destruct (Z.eqb_spec n 0), (Z.ltb_spec (msg_digest_size ext) n);
      try lia. cbn [orb].
    destruct (Z.ltb_spec idx 0),
             (Z.leb_spec (Z.of_nat (length (cert_list c))) idx);
      try reflexivity; lia.
  - intros idx [d|] n e st; [|now intros [= <- <-]].
    rewrite ksba_cms_set_message_digest_cases.
    destruct (_ || _); [now intros [= <- <-]|].
    destruct (_ || _); [now intros [= <- <-]|].
    destruct (mem_read d 0 n); [|discriminate].
    intros [= <- _] He. contradiction.
Qed.

Lemma ksba_cms_set_message_digest_errors_witness :
  ksba_cms_set_message_digest demo_ext (Some demo_one_signer_cms) 1
    (Some [xde; xad; xbe; xef]) 4 demo_world
  = Returns KSBA_Invalid_Index (demo_world, Some demo_one_signer_cms).
Proof.
  apply (proj1 (proj2 (proj2 (ksba_cms_set_message_digest_errors demo_ext
                                demo_one_signer_cms demo_world)))).
  - vm_compute. split; [reflexivity|discriminate].
  - right. vm_compute. discriminate.
Defined.

(** X12.  With a digest of [n] bytes, [n] positive and within the size
    of the digest buffer, and an index [idx] within the signer list (0
    being the head, the signer added last),
    [ksba_cms_set_message_digest] succeeds and changes the record at
    [idx] only: its digest length becomes [n], the first [n] bytes of
    its buffer become the digest, the rest of the buffer, the
    certificate and the attributes stay; a buffer of at least [n] bytes
    keeps its length. *)
Theorem ksba_cms_set_message_digest_stores ext c idx d n w cl :
  0 < n <= msg_digest_size ext ->
  n <= Z.of_nat (length d) ->
  0 <= idx ->
  cert_list c !! Z.to_nat idx = Some cl ->
  exists c' cl',
    ksba_cms_set_message_digest ext (Some c) idx (Some d) n w
      = Returns KSBA_No_Error (w, Some c')
    /\ cert_list c' !! Z.to_nat idx = Some cl'
    /\ msg_digest_len cl' = n
    /\ take (Z.to_nat n) (msg_digest cl') = take (Z.to_nat n) d
    /\ drop (Z.to_nat n) (msg_digest cl') = drop (Z.to_nat n) (msg_digest cl)
    /\ (n <= Z.of_nat (length (msg_digest cl)) ->
        length (msg_digest cl') = length (msg_digest cl))
    /\ cert cl' = cert cl /\ attr_root cl' = attr_root cl
    /\ attr_image cl' = attr_image cl
    /\ (forall j, j <> Z.to_nat idx -> cert_list c' !! j = cert_list c !! j)
    /\ c' = set_cert_list (cert_list c') c.
Proof.
  intros Hn Hd Hidx Hcl.
  assert (Hlt : (Z.to_nat idx < length (cert_list c))%nat)
    by (apply lookup_lt_is_Some_1; eauto).
  rewrite ksba_cms_set_message_digest_cases.
  destruct (Z.eqb_spec n 0); [lia|].
  destruct (Z.ltb_spec (msg_digest_size ext) n); [lia|]. cbn [orb].
  destruct (Z.ltb_spec idx 0); [lia|].
  destruct (Z.leb_spec (Z.of_nat (length (cert_list c))) idx); [lia|].
  cbn [orb].
  destruct (mem_read_in_bounds d 0 n) as [Hread Hlen]; try lia.
  rewrite Hread. change (Z.to_nat 0) with O. rewrite drop_0.
  change (Z.to_nat 0) with O in Hlen. rewrite drop_0 in Hlen.
  assert (Hlen' : length (take (Z.to_nat n) d) = Z.to_nat n) by lia.
  eexists _, _. split; [reflexivity|]. cbn [cert_list set_cert_list].
  split; [rewrite list_lookup_alter_eq, Hcl; reflexivity|].
  cbn [msg_digest_len msg_digest cert attr_root attr_image set_msg_digest].
  rewrite Hlen'.
  split; [reflexivity|]. split; [|split; [|split]].
  - rewrite take_app_length'; [reflexivity|now symmetry].
  - rewrite drop_app_length'; [reflexivity|now symmetry].
  - intros Hbuf. rewrite length_app, length_drop, Hlen'. lia.
  - repeat split.
    intros j Hj. now rewrite list_lookup_alter_ne.
Qed.

Lemma ksba_cms_set_message_digest_stores_witness :
  exists c',
    ksba_cms_set_message_digest demo_ext (Some demo_one_signer_cms) 0
      (Some [xde; xad; xbe; xef]) 4 demo_world
      = Returns KSBA_No_Error (demo_world, Some c')
    /\ map msg_digest_len (cert_list c') = [4].
Proof.
  assert (H1 : 0 < 4 <= msg_digest_size demo_ext)
    by (vm_compute; split; [reflexivity|discriminate]).
  assert (H2 : 4 <= Z.of_nat (length [xde; xad; xbe; xef]))
    by (vm_compute; discriminate).
  destruct (ksba_cms_set_message_digest_stores demo_ext demo_one_signer_cms
              0 [xde; xad; xbe; xef] 4 demo_world
              (set_cert (Some demo_cert) (zeroed_certlist demo_ext))
              H1 H2 (Z.le_refl 0) eq_refl)
    as (c' & cl' & Hrun & _).
  exists c'. split; [exact Hrun|].
  vm_compute in Hrun. injection Hrun as <-. reflexivity.
Defined.

(** ** What the engine entry points report *)

Lemma ct_parse_signed_data_success ext s s' :
  ct_parse_signed_data ext s = Returns KSBA_No_Error s' ->
  match stop_reason (st_cms s) with
  | KSBA_SR_GOT_CONTENT =>
      stop_reason (st_cms s') = KSBA_SR_NEED_HASH
      \/ stop_reason (st_cms s') = KSBA_SR_BEGIN_DATA
  | KSBA_SR_BEGIN_DATA => stop_reason (st_cms s') = KSBA_SR_END_DATA
  | KSBA_SR_NEED_HASH | KSBA_SR_END_DATA =>
      stop_reason (st_cms s') = KSBA_SR_READY
  | _ => False
  end.
Proof.
  destruct s as [w c]. unfold ct_parse_signed_data, mbind, M_bind, lift_state.
  simpl. destruct (stop_reason c) eqn:Hsr; simpl; try discriminate.
  - destruct (_ksba_cms_parse_signed_data_part_1 ext _) as [err s1].
    destruct err; simpl; try discriminate.
    intros [= <-]. simpl. destruct (_ && _); auto.
  - destruct (_ksba_cms_parse_signed_data_part_2 ext _) as [err s1].
    destruct err; simpl; try discriminate.
    intros [= <-]. reflexivity.
  - destruct (hash_fnc c); simpl; try discriminate.
    intros [= <-]. reflexivity.
  - destruct (_ksba_cms_parse_signed_data_part_2 ext _) as [err s1].
    destruct err; simpl; try discriminate.
    intros [= <-]. reflexivity.
Qed.

(** The tail of [ct_build_signed_data] after the action. *)
Lemma build_action_success (action : M KsbaError)
    (next : KsbaCMS -> KsbaStopReason) s0 s' :
  (action ≫= fun err : KsbaError =>
     if is_error err then mret err
     else c ← get_cms;
          modify_cms (set_stop_reason (next c));; mret KSBA_No_Error) s0
    = Returns KSBA_No_Error s' ->
  exists s1, action s0 = Returns KSBA_No_Error s1
    /\ s' = {| st_world := st_world s1;
               st_cms := set_stop_reason (next (st_cms s1)) (st_cms s1) |}.
Proof.
  unfold mbind, M_bind.
  destruct (action s0) as [err s1|fl]; [|discriminate].
  destruct err; simpl; try discriminate.
  intros [= <-]. eauto.
Qed.

Lemma ct_build_signed_data_success ext s s' :
  ct_build_signed_data ext s = Returns KSBA_No_Error s' ->
  match stop_reason (st_cms s) with
  | KSBA_SR_GOT_CONTENT =>
      stop_reason (st_cms s') = KSBA_SR_END_DATA
      \/ stop_reason (st_cms s') = KSBA_SR_BEGIN_DATA
  | KSBA_SR_BEGIN_DATA | KSBA_SR_END_DATA =>
      stop_reason (st_cms s') = KSBA_SR_NEED_SIG
  | KSBA_SR_NEED_SIG => stop_reason (st_cms s') = KSBA_SR_READY
  | _ => False
  end.
Proof.
  destruct s as [w c]. unfold ct_build_signed_data.
  unfold mbind at 1 2, M_bind at 1 2. simpl.
  destruct (stop_reason c); simpl; try discriminate; intros Hrun;
    apply build_action_success in Hrun; destruct Hrun as (s1 & _ & ->);
    simpl; try reflexivity.
  destruct (detached_signature (st_cms s1)); auto.
Qed.

Lemma call_handler_success ext h s s' :
  call_handler ext h s = Returns KSBA_No_Error s' ->
  reportable (stop_reason (st_cms s')) = true.
Proof.
  destruct h; simpl; try discriminate.
  - intros H. apply ct_parse_signed_data_success in H.
    destruct (stop_reason (st_cms s)); try contradiction;
      try destruct H as [H|H]; rewrite H; reflexivity.
  - intros H. apply ct_build_signed_data_success in H.
    destruct (stop_reason (st_cms s)); try contradiction;
      try destruct H as [H|H]; rewrite H; reflexivity.
Qed.

Lemma engine_entry_reports ext (parse : bool) c r0 w e r st :
  (if parse then ksba_cms_parse ext (Some c) (Some r0) w
   else ksba_cms_build ext (Some c) (Some r0) w) = Returns (e, r) st ->
  (e <> KSBA_No_Error -> r = Some KSBA_SR_RUNNING)
  /\ (e = KSBA_No_Error ->
      exists w' c', st = (w', Some c') /\ r = Some (stop_reason c')
        /\ reportable (stop_reason c') = true).
Proof.
  destruct (decide (stop_reason c = KSBA_SR_NONE)) as [Hsr|Hsr].
  - destruct parse.
    + unfold ksba_cms_parse, with_cms, mbind, M_bind, lift_state. simpl.
      rewrite Hsr.
      destruct (_ksba_cms_parse_content_info ext _) as [err s1].
      destruct (is_error err) eqn:Herr.
      { intros [= <- <- <-]. split; [reflexivity|]. intros ->. discriminate. }
      simpl. destruct (content_oid (st_cms s1)); [|discriminate].
      destruct (find_row_by_oid content_handlers _) as [row|].
      2: { intros [= <- <- <-]. split; [reflexivity|discriminate]. }
      destruct (row_parse_handler row).
      2: { intros [= <- <- <-]. split; [reflexivity|discriminate]. }
      intros [= <- <- <-]. split; [congruence|]. intros _.
      eexists _, _. repeat split.
    + unfold ksba_cms_build, with_cms, mbind, M_bind. simpl. rewrite Hsr.
      destruct (negb _).
      { intros [= <- <- <-]. split; [reflexivity|discriminate]. }
      destruct (negb _).
      { intros [= <- <- <-]. split; [reflexivity|discriminate]. }
      destruct (negb _).
      { intros [= <- <- <-]. split; [reflexivity|discriminate]. }
      intros [= <- <- <-]. split; [congruence|]. intros _.
      eexists _, _. repeat split.
  - destruct (content_handler c) as [h|] eqn:Hh.
    + assert (Hcall :
        (if parse then ksba_cms_parse ext (Some c) (Some r0) w
         else ksba_cms_build ext (Some c) (Some r0) w) =
        match call_handler ext h {| st_world := w; st_cms := c |} with
        | Returns err s =>
            if is_error err
            then Returns (err, Some KSBA_SR_RUNNING)
                   (st_world s, Some (st_cms s))
            else Returns (KSBA_No_Error, Some (stop_reason (st_cms s)))
                   (st_world s, Some (st_cms s))
        | Stuck f => Stuck f
        end).
      { destruct parse;
          [now apply ksba_cms_parse_resumes|now apply ksba_cms_build_resumes]. }
      rewrite Hcall.
      destruct (call_handler ext h _) as [err s1|fl] eqn:Hrun; [|discriminate].
      destruct (is_error err) eqn:Herr.
      { intros [= <- <- <-]. split; [reflexivity|]. intros ->. discriminate. }
      destruct err; try discriminate Herr.
      intros [= <- <- <-]. split; [congruence|]. intros _.
      eexists _, _. split; [reflexivity|]. split; [reflexivity|].
      now apply call_handler_success in Hrun.
    + destruct parse.
      * unfold ksba_cms_parse, with_cms, mbind, M_bind. simpl. rewrite Hh.
        destruct (stop_reason c); try congruence;
          intros [= <- <- <-]; (split; [reflexivity|discriminate]).
      * unfold ksba_cms_build, with_cms, mbind, M_bind. simpl. rewrite Hh.
        destruct (stop_reason c); try congruence;
          intros [= <- <- <-]; (split; [reflexivity|discriminate]).
Qed.

(** X13.  What [ksba_cms_parse] and [ksba_cms_build] write into the
    caller's stop-reason cell: when the call fails the cell reads
    [KSBA_SR_RUNNING]; when it succeeds the cell reads the stop reason
    now stored in the container, which is one of [GOT_CONTENT],
    [NEED_HASH], [BEGIN_DATA], [END_DATA], [NEED_SIG] and [READY], never
    [RUNNING].  With a NULL container or a NULL cell the call returns
    [KSBA_Invalid_Value] and writes nothing. *)
Theorem engine_stop_reason_report ext c r0 w :
  (forall e r st,
     ksba_cms_parse ext (Some c) (Some r0) w = Returns (e, r) st
     \/ ksba_cms_build ext (Some c) (Some r0) w = Returns (e, r) st ->
     (e <> KSBA_No_Error -> r = Some KSBA_SR_RUNNING)
     /\ (e = KSBA_No_Error ->
         exists w' c', st = (w', Some c') /\ r = Some (stop_reason c')
           /\ reportable (stop_reason c') = true))
  /\ ksba_cms_parse ext None (Some r0) w
     = Returns (KSBA_Invalid_Value, Some r0) (w, None)
  /\ ksba_cms_build ext None (Some r0) w
     = Returns (KSBA_Invalid_Value, Some r0) (w, None)
  /\ ksba_cms_parse ext (Some c) None w
     = Returns (KSBA_Invalid_Value, None) (w, Some c)
  /\ ksba_cms_build ext (Some c) None w
     = Returns (KSBA_Invalid_Value, None) (w, Some c).
Proof.
  split; [|repeat split].
  intros e r st [H|H].
  - exact (engine_entry_reports ext true c r0 w e r st H).
  - exact (engine_entry_reports ext false c r0 w e r st H).
Qed.

Lemma engine_stop_reason_report_witness :
  exists sr st,
    ksba_cms_build demo_ext (Some demo_two_signers_cms) (Some KSBA_SR_NONE)
      demo_world = Returns (KSBA_No_Error, Some sr) st
    /\ reportable sr = true.
Proof.
  destruct (ksba_cms_build demo_ext (Some demo_two_signers_cms)
              (Some KSBA_SR_NONE) demo_world) as [[e r] st|fl] eqn:Hrun;
    [|vm_compute in Hrun; discriminate Hrun].
  assert (He : e = KSBA_No_Error)
    by (vm_compute in Hrun; now injection Hrun as <- _).
  destruct (proj2 (proj1 (engine_stop_reason_report demo_ext
                            demo_two_signers_cms KSBA_SR_NONE demo_world)
                     e r st (or_intror Hrun)) He)
    as (w' & c' & -> & -> & Hrep).
  subst e. exists (stop_reason c'), (w', Some c').
  split; [reflexivity|exact Hrep].
Defined.

(** X14.  The handlers of data, enveloped-data, digested-data and
    encrypted-data are stubs: once one of them is installed and the
    container is past its initial state, every call of
    [ksba_cms_parse] or [ksba_cms_build] returns
    [KSBA_Not_Implemented] and changes nothing (the stored stop reason
    is not even set to [KSBA_SR_RUNNING]). *)
Theorem stub_handlers_not_implemented ext ks c w h :
  stop_reason c <> KSBA_SR_NONE ->
  content_handler c = Some h ->
  stub_handler h ->
  run_engine_calls ext ks c w
  = Some (map (fun _ => KSBA_Not_Implemented) ks, w, c).
Proof.
  intros Hsr Hh [Hp Hb]. induction ks as [|k ks IH]; [reflexivity|].
  cbn [run_engine_calls map].
  rewrite (run_engine_call_resumes ext k c w h Hsr Hh).
  destruct h; try contradiction; simpl; rewrite IH; reflexivity.
Qed.

Lemma stub_handlers_not_implemented_witness :
  let c := cms_after (ksba_cms_parse demo_ext
             (Some (set_reader_writer
                      (Some (String.list_byte_of_string
                               "1.2.840.113549.1.7.3")) None zeroed_cms))
             (Some KSBA_SR_NONE) demo_world) in
  stop_reason c = KSBA_SR_GOT_CONTENT
  /\ run_engine_calls demo_ext [call_parse; call_parse] c demo_world
     = Some ([KSBA_Not_Implemented; KSBA_Not_Implemented], demo_world, c).
Proof.
  intros c. split; [reflexivity|].
  refine (stub_handlers_not_implemented demo_ext [call_parse; call_parse] c
            demo_world fn_ct_parse_enveloped_data _ eq_refl _).
  - discriminate.
  - split; discriminate.
Defined.

(** X15.  A successful call of [ksba_cms_build] with the signed-data
    build handler installed reports: after [KSBA_SR_GOT_CONTENT],
    [KSBA_SR_END_DATA] or [KSBA_SR_BEGIN_DATA]; after
    [KSBA_SR_BEGIN_DATA] or [KSBA_SR_END_DATA], [KSBA_SR_NEED_SIG];
    after [KSBA_SR_NEED_SIG], [KSBA_SR_READY].  After any other stored
    stop reason but the initial one the call does not succeed; in
    particular a finished build ([KSBA_SR_READY]) cannot be
    continued. *)
Theorem ksba_cms_build_signed_data_order ext c r0 w r st :
  content_handler c = Some fn_ct_build_signed_data ->
  stop_reason c <> KSBA_SR_NONE ->
  ksba_cms_build ext (Some c) (Some r0) w = Returns (KSBA_No_Error, r) st ->
  match stop_reason c with
  | KSBA_SR_GOT_CONTENT =>
      r = Some KSBA_SR_END_DATA \/ r = Some KSBA_SR_BEGIN_DATA
  | KSBA_SR_BEGIN_DATA | KSBA_SR_END_DATA => r = Some KSBA_SR_NEED_SIG
  | KSBA_SR_NEED_SIG => r = Some KSBA_SR_READY
  | _ => False
  end.
Proof.
  intros Hh Hsr. rewrite (ksba_cms_build_resumes ext c r0 w _ Hsr Hh).
  cbn [call_handler].
  destruct (ct_build_signed_data ext _) as [err s1|fl] eqn:Hrun;
    [|discriminate].
  destruct err; cbn [is_error]; try discriminate.
  intros [= <- _]. apply ct_build_signed_data_success in Hrun.
  cbn [st_cms] in Hrun.
  destruct (stop_reason c); try contradiction;
    first [ destruct Hrun as [H|H]; rewrite H; auto; fail
          | rewrite Hrun; reflexivity ].
Qed.

Lemma ksba_cms_build_signed_data_order_witness :
  exists st,
    ksba_cms_build demo_ext (Some demo_two_signers_cms) (Some KSBA_SR_NONE)
      demo_world = Returns (KSBA_No_Error, Some KSBA_SR_BEGIN_DATA) st
    /\ stop_reason demo_two_signers_cms = KSBA_SR_GOT_CONTENT.
Proof.
  destruct (ksba_cms_build demo_ext (Some demo_two_signers_cms)
              (Some KSBA_SR_NONE) demo_world) as [[e r] st|fl] eqn:Hrun;
    [|vm_compute in Hrun; discriminate Hrun].
  assert (He : e = KSBA_No_Error)
    by (vm_compute in Hrun; now injection Hrun as <- _).
  subst e.
  assert (Hh : content_handler demo_two_signers_cms
               = Some fn_ct_build_signed_data) by reflexivity.
  assert (Hsr : stop_reason demo_two_signers_cms <> KSBA_SR_NONE)
    by discriminate.
  pose proof (ksba_cms_build_signed_data_order demo_ext demo_two_signers_cms
                KSBA_SR_NONE demo_world r st Hh Hsr Hrun) as Horder.
  exists st. split; [|reflexivity].
  vm_compute in Hrun. injection Hrun as <- <-. reflexivity.
Defined.

(** X16.  A parse call at [KSBA_SR_BEGIN_DATA] without a registered
    hash function returns [KSBA_Missing_Action] and leaves the stored
    stop reason at [KSBA_SR_RUNNING]; registering the hash function
    afterwards does not help, the next parse call returns
    [KSBA_Invalid_State]. *)
Theorem parse_begin_data_without_hash_function ext c r0 w :
  stop_reason c = KSBA_SR_BEGIN_DATA ->
  content_handler c = Some fn_ct_parse_signed_data ->
  hash_fnc c = None ->
  let c1 := set_stop_reason KSBA_SR_RUNNING c in
  ksba_cms_parse ext (Some c) (Some r0) w
    = Returns (KSBA_Missing_Action, Some KSBA_SR_RUNNING) (w, Some c1)
  /\ forall f arg,
       ksba_cms_parse ext (ksba_cms_set_hash_function (Some c1) (Some f) arg)
         (Some r0) w
       = Returns (KSBA_Invalid_State, Some KSBA_SR_RUNNING)
           (w, ksba_cms_set_hash_function (Some c1) (Some f) arg).
Proof.
  intros Hsr Hh Hf c1. split.
  - rewrite (ksba_cms_parse_resumes ext c r0 w fn_ct_parse_signed_data)
      by (try rewrite Hsr; easy).
    cbn [call_handler].
    unfold ct_parse_signed_data, mbind, M_bind. simpl.
    rewrite Hsr, Hf. reflexivity.
  - intros f arg. cbn [ksba_cms_set_hash_function].
    rewrite ksba_cms_parse_rejects; try easy.
Qed.

Lemma parse_begin_data_without_hash_function_witness :
  let c := set_stop_reason KSBA_SR_BEGIN_DATA
             (set_hash_fnc None None demo_parsed_cms) in
  ksba_cms_parse demo_ext (Some c) (Some KSBA_SR_NONE) demo_world
  = Returns (KSBA_Missing_Action, Some KSBA_SR_RUNNING)
      (demo_world, Some (set_stop_reason KSBA_SR_RUNNING c)).
Proof.
  intros c.
  exact (proj1 (parse_begin_data_without_hash_function demo_ext c
                  KSBA_SR_NONE demo_world eq_refl eq_refl eq_refl)).
Defined.

(** ** Accessors: errors and what is left untouched *)

Lemma with_cms_read_only {A} c w (d : A) body a w' c' :
  preserves (fun c0 : KsbaCMS => c0) body ->
  with_cms (Some c) w d body = Returns a (w', c') ->
  c' = Some c.
Proof.
  intros Hbody. unfold with_cms.
  destruct (body _) as [a0 s|fl] eqn:Hrun; [|discriminate].
  intros [= _ _ <-]. f_equal. exact (Hbody _ _ _ Hrun).
Qed.

Lemma preserves_call_hash_fnc {X} (f : KsbaCMS -> X) fn arg data :
  preserves f (call_hash_fnc fn arg data).
Proof. unfold call_hash_fnc. frame. Qed.

(** X17.  [ksba_cms_hash_signed_attrs] without a registered hash
    function returns [KSBA_Missing_Action]; with one and an index
    other than 0 it returns -1; and whenever it returns an error, the
    hash function has not been called and container and memory are as
    before. *)
Theorem ksba_cms_hash_signed_attrs_errors ext c w :
  (forall idx, hash_fnc c = None ->
     ksba_cms_hash_signed_attrs ext (Some c) idx w
     = Returns KSBA_Missing_Action (w, Some c))
  /\ (forall idx, is_Some (hash_fnc c) -> idx <> 0 ->
     ksba_cms_hash_signed_attrs ext (Some c) idx w
     = Returns KSBA_EOF (w, Some c))
  /\ (forall idx e st,
     ksba_cms_hash_signed_attrs ext (Some c) idx w = Returns e st ->
     e <> KSBA_No_Error -> st = (w, Some c)).
Proof.
  split; [|split].
  - intros idx Hf.
    unfold ksba_cms_hash_signed_attrs, with_cms, mbind, M_bind. simpl.
    rewrite Hf. reflexivity.
  - intros idx [f Hf] Hidx.
    unfold ksba_cms_hash_signed_attrs, with_cms, mbind, M_bind. simpl.
    rewrite Hf. destruct (Z.eqb_spec idx 0); [contradiction|]. reflexivity.
  - intros idx e st.
    unfold ksba_cms_hash_signed_attrs, with_cms, mbind, M_bind, node_at,
      call_hash_fnc, mbind, M_bind. simpl.
    destruct (hash_fnc c) as [f|]; [|now intros [= <- <-]].
    destruct (negb (idx =? 0)); [now intros [= <- <-]|]. simpl.
    destruct (_ksba_asn_find_node ext w _ _) as [n|]; [|now intros [= <- <-]].
    simpl. destruct (nodes w !! n) as [nd|]; [|discriminate].
    destruct (off nd =? -1); [now intros [= <- <-]|]. simpl.
    destruct (signer_info_image c) as [img|]; [|discriminate].
    destruct (mem_read img _ _); [|discriminate].
    simpl. intros [= <- _] He. contradiction.
Qed.

Lemma ksba_cms_hash_signed_attrs_errors_witness :
  ksba_cms_hash_signed_attrs demo_ext (Some demo_parsed_cms) 1 demo_world
  = Returns KSBA_EOF (demo_world, Some demo_parsed_cms).
Proof.
  apply (proj1 (proj2 (ksba_cms_hash_signed_attrs_errors demo_ext
                         demo_parsed_cms demo_world))).
  - eexists. reflexivity.
  - discriminate.
Defined.

(** X18.  The accessors only read the container: whenever
    [ksba_cms_get_issuer_serial], [ksba_cms_get_message_digest],
    [ksba_cms_get_sig_val] or [ksba_cms_hash_signed_attrs] return, the
    container is the one they were given; [ksba_cms_get_digest_algo]
    changes at most the cached digest-algorithm string, and that only
    from NULL to the string it returns. *)
Theorem accessors_read_only ext sexp c w :
  (forall idx ri rs a w' c',
     ksba_cms_get_issuer_serial ext (Some c) idx ri rs w
       = Returns a (w', c') -> c' = Some c)
  /\ (forall idx rd rl a w' c',
     ksba_cms_get_message_digest ext (Some c) idx rd rl w
       = Returns a (w', c') -> c' = Some c)
  /\ (forall idx a w' c',
     ksba_cms_get_sig_val ext sexp (Some c) idx w = Returns a (w', c') ->
     c' = Some c)
  /\ (forall idx a w' c',
     ksba_cms_hash_signed_attrs ext (Some c) idx w = Returns a (w', c') ->
     c' = Some c)
  /\ (forall idx a w' c',
     ksba_cms_get_digest_algo ext (Some c) idx w = Returns a (w', c') ->
     c' = Some c
     \/ (signer_info_cache_digest_algo c = None
         /\ is_Some a /\ c' = Some (set_cache_digest_algo a c))).
Proof.
  pose proof (@preserves_call_hash_fnc KsbaCMS (fun c0 => c0)) as Hhash.
  split; [|split; [|split; [|split]]].
  - intros idx ri rs a w' c'. apply with_cms_read_only.
    unfold get_issuer, get_serial. frame.
  - intros idx rd rl a w' c'. unfold ksba_cms_get_message_digest.
    destruct rd, rl; try (now intros [= _ _ <-]).
    apply with_cms_read_only. frame.
  - intros idx a w' c'. apply with_cms_read_only. frame.
  - intros idx a w' c'. apply with_cms_read_only. frame.
  - intros idx a w' c'.
    unfold ksba_cms_get_digest_algo, with_cms, mbind, M_bind, lift_world.
    simpl. destruct (signer_info_root c); [|intros [= _ _ <-]; now left].
    destruct (negb (idx =? 0)); [intros [= _ _ <-]; now left|].
    destruct (signer_info_cache_digest_algo c) as [p0|] eqn:Hcache;
      [intros [= _ _ <-]; now left|]. simpl.
    destruct (_ksba_oid_node_to_str ext _ _ w) as [[p1|] w1]; simpl.
    + intros [= <- _ <-]. right. eauto.
    + intros [= _ _ <-]. now left.
Qed.

Lemma accessors_read_only_witness :
  exists a w',
    ksba_cms_get_message_digest demo_ext (Some demo_parsed_cms) 0
      (Some None) (Some 0) demo_world
    = Returns a (w', Some demo_parsed_cms).
Proof.
  destruct (ksba_cms_get_message_digest demo_ext (Some demo_parsed_cms) 0
              (Some None) (Some 0) demo_world) as [a [w' c']|fl] eqn:Hrun;
    [|vm_compute in Hrun; discriminate Hrun].
  exists a, w'.
  rewrite (proj1 (proj2 (accessors_read_only demo_ext
                           (fun _ w0 => (KSBA_No_Error, None, w0))
                           demo_parsed_cms demo_world)) _ _ _ _ _ _ Hrun).
  reflexivity.
Defined.

(** ** Accessors: what they deliver *)

(** X19.  When [signedAttrs] holds exactly one messageDigest attribute
    whose value is a SET OF one OCTET STRING lying inside the stored
    image, [ksba_cms_get_message_digest (cms, 0, ..)] succeeds and
    delivers the content octets of that OCTET STRING: the [len] bytes
    of the image from [off + nhdr] on, with [len] as their length. *)
Theorem ksba_cms_get_message_digest_delivers
    ext c w root attrs n nd d dn img rd rl :
  signer_info_root c = Some root ->
  signer_info_image c = Some img ->
  _ksba_asn_find_node ext w (Some root) "SignerInfos..signedAttrs"
    = Some attrs ->
  _ksba_asn_find_type_value ext w (Some img) (Some attrs) 0 oid_messageDigest
    = Some n ->
  _ksba_asn_find_type_value ext w (Some img) (Some attrs) 1 oid_messageDigest
    = None ->
  nodes w !! n = Some nd -> type nd = TYPE_SET_OF -> down nd = Some d ->
  nodes w !! d = Some dn -> type dn = TYPE_OCTET_STRING -> right dn = None ->
  0 <= off dn + nhdr dn -> off dn <> -1 -> 0 <= len dn ->
  off dn + nhdr dn + len dn <= Z.of_nat (length img) ->
  xtrymalloc ext w (len dn) = true ->
  let digest := take (Z.to_nat (len dn))
                  (drop (Z.to_nat (off dn + nhdr dn)) img) in
  ksba_cms_get_message_digest ext (Some c) 0 (Some rd) (Some rl) w
    = Returns (KSBA_No_Error, Some (Some digest), Some (len dn)) (w, Some c)
  /\ Z.of_nat (length digest) = len dn.
Proof.
  intros Hroot Himg Hattrs H0 H1 Hnd Hty Hdown Hdn Hoct Hright
    Hstart Hoff Hlen Hend Hmalloc digest.
  destruct (mem_read_in_bounds img (off dn + nhdr dn) (len dn))
    as [Hread Hlength]; try lia.
  split; [|exact Hlength].
  unfold ksba_cms_get_message_digest, with_cms, mbind, M_bind, node_at.
  simpl. rewrite Hroot. simpl. rewrite Hattrs, Himg, H0, H1. simpl.
  rewrite Hnd, Hty. simpl. rewrite Hdown. simpl. rewrite Hdn, Hoct, Hright.
  simpl. destruct (Z.eqb_spec (off dn) (-1)); [contradiction|].
  rewrite Hmalloc. simpl. rewrite Hread. reflexivity.
Qed.

Lemma ksba_cms_get_message_digest_delivers_witness :
  ksba_cms_get_message_digest demo_ext (Some demo_parsed_cms) 0
    (Some None) (Some 0) demo_world
  = Returns (KSBA_No_Error, Some (Some [xde; xad; xbe; xef]), Some 4)
      (demo_world, Some demo_parsed_cms).
Proof.
  refine (proj1 (ksba_cms_get_message_digest_delivers demo_ext
            demo_parsed_cms demo_world 100%positive 101%positive 112%positive
            (demo_node TYPE_SET_OF 15 2 6 (Some 113%positive) None)
            113%positive (demo_node TYPE_OCTET_STRING 17 2 4 None None)
            demo_image None 0
            eq_refl eq_refl eq_refl eq_refl eq_refl eq_refl eq_refl eq_refl
            eq_refl eq_refl eq_refl _ _ _ _ eq_refl));
    vm_compute; congruence.
Defined.

Lemma byte_of_Z_to_N z : Z.of_N (Byte.to_N (byte_of_Z z)) = z mod 256.
Proof.
  unfold byte_of_Z.
  assert (Hlt : (Z.to_N (z mod 256) < 256)%N).
  { pose proof (Z.mod_pos_bound z 256 eq_refl). lia. }
  destruct (Byte.of_N (Z.to_N (z mod 256))) as [b|] eqn:Hb.
  - apply Byte.to_of_N in Hb. rewrite Hb.
    pose proof (Z.mod_pos_bound z 256 eq_refl). lia.
  - apply Byte.of_N_None_iff in Hb. lia.
Qed.

Lemma be32_length_octets n rest :
  0 <= n < 2 ^ 32 ->
  be32 ([ byte_of_Z (Z.shiftr n 24); byte_of_Z (Z.shiftr n 16);
          byte_of_Z (Z.shiftr n 8); byte_of_Z n ] ++ rest) = n.
Proof.
  intros Hn. cbn [be32 app]. rewrite !byte_of_Z_to_N.
  rewrite !Z.shiftr_div_pow2 by lia.
  change (2 ^ 24) with 16777216. change (2 ^ 16) with 65536.
  change (2 ^ 8) with 256. change (2 ^ 32) with 4294967296 in Hn.
  Z.div_mod_to_equations. lia.
Qed.

(** X20.  When only the serial number is asked for (issuer pointer
    NULL) and its node lies inside the stored image with a content
    length below 2^32, [ksba_cms_get_issuer_serial] succeeds and
    delivers a buffer of [len + 4] bytes: four octets that read [len]
    as a big-endian number, followed by the [len] content octets of the
    serial number. *)
Theorem ksba_cms_get_issuer_serial_length_prefix
    ext c w idx root n nd img rs :
  signer_info_root c = Some root ->
  signer_info_image c = Some img ->
  _ksba_asn_find_node ext w (Some root)
    "SignerInfos..sid.issuerAndSerialNumber.serialNumber" = Some n ->
  nodes w !! n = Some nd ->
  off nd <> -1 -> 0 <= off nd + nhdr nd -> 0 <= len nd < 2 ^ 32 ->
  off nd + nhdr nd + len nd <= Z.of_nat (length img) ->
  xtrymalloc ext w (len nd + 4) = true ->
  exists p,
    ksba_cms_get_issuer_serial ext (Some c) idx None (Some rs) w
      = Returns (KSBA_No_Error, None, Some (Some p)) (w, Some c)
    /\ Z.of_nat (length p) = len nd + 4
    /\ be32 p = len nd
    /\ drop 4 p = take (Z.to_nat (len nd))
                    (drop (Z.to_nat (off nd + nhdr nd)) img).
Proof.
  intros Hroot Himg Hfind Hnd Hoff Hstart Hlen Hend Hmalloc.
  destruct (mem_read_in_bounds img (off nd + nhdr nd) (len nd))
    as [Hread Hlength]; try lia.
  eexists. split; [|split; [|split]].
  - unfold ksba_cms_get_issuer_serial, get_issuer, get_serial, with_cms,
      mbind, M_bind, node_at.
    simpl. rewrite Hroot. simpl. rewrite Hfind. simpl. rewrite Hnd.
    destruct (Z.eqb_spec (off nd) (-1)); [contradiction|].
    rewrite Hmalloc. simpl. rewrite Himg, Hread. reflexivity.
  - cbn [app length]. lia.
  - apply be32_length_octets. exact Hlen.
  - reflexivity.
Qed.

Lemma ksba_cms_get_issuer_serial_length_prefix_witness :
  ksba_cms_get_issuer_serial demo_ext (Some demo_parsed_cms) 0 None
    (Some None) demo_world
  = Returns (KSBA_No_Error, None,
             Some (Some [x00; x00; x00; x04; xde; xad; xbe; xef]))
      (demo_world, Some demo_parsed_cms).
Proof.
  assert (H : 0 <= 4 < 2 ^ 32) by (vm_compute; split; congruence).
  destruct (ksba_cms_get_issuer_serial_length_prefix demo_ext
              demo_parsed_cms demo_world 0 100%positive 105%positive
              (demo_node TYPE_INTEGER 17 2 4 None None) demo_image None
              eq_refl eq_refl eq_refl eq_refl
              ltac:(vm_compute; congruence) ltac:(vm_compute; congruence)
              H ltac:(vm_compute; congruence) eq_refl)
    as (p & Hrun & _).
  rewrite Hrun. vm_compute in Hrun. injection Hrun as <-. reflexivity.
Defined.

(** X21.  [ksba_cms_get_issuer_serial] is not all-or-nothing: when both
    outputs are asked for and the issuer has been converted but the
    serial number node is missing, the call returns [KSBA_No_Value]
    although the issuer string is already stored in the caller's cell
    (and allocated in memory), the serial cell being untouched. *)
Theorem ksba_cms_get_issuer_serial_partial_output
    ext c w idx root n nd d dn str w1 ri rs :
  signer_info_root c = Some root ->
  _ksba_asn_find_node ext w (Some root)
    "SignerInfos..sid.issuerAndSerialNumber.issuer" = Some n ->
  nodes w !! n = Some nd -> down nd = Some d ->
  nodes w !! d = Some dn -> off dn <> -1 ->
  _ksba_dn_to_str ext (signer_info_image c) d w = (KSBA_No_Error, str, w1) ->
  _ksba_asn_find_node ext w1 (Some root)
    "SignerInfos..sid.issuerAndSerialNumber.serialNumber" = None ->
  ksba_cms_get_issuer_serial ext (Some c) idx (Some ri) (Some rs) w
  = Returns (KSBA_No_Value, Some str, Some rs) (w1, Some c).
Proof.
  intros Hroot Hfind Hnd Hdown Hdn Hoff Hstr Hserial.
  unfold ksba_cms_get_issuer_serial, get_issuer, get_serial, with_cms,
    mbind, M_bind, node_at, lift_world.
  simpl. rewrite Hroot. simpl. rewrite Hfind. simpl. rewrite Hnd, Hdown.
  simpl. rewrite Hdn. destruct (Z.eqb_spec (off dn) (-1)); [contradiction|].
  simpl. rewrite Hstr. simpl. rewrite Hserial. reflexivity.
Qed.

Lemma ksba_cms_get_issuer_serial_partial_output_witness :
  exists w1,
    ksba_cms_get_issuer_serial demo_ext (Some demo_parsed_cms) 0
      (Some None) (Some None) demo_world_no_serial
    = Returns (KSBA_No_Value, Some (Some 1%positive), Some None)
        (w1, Some demo_parsed_cms)
    /\ strings w1 !! 1%positive = Some "CN=demo".
Proof.
  exists (snd (demo_alloc_string "CN=demo" demo_world_no_serial)). split.
  - refine (ksba_cms_get_issuer_serial_partial_output demo_ext
              demo_parsed_cms demo_world_no_serial 0 100%positive
              103%positive
              (demo_node (TYPE_other 2) (-1) 0 0 (Some 104%positive) None)
              104%positive (demo_node TYPE_SEQUENCE 2 2 19 None None)
              (Some 1%positive) _ None None
              eq_refl eq_refl eq_refl eq_refl eq_refl _ eq_refl eq_refl).
    vm_compute. congruence.
  - vm_compute. reflexivity.
Defined.

(** X22.  [ksba_cms_get_sig_val] returns NULL for an index other than
    0.  For index 0, with the [signatureAlgorithm] node and its right
    sibling (the signature value) both located inside the stored
    image, it hands the converter the bytes of the image from the
    start of [signatureAlgorithm] through the end of the sibling, and
    returns the converter's string, or NULL if the converter fails. *)
Theorem ksba_cms_get_sig_val_region
    ext sexp c w root n nd n2 nd2 img :
  signer_info_root c = Some root ->
  (forall idx, idx <> 0 ->
     ksba_cms_get_sig_val ext sexp (Some c) idx w = Returns None (w, Some c))
  /\ (signer_info_image c = Some img ->
      _ksba_asn_find_node ext w (Some root) "SignerInfos..signatureAlgorithm"
        = Some n ->
      nodes w !! n = Some nd -> right nd = Some n2 ->
      nodes w !! n2 = Some nd2 ->
      0 <= off nd -> off nd2 <> -1 ->
      0 <= nhdr nd + len nd + (nhdr nd2 + len nd2) ->
      off nd + (nhdr nd + len nd + (nhdr nd2 + len nd2))
        <= Z.of_nat (length img) ->
      let region := take (Z.to_nat (nhdr nd + len nd + (nhdr nd2 + len nd2)))
                      (drop (Z.to_nat (off nd)) img) in
      ksba_cms_get_sig_val ext sexp (Some c) 0 w =
        let '(err, str, w1) := sexp region w in
        Returns (if is_error err then None else str) (w1, Some c)).
Proof.
  intros Hroot. split.
  - intros idx Hidx.
    unfold ksba_cms_get_sig_val, with_cms, mbind, M_bind. simpl.
    rewrite Hroot. destruct (Z.eqb_spec idx 0); [contradiction|]. reflexivity.
  - intros Himg Hfind Hnd Hright Hnd2 Hoff Hoff2 Hext Hend region.
    destruct (mem_read_in_bounds img (off nd)
                (nhdr nd + len nd + (nhdr nd2 + len nd2)))
      as [Hread _]; try lia.
    unfold ksba_cms_get_sig_val, with_cms, mbind, M_bind, node_at, lift_world.
    simpl. rewrite Hroot. simpl. rewrite Hfind. simpl. rewrite Hnd.
    destruct (Z.eqb_spec (off nd) (-1)); [lia|]. rewrite Hright. simpl.
    rewrite Hnd2. simpl.
    destruct (Z.eqb_spec (off nd2) (-1)); [contradiction|].
    rewrite Himg, Hread. simpl. fold region.
    destruct (sexp region w) as [[err str] w1]. simpl.
    destruct (is_error err); reflexivity.
Qed.

Lemma ksba_cms_get_sig_val_region_witness :
  ksba_cms_get_sig_val demo_ext (fun _ w0 => (KSBA_No_Error, None, w0))
    (Some demo_parsed_cms) 3 demo_world
  = Returns None (demo_world, Some demo_parsed_cms).
Proof.
  apply (proj1 (ksba_cms_get_sig_val_region demo_ext
                  (fun _ w0 => (KSBA_No_Error, None, w0)) demo_parsed_cms
                  demo_world 100%positive 1%positive
                  (demo_node TYPE_NONE 0 0 0 None None) 1%positive
                  (demo_node TYPE_NONE 0 0 0 None None) [] eq_refl)).
  discriminate.
Defined.

(** ** What a build step leaves alone *)

Section AttrFrames.

Context (ext : Externals) {X : Type} (f : KsbaCMS -> X) `{!AttrFrame f}.

Lemma keeps_lift_writer g : preserves f (lift_writer g).
Proof.
  intros s a s'. unfold lift_writer. destruct (g (writer (st_cms s))).
  intros [= _ <-]. apply attr_frame_writer.
Qed.

(** A store that depends on the container just read. *)
Lemma keeps_get_modify {A} (g : KsbaCMS -> KsbaCMS -> KsbaCMS) (rest : M A) :
  (forall c, f (g c c) = f c) ->
  preserves f rest ->
  preserves f (get_cms ≫= fun c => modify_cms (g c) ≫= fun _ => rest).
Proof.
  intros Hg Hrest s a s'. unfold mbind, M_bind, get_cms, modify_cms.
  intros Hrun. rewrite (Hrest _ _ _ Hrun). cbn [st_cms]. apply Hg.
Qed.

(** As [frame_step], with the stores the weaker frame allows. *)
Ltac keeps_step :=
  match goal with
  | |- preserves _ (lift_writer _) => apply keeps_lift_writer
  | |- preserves _ (modify_cms _) =>
      apply preserves_modify_cms; intros;
      first [ apply attr_frame_signer_info | apply attr_frame_stop_reason
            | apply attr_frame_detached ]
  | |- preserves _ (get_cms ≫= _) =>
      first [ apply keeps_get_modify; [intros; apply attr_frame_attr|]
            | apply preserves_bind; [apply preserves_get_cms|intros ?] ]
  | |- preserves _ (_ ≫= _) => apply preserves_bind; [|intros ?]
  | |- preserves _ (if ?b then _ else _) => destruct b
  | |- preserves _ (match ?x with _ => _ end) => destruct x
  | |- preserves _ _ => solve [auto with frame]
  end.

Ltac keeps := repeat (cbv zeta; keeps_step).

Lemma keeps_write_digest_algos fuel i :
  preserves f (write_digest_algos ext fuel i).
Proof.
  revert i. induction fuel as [|fuel IH]; intros i; cbn [write_digest_algos].
  - apply preserves_stuck.
  - apply preserves_bind; [apply preserves_get_cms|]. intros c.
    destruct (ksba_cms_get_digest_algo_list (Some c) i); [|apply preserves_ret].
    apply preserves_bind; [apply keeps_lift_writer|].
    intros err. destruct (is_error err); [apply preserves_ret|apply IH].
Qed.

Lemma keeps_build_signed_data_header :
  preserves f (build_signed_data_header ext).
Proof.
  pose proof keeps_write_digest_algos.
  unfold build_signed_data_header. keeps.
Qed.

Lemma keeps_attributes_loop tree signer certlist digestlist :
  preserves f (attributes_loop ext tree signer certlist digestlist).
Proof.
  pose proof (preserves_signed_attrs_slot ext f).
  revert signer digestlist.
  induction certlist as [|cl certlist IH]; intros signer digestlist;
    cbn [attributes_loop]; [apply preserves_ret|].
  destruct digestlist as [|dl digestlist]; [apply preserves_ret|].
  keeps.
Qed.

Lemma keeps_rest_loop tree signer certlist digestlist :
  preserves f (rest_loop ext tree signer certlist digestlist).
Proof.
  pose proof (preserves_signed_attrs_slot ext f).
  pose proof (preserves_set_issuer_serial ext f).
  revert signer digestlist.
  induction certlist as [|cl certlist IH]; intros signer digestlist;
    cbn [rest_loop]; [apply preserves_ret|].
  destruct digestlist as [|dl digestlist]; [apply preserves_ret|].
  keeps.
Qed.

Lemma keeps_ct_build_signed_data : preserves f (ct_build_signed_data ext).
Proof.
  pose proof keeps_build_signed_data_header.
  pose proof keeps_attributes_loop.
  pose proof keeps_rest_loop.
  unfold ct_build_signed_data, build_signed_data_attributes,
    build_signed_data_rest.
  keeps.
Qed.

Lemma keeps_call_handler h :
  h <> fn_ct_parse_signed_data -> preserves f (call_handler ext h).
Proof.
  intros Hh. destruct h; try contradiction; cbn [call_handler];
    try apply preserves_ret.
  apply keeps_ct_build_signed_data.
Qed.

Lemma keeps_ksba_cms_build c r0 w a w' c' :
  content_handler c <> Some fn_ct_parse_signed_data ->
  ksba_cms_build ext (Some c) (Some r0) w = Returns a (w', Some c') ->
  f c' = f c.
Proof.
  intros Hh.
  destruct (decide (stop_reason c = KSBA_SR_NONE)) as [Hsr|Hsr].
  - unfold ksba_cms_build, with_cms, mbind, M_bind. simpl. rewrite Hsr.
    destruct (negb _); [now intros [= _ _ <-]|].
    destruct (negb _); [now intros [= _ _ <-]|].
    destruct (negb _); [now intros [= _ _ <-]|].
    intros [= _ _ <-]. apply attr_frame_stop_reason.
  - destruct (content_handler c) as [h|] eqn:Hhc.
    + rewrite (ksba_cms_build_resumes ext c r0 w h Hsr Hhc).
      destruct (call_handler ext h _) as [err s1|fl] eqn:Hrun;
        [|discriminate].
      assert (Hkeep : f (st_cms s1) = f c).
      { refine (keeps_call_handler h _ _ _ _ Hrun). congruence. }
      destruct (is_error err); intros [= _ _ <-]; exact Hkeep.
    + unfold ksba_cms_build, with_cms, mbind, M_bind. simpl. rewrite Hhc.
      destruct (stop_reason c); try congruence; now intros [= _ _ <-].
Qed.

End AttrFrames.

(** X23.  A call of [ksba_cms_build], whatever build handler is
    installed and whether it succeeds or fails, changes neither what
    the caller configured (reader, outer content OID, type and handler,
    inner content type, digest algorithms, hash function, and the
    cached and loaded digests) nor the signers: their number, their
    order, their certificates and their message digests stay; only the
    attribute pair of a signer record is ever stored. *)
Theorem ksba_cms_build_leaves_inputs ext c r0 w a w' c' :
  content_handler c <> Some fn_ct_parse_signed_data ->
  ksba_cms_build ext (Some c) (Some r0) w = Returns a (w', Some c') ->
  build_inputs c' = build_inputs c /\ signer_cores c' = signer_cores c.
Proof.
  intros Hh Hrun. split.
  - exact (keeps_ksba_cms_build ext build_inputs c r0 w a w' c' Hh Hrun).
  - exact (keeps_ksba_cms_build ext signer_cores c r0 w a w' c' Hh Hrun).
Qed.

Lemma ksba_cms_build_leaves_inputs_witness :
  exists a w' c',
    ksba_cms_build demo_ext (Some demo_two_signers_cms) (Some KSBA_SR_NONE)
      demo_world = Returns a (w', Some c')
    /\ map (fun x => snd x) (signer_cores c') = [0; 4].
Proof.
  destruct (ksba_cms_build demo_ext (Some demo_two_signers_cms)
              (Some KSBA_SR_NONE) demo_world) as [a [w' [c'|]]|fl] eqn:Hrun;
    try (vm_compute in Hrun; discriminate Hrun).
  exists a, w', c'. split; [reflexivity|].
  rewrite (proj2 (ksba_cms_build_leaves_inputs demo_ext demo_two_signers_cms
                    KSBA_SR_NONE demo_world a w' c'
                    ltac:(discriminate) Hrun)).
  reflexivity.
Defined.

(** ** The START step of the builder *)

Lemma returns_ret {A} (a : A) : returns (mret a).
Proof. intros s. eexists _, _. reflexivity. Qed.

Lemma returns_bind {A B} (m : M A) (k : A -> M B) :
  returns m -> (forall a, returns (k a)) -> returns (m ≫= k).
Proof.
  intros Hm Hk s. unfold mbind, M_bind.
  destruct (Hm s) as (a & s1 & ->). apply Hk.
Qed.

Lemma returns_get_cms : returns get_cms.
Proof. intros s. eexists _, _. reflexivity. Qed.

Lemma returns_modify_cms g : returns (modify_cms g).
Proof. intros s. eexists _, _. reflexivity. Qed.

Lemma returns_lift_writer g : returns (lift_writer g).
Proof.
  intros s. unfold lift_writer. destruct (g (writer (st_cms s))).
  eexists _, _. reflexivity.
Qed.

Lemma write_digest_algos_returns ext fuel i s :
  0 <= i <= Z.of_nat (length (digest_algos (st_cms s))) ->
  Z.of_nat (length (digest_algos (st_cms s))) < i + Z.of_nat fuel ->
  exists e s', write_digest_algos ext fuel i s = Returns e s'.
Proof.
  revert i s. induction fuel as [|fuel IH]; intros i s Hi Hfuel; [lia|].
  cbn [write_digest_algos]. unfold mbind, M_bind, get_cms, lift_writer.
  cbn [ksba_cms_get_digest_algo_list].
  destruct (oidlist_nth (digest_algos (st_cms s)) i) as [ol|] eqn:Hnth;
    [|eexists _, _; reflexivity].
  destruct (oid ol) as [str|]; [|eexists _, _; reflexivity].
  destruct (_ksba_der_write_algorithm_identifier ext str _) as [err wr'].
  destruct (is_error err); [eexists _, _; reflexivity|].
  assert (i < Z.of_nat (length (digest_algos (st_cms s)))).
  { destruct (Z.ltb_spec i (Z.of_nat (length (digest_algos (st_cms s)))))
      as [Hlt|Hge]; [exact Hlt|].
    rewrite oidlist_nth_beyond in Hnth by exact Hge. discriminate. }
  apply IH; cbn [st_cms];
    replace (digest_algos (set_writer wr' (st_cms s)))
      with (digest_algos (st_cms s)) by reflexivity; lia.
Qed.

(** The loop of the header with the fuel the header gives it. *)
Lemma returns_digest_algos_loop ext {B} (k : KsbaError -> M B) :
  (forall e, returns (k e)) ->
  returns (get_cms ≫= fun c =>
           write_digest_algos ext (S (length (digest_algos c))) 0 ≫= k).
Proof.
  intros Hk s. unfold mbind, M_bind, get_cms.
  destruct (write_digest_algos_returns ext
              (S (length (digest_algos (st_cms s)))) 0 s)
    as (e & s1 & ->); [lia|lia|].
  apply Hk.
Qed.

Ltac returns_step :=
  match goal with
  | |- returns (mret _) => apply returns_ret
  | |- returns (lift_writer _) => apply returns_lift_writer
  | |- returns (modify_cms _) => apply returns_modify_cms
  | |- returns get_cms => apply returns_get_cms
  | |- returns (get_cms ≫= _) =>
      first [ apply returns_digest_algos_loop; intros ?
            | apply returns_bind; [apply returns_get_cms|intros ?] ]
  | |- returns (_ ≫= _) => apply returns_bind; [|intros ?]
  | |- returns (if ?b then _ else _) => destruct b
  | |- returns (match ?x with _ => _ end) => destruct x
  end.

Lemma build_signed_data_header_returns ext :
  returns (build_signed_data_header ext).
Proof.
  unfold build_signed_data_header. repeat (cbv zeta; returns_step).
Qed.

(** X24.  The START step of the builder always returns: entered with
    [KSBA_SR_GOT_CONTENT], [ct_build_signed_data] comes back with
    success or an error code whatever the writer and the codec do; it
    has no assertion, follows no node pointer, and its loop over the
    digest algorithms ends with the list. *)
Theorem ct_build_signed_data_start_returns ext s :
  stop_reason (st_cms s) = KSBA_SR_GOT_CONTENT ->
  exists e s', ct_build_signed_data ext s = Returns e s'.
Proof.
  intros Hsr. destruct s as [w c]. cbn [st_cms] in Hsr.
  unfold ct_build_signed_data.
  unfold mbind at 1 2, M_bind at 1 2. simpl. rewrite Hsr. simpl.
  match goal with
  | |- exists e s', ?m ?s0 = _ => assert (Hret : returns m)
  end.
  { pose proof (build_signed_data_header_returns ext) as Hhdr.
    repeat (cbv zeta; first [ exact Hhdr | returns_step ]). }
  apply Hret.
Qed.

Lemma ct_build_signed_data_start_returns_witness :
  exists e s',
    ct_build_signed_data demo_ext
      {| st_world := demo_world; st_cms := demo_two_signers_cms |}
    = Returns e s'.
Proof.
  exact (ct_build_signed_data_start_returns demo_ext
           {| st_world := demo_world; st_cms := demo_two_signers_cms |}
           eq_refl).
Defined.

Lemma ct_build_signed_data_start_flag ext s e s' :
  stop_reason (st_cms s) = KSBA_SR_GOT_CONTENT ->
  ct_build_signed_data ext s = Returns e s' ->
  detached_signature (st_cms s') = detached_requested (st_cms s)
  /\ (e = KSBA_No_Error ->
      stop_reason (st_cms s') =
        if detached_requested (st_cms s)
        then KSBA_SR_END_DATA else KSBA_SR_BEGIN_DATA).
Proof.
  destruct s as [w c]. simpl. intros Hsr.
  unfold ct_build_signed_data, mbind, M_bind. simpl. rewrite Hsr. simpl.
  assert (Hflag :
    match cert_list c with
    | cl :: _ =>
        if negb (msg_digest_len cl =? 0)
        then modify_cms (set_detached_signature true)
        else modify_cms (set_detached_signature false)
    | [] => modify_cms (set_detached_signature false)
    end {| st_world := w; st_cms := set_stop_reason KSBA_SR_RUNNING c |}
    = Returns tt {| st_world := w;
                    st_cms := set_detached_signature (detached_requested c)
                                (set_stop_reason KSBA_SR_RUNNING c) |}).
  { unfold detached_requested. destruct (cert_list c) as [|cl next];
      [reflexivity|]. destruct (negb _); reflexivity. }
  rewrite Hflag.
  destruct (build_signed_data_header ext _) as [err s1|fl] eqn:Hhdr;
    [|discriminate].
  pose proof (preserves_build_signed_data_header ext detached_signature
                _ _ _ Hhdr) as Hdet.
  simpl in Hdet.
  destruct (is_error err) eqn:Herr; intros [= <- <-].
  - split; [exact Hdet|]. intros ->. discriminate Herr.
  - simpl. split; [exact Hdet|]. intros _. now rewrite Hdet.
Qed.

(** X25.  How a caller asks for a detached signature: once
    [ksba_cms_set_message_digest] has succeeded for index 0, the first
    build step after [KSBA_SR_GOT_CONTENT] sets [detached_signature]
    and, when it succeeds, reports [KSBA_SR_END_DATA]; if another
    signer is added after that, the same step clears the flag and
    reports [KSBA_SR_BEGIN_DATA], whatever digests the older signers
    carry. *)
Theorem preset_digest_requests_detached ext c d n w c1 :
  ksba_cms_set_message_digest ext (Some c) 0 (Some d) n w
    = Returns KSBA_No_Error (w, Some c1) ->
  stop_reason c = KSBA_SR_GOT_CONTENT ->
  content_handler c = Some fn_ct_build_signed_data ->
  (forall r0 e r w' c',
     ksba_cms_build ext (Some c1) (Some r0) w = Returns (e, r) (w', Some c') ->
     detached_signature c' = true
     /\ (e = KSBA_No_Error -> r = Some KSBA_SR_END_DATA))
  /\ (forall k c2 r0 e r w' c',
     ksba_cms_add_signer ext (Some c1) k w
       = Returns KSBA_No_Error (w, Some c2) ->
     ksba_cms_build ext (Some c2) (Some r0) w = Returns (e, r) (w', Some c') ->
     detached_signature c' = false
     /\ (e = KSBA_No_Error -> r = Some KSBA_SR_BEGIN_DATA)).
Proof.
  intros Hset Hsr Hh.
  rewrite ksba_cms_set_message_digest_cases in Hset.
  destruct (Z.eqb_spec n 0) as [|Hn]; [discriminate|].
  destruct (msg_digest_size ext <? n); [discriminate|]. cbn [orb] in Hset.
  destruct (cert_list c) as [|cl next] eqn:Hl; [discriminate|].
  destruct (_ || _); [discriminate|].
  destruct (mem_read d 0 n) as [bytes|]; [|discriminate].
  injection Hset as <-.
  assert (Hstep : forall c0 r0 e r w' c',
    stop_reason c0 = KSBA_SR_GOT_CONTENT ->
    content_handler c0 = Some fn_ct_build_signed_data ->
    ksba_cms_build ext (Some c0) (Some r0) w = Returns (e, r) (w', Some c') ->
    detached_signature c' = detached_requested c0
    /\ (e = KSBA_No_Error ->
        r = Some (if detached_requested c0
                  then KSBA_SR_END_DATA else KSBA_SR_BEGIN_DATA))).
  { intros c0 r0 e r w' c' Hsr0 Hh0.
    rewrite (ksba_cms_build_resumes ext c0 r0 w _) by
      (try exact Hh0; rewrite Hsr0; discriminate).
    cbn [call_handler].
    destruct (ct_build_signed_data ext _) as [err s1|fl] eqn:Hrun;
      [|discriminate].
    destruct (ct_build_signed_data_start_flag ext
                {| st_world := w; st_cms := c0 |} err s1 Hsr0 Hrun)
      as [Hdet Hstop].
    cbn [st_cms] in Hdet, Hstop.
    destruct err; cbn [is_error]; intros [= <- <- <- <-];
      (split; [exact Hdet|]); try discriminate.
    intros _. now rewrite Hstop. }
  split.
  - intros r0 e r w' c' Hrun.
    apply Hstep in Hrun; [|exact Hsr|exact Hh].
    assert (Hreq : detached_requested
              (set_cert_list (set_msg_digest bytes n cl :: next) c) = true).
    { unfold detached_requested. cbn.
      destruct (Z.eqb_spec n 0); [contradiction|reflexivity]. }
    now rewrite Hreq in Hrun.
  - intros k c2 r0 e r w' c' Hadd Hrun.
    unfold ksba_cms_add_signer, with_cms, mbind, M_bind in Hadd.
    simpl in Hadd.
    destruct (xtrymalloc ext w 1); simpl in Hadd; [|discriminate].
    injection Hadd as <-.
    apply Hstep in Hrun; [|exact Hsr|exact Hh].
    exact Hrun.
Qed.

Lemma preset_digest_requests_detached_witness :
  exists c1 w' c',
    ksba_cms_set_message_digest demo_ext (Some demo_one_signer_cms) 0
      (Some [xde; xad; xbe; xef]) 4 demo_world
      = Returns KSBA_No_Error (demo_world, Some c1)
    /\ ksba_cms_build demo_ext (Some c1) (Some KSBA_SR_NONE) demo_world
       = Returns (KSBA_No_Error, Some KSBA_SR_END_DATA) (w', Some c')
    /\ detached_signature c' = true.
Proof.
  destruct (ksba_cms_set_message_digest demo_ext (Some demo_one_signer_cms) 0
              (Some [xde; xad; xbe; xef]) 4 demo_world)
    as [e0 [w0 [c1|]]|fl] eqn:Hset;
    try (vm_compute in Hset; discriminate Hset).
  assert (He0 : e0 = KSBA_No_Error /\ w0 = demo_world)
    by (vm_compute in Hset; injection Hset as <- <- _; split; reflexivity).
  destruct He0 as [-> ->].
  destruct (ksba_cms_build demo_ext (Some c1) (Some KSBA_SR_NONE) demo_world)
    as [[e r] [w' [c'|]]|fl] eqn:Hrun.
  - destruct (proj1 (preset_digest_requests_detached demo_ext
                       demo_one_signer_cms _ 4 demo_world c1 Hset
                       eq_refl eq_refl) _ _ _ _ _ Hrun) as [Hdet Hstop].
    assert (He : e = KSBA_No_Error).
    { vm_compute in Hset. injection Hset as <-.
      vm_compute in Hrun. now injection Hrun as <- _. }
    exists c1, w', c'. split; [reflexivity|].
    rewrite Hrun, (Hstop He), He. split; [reflexivity|exact Hdet].
  - exfalso. vm_compute in Hset. injection Hset as <-.
    vm_compute in Hrun. discriminate Hrun.
  - exfalso. vm_compute in Hset. injection Hset as <-.
    vm_compute in Hrun. discriminate Hrun.
Defined.

(** ** What a successful build step needs of the signers *)

Lemma succeeds_only_if_now (P : Prop) m : P -> succeeds_only_if P m.
Proof. intros HP s s' _. exact HP. Qed.

Lemma succeeds_only_if_mono (P Q : Prop) m :
  succeeds_only_if Q m -> (Q -> P) -> succeeds_only_if P m.
Proof. intros Hm HQP s s' Hrun. exact (HQP (Hm s s' Hrun)). Qed.

Lemma succeeds_only_if_error (P : Prop) e :
  is_error e = true -> succeeds_only_if P (mret e).
Proof.
  intros He s s'. unfold mret, M_ret. intros [= -> _]. discriminate He.
Qed.

Lemma succeeds_only_if_stuck (P : Prop) fl :
  succeeds_only_if P (stuck fl).
Proof. intros s s'. discriminate. Qed.

Lemma succeeds_only_if_bind {A} (P : Prop) (m : M A) k :
  (forall a, succeeds_only_if P (k a)) -> succeeds_only_if P (m ≫= k).
Proof.
  intros Hk s s'. unfold mbind, M_bind.
  destruct (m s) as [a s1|fl]; [apply Hk|discriminate].
Qed.

(** [err = f (); if (err) return err;] followed by code that
    succeeds only if [P]. *)
Lemma succeeds_only_if_DO (P : Prop) (m k : M KsbaError) :
  succeeds_only_if P k ->
  succeeds_only_if P
    (m ≫= fun err : KsbaError => if is_error err then mret err else k).
Proof.
  intros Hk. apply succeeds_only_if_bind. intros err.
  destruct (is_error err) eqn:He; [|exact Hk].
  now apply succeeds_only_if_error.
Qed.

(** The same idiom, when it is the call that succeeds only if [P]. *)
Lemma succeeds_only_if_DO_call (P : Prop) (m k : M KsbaError) :
  succeeds_only_if P m ->
  succeeds_only_if P
    (m ≫= fun err : KsbaError => if is_error err then mret err else k).
Proof.
  intros Hm s s'. unfold mbind, M_bind.
  destruct (m s) as [err s1|fl] eqn:Hrun; [|discriminate].
  destruct err; cbn [is_error]; unfold mret, M_ret; try discriminate.
  intros _. exact (Hm _ _ Hrun).
Qed.

Ltac needs_step :=
  match goal with
  | |- succeeds_only_if _ (stuck _) => apply succeeds_only_if_stuck
  | |- succeeds_only_if _ (mret ?e) =>
      apply succeeds_only_if_error; first [reflexivity | assumption]
  | |- succeeds_only_if _
         (_ ≫= fun err : KsbaError => if is_error err then mret err else _) =>
      apply succeeds_only_if_DO
  | |- succeeds_only_if _ (_ ≫= _) => apply succeeds_only_if_bind; intros ?
  | |- succeeds_only_if _ (if ?b then _ else _) => destruct b eqn:?
  | |- succeeds_only_if _ (match ?x with _ => _ end) => destruct x eqn:?
  end.

Ltac needs := repeat (cbv zeta; needs_step).

Lemma attributes_loop_needs ext tree signer certlist digestlist :
  succeeds_only_if (each_signer ready_for_attributes certlist digestlist)
    (attributes_loop ext tree signer certlist digestlist).
Proof.
  revert signer digestlist.
  induction certlist as [|cl certlist IH]; intros signer digestlist;
    cbn [attributes_loop each_signer]; [now apply succeeds_only_if_now|].
  destruct digestlist as [|dl digestlist]; [needs|].
  needs.
  apply (succeeds_only_if_mono _ _ _ (IH _ _)). intros Hrest.
  split; [|exact Hrest].
  match goal with
  | H : (negb _ || negb _) = false |- _ =>
      apply orb_false_elim in H; destruct H as [Hc Ho];
      apply negb_false_iff, bool_decide_eq_true in Hc, Ho
  end.
  match goal with
  | H : (msg_digest_len cl =? 0) = false |- _ => apply Z.eqb_neq in H
  end.
  repeat split; assumption.
Qed.

Lemma rest_loop_needs ext tree signer certlist digestlist :
  succeeds_only_if (each_signer ready_for_rest certlist digestlist)
    (rest_loop ext tree signer certlist digestlist).
Proof.
  revert signer digestlist.
  induction certlist as [|cl certlist IH]; intros signer digestlist;
    cbn [rest_loop each_signer]; [now apply succeeds_only_if_now|].
  destruct digestlist as [|dl digestlist]; [needs|].
  needs.
  apply (succeeds_only_if_mono _ _ _ (IH _ _)). intros Hrest.
  split; [|exact Hrest].
  match goal with
  | H : (negb _ || negb _) = false |- _ =>
      apply orb_false_elim in H; destruct H as [Hr Hi];
      apply negb_false_iff, bool_decide_eq_true in Hr, Hi
  end.
  repeat split; eauto.
Qed.

Lemma build_signed_data_attributes_needs ext :
  forall s s',
    build_signed_data_attributes ext s = Returns KSBA_No_Error s' ->
    signers_paired ready_for_attributes (st_cms s).
Proof.
  intros [w c] s'. unfold signers_paired.
  unfold build_signed_data_attributes, mbind, M_bind, lift_writer,
    lift_world, get_cms.
  cbn [st_cms st_world].
  destruct (_ksba_ber_write_tl ext _ _ _ _ _) as [e wr'].
  destruct e; cbn [is_error]; try discriminate.
  destruct (ksba_asn_create_tree ext _ _) as [[err tree] w'].
  destruct err; cbn [is_error st_cms]; try discriminate.
  change (cert_list (set_writer wr' c)) with (cert_list c).
  change (digest_algos (set_writer wr' c)) with (digest_algos c).
  destruct (cert_list c) as [|cl certlist]; [discriminate|].
  destruct (digest_algos c) as [|dl digestlist]; [discriminate|].
  intros Hrun. split; [discriminate|].
  exact (attributes_loop_needs ext _ _ _ _ _ _ Hrun).
Qed.

Lemma build_signed_data_rest_needs ext :
  forall s s',
    build_signed_data_rest ext s = Returns KSBA_No_Error s' ->
    signers_paired ready_for_rest (st_cms s).
Proof.
  intros [w c] s'. unfold signers_paired.
  unfold build_signed_data_rest.
  unfold mbind at 1 2, M_bind at 1 2, lift_world, get_cms.
  cbn [st_cms st_world].
  destruct (ksba_asn_create_tree ext _ _) as [[err tree] w'].
  destruct err; cbn [is_error st_cms]; try discriminate.
  destruct (cert_list c) as [|cl certlist]; [discriminate|].
  destruct (digest_algos c) as [|dl digestlist]; [discriminate|].
  intros Hrun. split; [discriminate|].
  refine (succeeds_only_if_DO_call _ _ _ (rest_loop_needs ext _ _ _ _) _ _
            Hrun).
Qed.

(** X26.  A call of [ksba_cms_build] that resumes a signed-data build
    at [KSBA_SR_BEGIN_DATA] or [KSBA_SR_END_DATA] succeeds only if
    there is a signer and every signer has, at its own position of the
    list of digest algorithms, an algorithm with an OID, and has a
    certificate and a message digest of nonzero length. *)
Theorem ksba_cms_build_attributes_need_signers ext c r0 w r st :
  content_handler c = Some fn_ct_build_signed_data ->
  stop_reason c = KSBA_SR_BEGIN_DATA \/ stop_reason c = KSBA_SR_END_DATA ->
  ksba_cms_build ext (Some c) (Some r0) w = Returns (KSBA_No_Error, r) st ->
  signers_paired ready_for_attributes c.
Proof.
  intros Hh Hsr.
  rewrite (ksba_cms_build_resumes ext c r0 w _) by
    (try exact Hh; destruct Hsr as [-> | ->]; discriminate).
  cbn [call_handler].
  destruct (ct_build_signed_data ext _) as [err s1|fl] eqn:Hrun;
    [|discriminate].
  destruct err; cbn [is_error]; try discriminate. intros _.
  unfold ct_build_signed_data in Hrun.
  unfold mbind at 1 2, M_bind at 1 2 in Hrun. simpl in Hrun.
  destruct Hsr as [Hsr|Hsr]; rewrite Hsr in Hrun; simpl in Hrun;
    apply build_action_success in Hrun; destruct Hrun as (s2 & Hrun & _);
    apply build_signed_data_attributes_needs in Hrun; exact Hrun.
Qed.

Lemma ksba_cms_build_attributes_need_signers_witness :
  stop_reason demo_started_cms = KSBA_SR_END_DATA
  /\ (exists r st,
        ksba_cms_build demo_ext (Some demo_started_cms) (Some KSBA_SR_NONE)
          demo_world_templates = Returns (KSBA_No_Error, r) st)
  /\ signers_paired ready_for_attributes demo_started_cms.
Proof.
  assert (Hh : content_handler demo_started_cms
               = Some fn_ct_build_signed_data) by (vm_compute; reflexivity).
  assert (Hsr : stop_reason demo_started_cms = KSBA_SR_END_DATA)
    by (vm_compute; reflexivity).
  destruct (ksba_cms_build demo_ext (Some demo_started_cms)
              (Some KSBA_SR_NONE) demo_world_templates)
    as [[e r] st|fl] eqn:Hrun; [|vm_compute in Hrun; discriminate Hrun].
  assert (He : e = KSBA_No_Error)
    by (vm_compute in Hrun; now injection Hrun as <- _).
  subst e. split; [exact Hsr|]. split; [now exists r, st|].
  exact (ksba_cms_build_attributes_need_signers demo_ext demo_started_cms
           KSBA_SR_NONE demo_world_templates r st Hh (or_intror Hsr) Hrun).
Defined.

(** X27.  A call of [ksba_cms_build] that resumes a signed-data build
    at [KSBA_SR_NEED_SIG] succeeds only if there is a signer and every
    signer has, at its own position of the list of digest algorithms,
    an algorithm with an OID, and has a certificate and the attributes
    (tree and image) the step before stored. *)
Theorem ksba_cms_build_signature_needs_attributes ext c r0 w r st :
  content_handler c = Some fn_ct_build_signed_data ->
  stop_reason c = KSBA_SR_NEED_SIG ->
  ksba_cms_build ext (Some c) (Some r0) w = Returns (KSBA_No_Error, r) st ->
  signers_paired ready_for_rest c.
Proof.
  intros Hh Hsr.
  rewrite (ksba_cms_build_resumes ext c r0 w _) by
    (try exact Hh; rewrite Hsr; discriminate).
  cbn [call_handler].
  destruct (ct_build_signed_data ext _) as [err s1|fl] eqn:Hrun;
    [|discriminate].
  destruct err; cbn [is_error]; try discriminate. intros _.
  unfold ct_build_signed_data in Hrun.
  unfold mbind at 1 2, M_bind at 1 2 in Hrun. simpl in Hrun.
  rewrite Hsr in Hrun; simpl in Hrun.
  apply build_action_success in Hrun. destruct Hrun as (s2 & Hrun & _).
  apply build_signed_data_rest_needs in Hrun. exact Hrun.
Qed.

Lemma ksba_cms_build_signature_needs_attributes_witness :
  stop_reason demo_attributes_cms = KSBA_SR_NEED_SIG
  /\ (exists r st,
        ksba_cms_build demo_rest_ext (Some demo_attributes_cms)
          (Some KSBA_SR_NONE) demo_world_templates
          = Returns (KSBA_No_Error, r) st)
  /\ signers_paired ready_for_rest demo_attributes_cms.
Proof.
  assert (Hh : content_handler demo_attributes_cms
               = Some fn_ct_build_signed_data) by (vm_compute; reflexivity).
  assert (Hsr : stop_reason demo_attributes_cms = KSBA_SR_NEED_SIG)
    by (vm_compute; reflexivity).
  destruct (ksba_cms_build demo_rest_ext (Some demo_attributes_cms)
              (Some KSBA_SR_NONE) demo_world_templates)
    as [[e r] st|fl] eqn:Hrun; [|vm_compute in Hrun; discriminate Hrun].
  assert (He : e = KSBA_No_Error)
    by (vm_compute in Hrun; now injection Hrun as <- _).
  subst e. split; [exact Hsr|]. split; [now exists r, st|].
  exact (ksba_cms_build_signature_needs_attributes demo_rest_ext
           demo_attributes_cms KSBA_SR_NONE demo_world_templates r st
           Hh Hsr Hrun).
Defined.

(** ** An engine error is terminal until the handler is replaced *)









